(** * Failover coordination of the PBS Pro server: src/server/failover.c

    A shallow embedding of the secondary server's state machine
    ([be_secondary]), of the handlers it installs on the control
    connection ([read_reg_reply], [read_fo_request], [req_failover]) and
    of the fencing hook ([check_and_invoke_stonith]), followed by the
    properties of the failover specification that are about them.
    The functions that the primary runs ([primary_handshake],
    [failover_send_shutdown], [close_secondary],
    [takeover_from_secondary], ...) and the job submission of the client
    library (src/lib/Libifl/pbsD_submit.c, in the module [Libifl]) are
    embedded in the same way, with properties of their own.

    Conventions.
    - C integers ([int], [time_t], [unsigned long]) are values of [Z].
      [unsigned long] and [time_t] are taken 64 bits wide (the persisted
      host-id file is 8 bytes).  The wrap-around of [unsigned long] is
      written out ([to_ulong]), and so is that of every sum in which
      [secondary_delay] enters ([time_add]): the delay is a value of the
      configuration, of any size, and the sum is what the machine
      computes, modulo 2^64.  The other sums are of readings of the
      clock or of loop counters with small constants; they stay far
      inside the range of their type and are the mathematical ones.
    - A line that is formatted with [snprintf] into [log_buffer] and
      handed to [log_event] is cut to the size of that buffer
      ([snprintf], [LOG_BUF_SIZE]): the event of the call carries the
      text after the cut.  The events of [system] and [log_err], and
      those of the lines that [sprintf] formats, carry the format and
      its arguments; they say nothing of the length of the text.
    - The file-static and global variables are the fields of [state]; a
      function of the source is a function in the monad [M], which
      threads the state and stops at [exit()].
    - A call of a routine that lives outside failover.c (the network
      layer, the request transport, libc) is recorded, in program order,
      on the [trace] of the state; what the routine returns is an input
      of the model (the records [req_env], [reg_reply_env], ...).
      The stores to [Secondary_state] are recorded on the trace as well,
      so that their position among the calls can be read off.
    - The branches compiled for systems other than WIN32 are the ones
      modelled; the [DBPRT] debug prints, which have no effect on the
      state, are left out, and so are the look-ups that only return a
      value ([get_conn], [get_connecthost], [time]): what they return is
      among the inputs. *)

From Stdlib Require Import ZArith String Ascii List Bool Lia.
Import ListNotations.
Local Open Scope string_scope.
Local Open Scope list_scope.
Local Open Scope Z_scope.

(** ** Constants *)

(** The states of the secondary, as the macros of failover.c give them. *)
Definition SECONDARY_STATE_noconn : Z := -1.
Definition SECONDARY_STATE_conn : Z := 0.
Definition SECONDARY_STATE_regsent : Z := 1.
Definition SECONDARY_STATE_handsk : Z := 3.
Definition SECONDARY_STATE_nohsk : Z := 4.
Definition SECONDARY_STATE_shutd : Z := 5.
Definition SECONDARY_STATE_takeov : Z := 6.
Definition SECONDARY_STATE_inact : Z := 7.
Definition SECONDARY_STATE_idle : Z := 8.

Definition HANDSHAKE_TIME : Z := 5.

(** [ENOENT] of errno.h. *)
Definition ENOENT : Z := 2.

(** Macros of headers that are not part of the sources at hand
    (pbs_error.h, dis.h, net_connect.h, server.h, log.h): parameters of
    the development.  [PBSE_NONE] is 0, as the source itself relies on
    ([brp_code != 0] is how it recognises a rejection).  [LOG_BUF_SIZE]
    is the number of bytes of the array [log_buffer], which makes it
    positive. *)
Class pbs_headers : Type := {
  PBSE_SYSTEM : Z;
  PBSE_OBJBUSY : Z;
  PBSE_UNKREQ : Z;
  DIS_EOD : Z;
  PBS_NET_CONN_AUTHENTICATED : Z;
  PBS_NET_CONN_NOTIMEOUT : Z;
  SV_STATE_SECIDLE : Z;
  LOG_BUF_SIZE : Z;
  LOG_BUF_SIZE_pos : 0 < LOG_BUF_SIZE
}.

Definition PBSE_NONE : Z := 0.

(** Data of the server process that failover.c reads and never writes:
    [hostidnum], [server_host], the fields of [pbs_conf] it uses, and
    what [pbs_get_hostid()] returns on this host.  The two host names of
    [pbs_conf] are C strings that may be null. *)
Class pbs_globals : Type := {
  hostidnum : Z;
  pbs_get_hostid : Z;
  server_host : string;
  pbs_primary : option string;
  pbs_secondary : option string;
  pbs_server_name : string;
  pbs_home_path : string
}.

(** ** Requests and replies *)

(** The tag [rq_ind.rq_failover] of a failover request.  It is only ever
    compared with the six [FAILOVER_*] macros; [FAILOVER_other n] stands
    for a tag [n] that is none of them (the [default:] of the switch). *)
Inductive failover_tag : Type :=
| FAILOVER_Register
| FAILOVER_HandShake
| FAILOVER_PrimIsBack
| FAILOVER_SecdShutdown
| FAILOVER_SecdGoInactive
| FAILOVER_SecdTakeOver
| FAILOVER_other (n : Z).

(** [brp_choice] of a reply, compared only with the two macros below. *)
Inductive reply_choice : Type :=
| BATCH_REPLY_CHOICE_NULL
| BATCH_REPLY_CHOICE_Text
| BATCH_REPLY_CHOICE_other (n : Z).

(** The fields of [struct batch_request] that failover.c touches. *)
Record batch_request : Type := mkReq {
  rq_conn : Z;
  rq_failover : failover_tag;
  brp_code : Z;
  brp_auxcode : Z;
  brp_choice : reply_choice
}.

Definition set_brp_auxcode (v : Z) (r : batch_request) : batch_request :=
  mkReq (rq_conn r) (rq_failover r) (brp_code r) v (brp_choice r).

Definition set_brp_code (v : Z) (r : batch_request) : batch_request :=
  mkReq (rq_conn r) (rq_failover r) v (brp_auxcode r) (brp_choice r).

Definition set_brp_choice (v : reply_choice) (r : batch_request) : batch_request :=
  mkReq (rq_conn r) (rq_failover r) (brp_code r) (brp_auxcode r) v.

(** ** The trace of outside calls *)

Inductive severity : Type :=
| LOG_DEBUG | LOG_INFO | LOG_NOTICE | LOG_WARNING | LOG_CRIT.

(** The files failover.c works on, named after the path variable or the
    format that builds the path. *)
Inductive file : Type :=
| path_svrlive
| path_secondaryact
| license_fo          (* "%s/license.fo", path_priv *)
| stonith_fl          (* "%s/server_priv/stonith", pbs_home_path *)
| out_err_fl.         (* "%s/spool/stonith_out_err_fl_%s_%d" *)

(** An argument of a printf-style format; [ArgF] is the path of a file. *)
Inductive fmt_arg : Type :=
| ArgS (s : string)
| ArgZ (z : Z)
| ArgF (f : file).

(** The read callbacks that are installed on a connection. *)
Inductive callback : Type :=
| cb_process_Dreply
| cb_read_reg_reply
| cb_read_fo_request.

Inductive open_flag : Type := O_RDONLY | O_WRONLY | O_CREAT | O_TRUNC.

(** [E_log_event sev fmt args] is a call of [log_event] with the text
    that [fmt] gives for [args]; a text that the program has cut to the
    size of a buffer is carried whole in [fmt], with no arguments. *)
Inductive event : Type :=
| E_log_event (sev : severity) (fmt : string) (args : list fmt_arg)
| E_log_err (fmt : string)
| E_printf (fmt : string) (args : list fmt_arg)
| E_sleep (sec : Z)
| E_alarm (sec : Z)
| E_client_to_svr
| E_add_conn (sock : Z) (f : callback)
| E_cn_authen_or (sock : Z) (flag : Z)
| E_cn_func (sock : Z) (f : callback)
| E_net_add_close_func (sock : Z)
| E_close_conn (sock : Z)
| E_CS_close_socket (sock : Z)
| E_close (fd : Z)
| E_alloc_br (ok : bool)
| E_free_br
| E_put_failover (sock : Z) (tag : failover_tag)
| E_reply_send (preq : batch_request)
| E_reply_text (preq : batch_request) (code : Z) (text : string)
| E_req_reject (code : Z) (aux : Z) (preq : batch_request)
| E_wait_request (sec : Z)
| E_stat (f : file)
| E_system (cmd_fmt : string) (args : list fmt_arg)
| E_open (f : file) (flags : list open_flag) (mode : Z)
| E_write_ulong (fd : Z) (value : Z) (size : Z)
| E_read (fd : Z)
| E_fopen (f : file) (mode : string)
| E_fprintf (f : file) (text : string)
| E_fclose (f : file)
| E_unlink (f : file)
| E_store_Secondary_state (v : Z)
| E_call (name : string).

(** ** The state of a server process *)

Record state : Type := mkState {
  pbs_failover_active : Z;
  sec_sock : Z;
  Secondary_connection : Z;
  Secondary_state : Z;
  hd_time : Z;
  goidle_ack : Z;
  secondary_delay : Z;
  time_now : Z;
  sv_state : Z;                              (* server.sv_attr[SRV_ATR_State] *)
  saved_takeover_req : option batch_request;
  secondaryact : option string;              (* the file at path_secondaryact *)
  trace : list event
}.

(** The state of a process that has just been started. *)
Definition initial_state (delay now : Z) (marker : option string) : state :=
  mkState 0 (-1) (-1) SECONDARY_STATE_noconn 0 0 delay now 0 None marker [].

Definition set_pbs_failover_active (v : Z) (s : state) : state :=
  mkState v (sec_sock s) (Secondary_connection s) (Secondary_state s) (hd_time s)
    (goidle_ack s) (secondary_delay s) (time_now s) (sv_state s)
    (saved_takeover_req s) (secondaryact s) (trace s).

Definition set_sec_sock (v : Z) (s : state) : state :=
  mkState (pbs_failover_active s) v (Secondary_connection s) (Secondary_state s)
    (hd_time s) (goidle_ack s) (secondary_delay s) (time_now s) (sv_state s)
    (saved_takeover_req s) (secondaryact s) (trace s).

Definition set_Secondary_connection (v : Z) (s : state) : state :=
  mkState (pbs_failover_active s) (sec_sock s) v (Secondary_state s) (hd_time s)
    (goidle_ack s) (secondary_delay s) (time_now s) (sv_state s)
    (saved_takeover_req s) (secondaryact s) (trace s).

Definition set_Secondary_state (v : Z) (s : state) : state :=
  mkState (pbs_failover_active s) (sec_sock s) (Secondary_connection s) v (hd_time s)
    (goidle_ack s) (secondary_delay s) (time_now s) (sv_state s)
    (saved_takeover_req s) (secondaryact s) (trace s).

Definition set_hd_time (v : Z) (s : state) : state :=
  mkState (pbs_failover_active s) (sec_sock s) (Secondary_connection s)
    (Secondary_state s) v (goidle_ack s) (secondary_delay s) (time_now s)
    (sv_state s) (saved_takeover_req s) (secondaryact s) (trace s).

Definition set_goidle_ack (v : Z) (s : state) : state :=
  mkState (pbs_failover_active s) (sec_sock s) (Secondary_connection s)
    (Secondary_state s) (hd_time s) v (secondary_delay s) (time_now s)
    (sv_state s) (saved_takeover_req s) (secondaryact s) (trace s).

Definition set_secondary_delay (v : Z) (s : state) : state :=
  mkState (pbs_failover_active s) (sec_sock s) (Secondary_connection s)
    (Secondary_state s) (hd_time s) (goidle_ack s) v (time_now s)
    (sv_state s) (saved_takeover_req s) (secondaryact s) (trace s).

Definition set_time_now (v : Z) (s : state) : state :=
  mkState (pbs_failover_active s) (sec_sock s) (Secondary_connection s)
    (Secondary_state s) (hd_time s) (goidle_ack s) (secondary_delay s) v
    (sv_state s) (saved_takeover_req s) (secondaryact s) (trace s).

Definition set_sv_state (v : Z) (s : state) : state :=
  mkState (pbs_failover_active s) (sec_sock s) (Secondary_connection s)
    (Secondary_state s) (hd_time s) (goidle_ack s) (secondary_delay s)
    (time_now s) v (saved_takeover_req s) (secondaryact s) (trace s).

Definition set_saved_takeover_req (v : option batch_request) (s : state) : state :=
  mkState (pbs_failover_active s) (sec_sock s) (Secondary_connection s)
    (Secondary_state s) (hd_time s) (goidle_ack s) (secondary_delay s)
    (time_now s) (sv_state s) v (secondaryact s) (trace s).

Definition set_secondaryact (v : option string) (s : state) : state :=
  mkState (pbs_failover_active s) (sec_sock s) (Secondary_connection s)
    (Secondary_state s) (hd_time s) (goidle_ack s) (secondary_delay s)
    (time_now s) (sv_state s) (saved_takeover_req s) v (trace s).

Definition set_trace (v : list event) (s : state) : state :=
  mkState (pbs_failover_active s) (sec_sock s) (Secondary_connection s)
    (Secondary_state s) (hd_time s) (goidle_ack s) (secondary_delay s)
    (time_now s) (sv_state s) (saved_takeover_req s) (secondaryact s) v.

(** ** The monad of the handlers: state, and end of the process *)

Inductive outcome (A : Type) : Type :=
| Ok (a : A) (s : state)          (* the function returned [a] *)
| Exited (code : Z) (s : state).  (* the process called [exit(code)] *)

Arguments Ok {A} a s.
Arguments Exited {A} code s.

Definition M (A : Type) : Type := state -> outcome A.

Definition ret {A : Type} (a : A) : M A := fun s => Ok a s.

Definition bind {A B : Type} (m : M A) (k : A -> M B) : M B :=
  fun s => match m s with
           | Ok a s' => k a s'
           | Exited c s' => Exited c s'
           end.

Notation "x <- m ;; k" := (bind m (fun x => k))
  (at level 61, m at next level, right associativity).
Notation "m ;; k" := (bind m (fun _ => k))
  (at level 61, right associativity).

Definition exit {A : Type} (code : Z) : M A := fun s => Exited code s.

Definition gets {A : Type} (f : state -> A) : M A := fun s => Ok (f s) s.

Definition modify (f : state -> state) : M unit := fun s => Ok tt (f s).

Definition emit (e : event) : M unit :=
  modify (fun s => set_trace (trace s ++ [e]) s).

Definition skip : M unit := ret tt.

(** [Secondary_state = v;] *)
Definition store_Secondary_state (v : Z) : M unit :=
  modify (set_Secondary_state v) ;; emit (E_store_Secondary_state v).

Definition final_state {A : Type} (o : outcome A) : state :=
  match o with Ok _ s => s | Exited _ s => s end.

(** ** libc: [unsigned long], [time_t], ["%ld"], [atol] and [snprintf] *)

Definition LONG_MAX : Z := 2 ^ 63 - 1.
Definition LONG_MIN : Z := - 2 ^ 63.

(** The conversion to [unsigned long]. *)
Definition to_ulong (z : Z) : Z := z mod 2 ^ 64.

(** The [long] that has the bits of an [unsigned long]: what ["%ld"]
    prints when it is handed one. *)
Definition to_long (z : Z) : Z :=
  let u := to_ulong z in if u <? 2 ^ 63 then u else u - 2 ^ 64.

(** The sum of two values of [time_t], a [long] of 64 bits, as the
    machine computes it: the mathematical sum when that is a value of
    the type, and else the value of the type that differs from it by a
    multiple of 2^64. *)
Definition time_add (a b : Z) : Z := to_long (a + b).

Definition digit_char (d : Z) : ascii := ascii_of_nat (48 + Z.to_nat d).

(** The decimal digits of [n], most significant first, put before [acc]. *)
Fixpoint print_digits (fuel : nat) (n : Z) (acc : string) : string :=
  match fuel with
  | O => acc
  | S f =>
      let acc' := String (digit_char (n mod 10)) acc in
      if n <? 10 then acc' else print_digits f (n / 10) acc'
  end.

(** [sprintf(buf, "%ld", z)] for a [long] [z] (at most 19 digits). *)
Definition sprintf_ld (z : Z) : string :=
  if z <? 0 then String "-"%char (print_digits 19 (- z) "")
  else print_digits 19 z "".

Definition isspace (c : ascii) : bool :=
  let n := Z.of_nat (nat_of_ascii c) in
  (n =? 32) || ((9 <=? n) && (n <=? 13)).

Definition digit_val (c : ascii) : option Z :=
  let n := Z.of_nat (nat_of_ascii c) in
  if (48 <=? n) && (n <=? 57) then Some (n - 48) else None.

Fixpoint skip_space (s : string) : string :=
  match s with
  | String c s' => if isspace c then skip_space s' else s
  | EmptyString => EmptyString
  end.

(** The value of the leading decimal digits of [s], continuing [acc]. *)
Fixpoint strtol_digits (s : string) (acc : Z) : Z :=
  match s with
  | String c s' =>
      match digit_val c with
      | Some d => strtol_digits s' (10 * acc + d)
      | None => acc
      end
  | EmptyString => acc
  end.

Definition clamp_long (z : Z) : Z := Z.max LONG_MIN (Z.min LONG_MAX z).

(** [atol(s)], that is [strtol(s, NULL, 10)]: white space, an optional
    sign, decimal digits; a value out of the range of [long] comes back
    as the nearest bound. *)
Definition atol (s : string) : Z :=
  match skip_space s with
  | String c s' =>
      if Ascii.eqb c "-"%char then clamp_long (- strtol_digits s' 0)
      else if Ascii.eqb c "+"%char then clamp_long (strtol_digits s' 0)
      else clamp_long (strtol_digits (String c s') 0)
  | EmptyString => 0
  end.

(** The first [n] characters of [s], or all of [s] when it has fewer. *)
Fixpoint take_chars (n : Z) (s : string) : string :=
  match s with
  | EmptyString => EmptyString
  | String c s' => if n <=? 0 then EmptyString else String c (take_chars (n - 1) s')
  end.

(** [snprintf(buf, size, ...)] for a [size] of 1 or more: [text] is what
    the format and its arguments give, and the buffer receives the first
    [size - 1] characters of it, followed by NUL. *)
Definition snprintf (size : Z) (text : string) : string :=
  take_chars (size - 1) text.

(** ["%d"] shows an [int] with the digits that ["%ld"] shows for the
    [long] of the same value. *)
Definition sprintf_d (z : Z) : string := sprintf_ld z.

(** A C string that may be the null pointer, as ["%s"] shows it. *)
Definition c_str (o : option string) : string :=
  match o with Some s => s | None => "(null)" end.

(** [out_err_msg] after the loop that overwrites the trailing carriage
    returns and line feeds with NUL. *)
Fixpoint strip_crlf (s : string) : string :=
  match s with
  | EmptyString => EmptyString
  | String c s' =>
      match strip_crlf s' with
      | EmptyString =>
          if Ascii.eqb c "013"%char || Ascii.eqb c "010"%char then EmptyString
          else String c EmptyString
      | t => String c t
      end
  end.

(** ** What the outside returns to the handlers *)

(** For one call of [req_failover]. *)
Record req_env : Type := mkReqEnv {
  rq_get_conn : bool;        (* get_conn(preq->rq_conn) is not null *)
  rq_connecthost : string;   (* the host name get_connecthost() finds *)
  rq_handle : Z;             (* socket_to_handle(preq->rq_conn) *)
  rq_time : Z                (* time(0) *)
}.

(** For one call of [read_fo_request]. *)
Record fo_read_env : Type := mkFoReadEnv {
  fr_alloc : bool;           (* alloc_br(0) is not null *)
  fr_rc : Z;                 (* dis_request_read() *)
  fr_tag : failover_tag;     (* the decoded rq_ind.rq_failover *)
  fr_req : req_env
}.

(** For one call of [read_reg_reply]. *)
Record reg_reply_env : Type := mkRegReplyEnv {
  rr_rc : Z;                 (* DIS_reply_read() *)
  rr_code : Z;               (* fo_reply.brp_code after the read *)
  rr_choice : reply_choice;  (* fo_reply.brp_choice after the read *)
  rr_str : option string;    (* fo_reply.brp_un.brp_txt.brp_str, null or text *)
  rr_get_conn : bool;        (* get_conn(sock) is not null *)
  rr_time : Z;               (* time(0) *)
  rr_open : Z;               (* open() of license.fo: a descriptor or -1 *)
  rr_write : Z               (* write() of the host id: bytes written or -1 *)
}.

(** For one call of [check_and_invoke_stonith]. *)
Record stonith_env : Type := mkStonithEnv {
  so_stat : Z;               (* stat() of the script: 0 or -1 *)
  so_errno : Z;              (* errno after that stat() *)
  so_system : Z;             (* system() of the command line *)
  so_open : Z;               (* open() of the output file: a descriptor or -1 *)
  so_fstat : Z;              (* fstat() of it: 0 or -1 *)
  so_malloc : bool;          (* malloc() is not null *)
  so_read : Z;               (* read(): bytes read or -1 *)
  so_text : string           (* the buffer as a C string, once terminated *)
}.

Section Handlers.

Context {hdr : pbs_headers} {glob : pbs_globals}.

(** [wait_request()] of the network layer (net_server.c, not part of the
    sources at hand): it polls the connections for the given number of
    seconds and runs the read callback of each one that is ready, so it
    may change the state in any way a callback does; it returns -1 on a
    failure of the poll. *)
Variable wait_request : Z -> M Z.

Definition call_wait_request (sec : Z) : M Z :=
  emit (E_wait_request sec) ;; wait_request sec.

Definition log_event (sev : severity) (fmt : string) (args : list fmt_arg) : M unit :=
  emit (E_log_event sev fmt args).

(** [snprintf(log_buffer, LOG_BUF_SIZE, ...)] followed by
    [log_event(..., log_buffer)]: [text] is what the format and its
    arguments give, and the line that is logged is what the buffer
    holds of it. *)
Definition log_buffer_event (sev : severity) (text : string) : M unit :=
  emit (E_log_event sev (snprintf LOG_BUF_SIZE text) []).

Definition is_Text (c : reply_choice) : bool :=
  match c with BATCH_REPLY_CHOICE_Text => true | _ => false end.

(** *** req_failover *)

(** The statements of [req_failover] after its [switch], entered with
    the value of [err]. *)
Definition req_failover_reply (err : Z) (preq : batch_request) : M unit :=
  if negb (err =? 0) then
    emit (E_req_reject PBSE_SYSTEM 0 preq)
  else
    let preq := set_brp_choice BATCH_REPLY_CHOICE_NULL (set_brp_code 0 preq) in
    match rq_failover preq with
    | FAILOVER_PrimIsBack =>
        modify (set_saved_takeover_req (Some preq))
    | FAILOVER_SecdTakeOver =>
        emit (E_reply_send preq) ;;
        _ <- call_wait_request 600 ;;
        ss <- gets sec_sock ;;
        if negb (ss =? -1) then
          emit (E_close_conn ss) ;; modify (set_sec_sock (-1))
        else skip
    | _ =>
        emit (E_reply_send preq)
    end.

Definition req_failover (e : req_env) (preq0 : batch_request) : M unit :=
  let preq := set_brp_auxcode 0 preq0 in
  if negb (rq_get_conn e) then
    emit (E_req_reject PBSE_SYSTEM 0 preq)
  else
    match rq_failover preq with
    | FAILOVER_Register =>
        sc <- gets Secondary_connection ;;
        if sc >=? 0 then
          log_event LOG_WARNING
            "Failover: second secondary tried to register, host: %s"
            [ArgS (rq_connecthost e)] ;;
          req_failover_reply PBSE_OBJBUSY preq
        else
          log_event LOG_INFO "Failover: registering %s as Secondary Server"
            [ArgS (rq_connecthost e)] ;;
          emit (E_cn_authen_or (rq_conn preq) PBS_NET_CONN_NOTIMEOUT) ;;
          modify (set_Secondary_connection (rq_handle e)) ;;
          emit (E_cn_func (rq_conn preq) cb_process_Dreply) ;;
          emit (E_net_add_close_func (rq_conn preq)) ;;
          emit (E_reply_text preq PBSE_NONE (sprintf_ld (to_long hostidnum)))
    | FAILOVER_HandShake =>
        modify (set_hd_time (rq_time e)) ;;
        st <- gets Secondary_state ;;
        (if st =? SECONDARY_STATE_nohsk
         then store_Secondary_state SECONDARY_STATE_handsk else skip) ;;
        req_failover_reply 0 preq
    | FAILOVER_PrimIsBack =>
        modify (set_sv_state SV_STATE_SECIDLE) ;;
        log_event LOG_CRIT
          "received takeover message from primary, going inactive" [] ;;
        emit (E_unlink path_secondaryact) ;;
        modify (set_secondaryact None) ;;
        req_failover_reply 0 preq
    | FAILOVER_SecdShutdown =>
        log_event LOG_CRIT "Failover: Secondary told to shut down" [] ;;
        emit (E_reply_send preq) ;;
        exit 0
    | FAILOVER_SecdGoInactive =>
        store_Secondary_state SECONDARY_STATE_inact ;;
        req_failover_reply 0 preq
    | FAILOVER_SecdTakeOver =>
        emit (E_sleep 10) ;;
        store_Secondary_state SECONDARY_STATE_takeov ;;
        req_failover_reply 0 preq
    | FAILOVER_other _ =>
        req_failover_reply 1 preq
    end.

(** *** read_fo_request *)

Definition read_fo_request (e : fo_read_env) (conn : Z) : M unit :=
  emit (E_alloc_br (fr_alloc e)) ;;
  if negb (fr_alloc e) then
    store_Secondary_state SECONDARY_STATE_noconn ;;
    emit (E_close_conn conn) ;;
    modify (set_sec_sock (-1))
  else
    let rc := fr_rc e in
    if rc =? -1 then
      st <- gets Secondary_state ;;
      (if negb (st =? SECONDARY_STATE_inact) && negb (st =? SECONDARY_STATE_noconn)
       then store_Secondary_state SECONDARY_STATE_nohsk else skip) ;;
      emit (E_close_conn conn) ;;
      modify (set_sec_sock (-1)) ;;
      emit E_free_br
    else if negb (rc =? 0) then
      store_Secondary_state SECONDARY_STATE_noconn ;;
      emit (E_close_conn conn) ;;
      modify (set_sec_sock (-1)) ;;
      emit E_free_br
    else
      (* the reply part of the request is as alloc_br() leaves it *)
      req_failover (fr_req e) (mkReq conn (fr_tag e) 0 0 BATCH_REPLY_CHOICE_NULL).

(** *** read_reg_reply *)

Definition read_reg_reply (e : reg_reply_env) (sock : Z) : M unit :=
  if negb (rr_rc e =? 0) || negb (rr_code e =? 0) then
    st <- gets Secondary_state ;;
    if (rr_rc e =? DIS_EOD) && (st =? SECONDARY_STATE_regsent) then
      store_Secondary_state SECONDARY_STATE_takeov
    else
      ga <- gets goidle_ack ;;
      (if negb (ga =? 0) then
         log_event LOG_CRIT "Active PBS Server at %s %s"
           [ArgS (c_str pbs_secondary);
            ArgS "failed to acknowledge request to go idle"]
       else
         log_event LOG_CRIT "Active PBS Server at %s %s"
           [ArgS (c_str pbs_primary);
            ArgS "did not accept secondary registration"]) ;;
      exit 1
  else
    ga <- gets goidle_ack ;;
    if negb (ga =? 0) then
      modify (set_goidle_ack 0)
    else
      match rr_choice e, rr_str e with
      | BATCH_REPLY_CHOICE_Text, Some str =>
          if negb (rr_get_conn e) then
            log_event LOG_CRIT "unable to socket in connection table" [] ;;
            exit 1
          else
            let hid := to_ulong (atol str) in
            let hid := Z.lxor hid (to_ulong pbs_get_hostid) in
            emit (E_cn_func sock cb_read_fo_request) ;;
            store_Secondary_state SECONDARY_STATE_handsk ;;
            modify (set_hd_time (rr_time e)) ;;
            emit (E_open license_fo [O_WRONLY; O_CREAT; O_TRUNC] 384 (* 0600 *)) ;;
            let fd := rr_open e in
            if fd =? -1 then
              log_event LOG_CRIT "unable to save Primary hostid" [] ;;
              exit 1
            else
              emit (E_write_ulong fd hid 8) ;;
              if negb (rr_write e =? 8) then
                log_event LOG_CRIT "unable to save Primary hostid" [] ;;
                exit 1
              else
                emit (E_close fd)
      | _, _ =>
          if rr_code e =? PBSE_UNKREQ then
            log_event LOG_CRIT
              "Primary rejected attempt to register as Secondary" [] ;;
            exit 1
          else
            store_Secondary_state SECONDARY_STATE_noconn
      end.

(** *** alt_conn

    [raw] is what [client_to_svr()] returns under the alarm. *)
Definition alt_conn (raw : Z) (sec : Z) : M Z :=
  emit (E_alarm sec) ;;
  emit E_client_to_svr ;;
  emit (E_alarm 0) ;;
  ret (if raw <? 0 then -1 else raw).

(** *** check_and_invoke_stonith *)

(** The block that reads the output file back: [inl r] when the function
    returns [r] from inside it, else [inr] of [out_err_msg] (null or the
    text). *)
Definition stonith_read_output (e : stonith_env) : M (Z + option string) :=
  emit (E_open out_err_fl [O_RDONLY] 0) ;;
  let fd := so_open e in
  if negb (fd =? -1) then
    if negb (so_fstat e =? -1) then
      if negb (so_malloc e) then
        emit (E_close fd) ;;
        emit (E_unlink out_err_fl) ;;
        emit (E_log_err "malloc failed") ;;
        ret (inl (-1))
      else
        emit (E_read fd) ;;
        if so_read e =? -1 then
          emit (E_close fd) ;;
          emit (E_log_err "%s: read failed, errno: %d") ;;
          ret (inl (-1))
        else
          emit (E_close fd) ;;
          ret (inr (Some (strip_crlf (so_text e))))
    else
      emit (E_close fd) ;; ret (inr None)
  else ret (inr None).

(** What ["%s, exit_code: %d."] gives for the output [msg] of the script
    and the value [rc] that [system()] returned for it. *)
Definition stonith_output_line (msg : string) (rc : Z) : string :=
  (msg ++ ", exit_code: " ++ sprintf_d rc ++ ".")%string.

Definition check_and_invoke_stonith (e : stonith_env) (node : option string) : M Z :=
  match node with
  | None => ret (-1)
  | Some nd =>
      emit (E_stat stonith_fl) ;;
      if negb (so_stat e =? 0) && (so_errno e =? ENOENT) then
        log_buffer_event LOG_INFO "Skipping STONITH" ;;
        ret 0
      else
        log_buffer_event LOG_NOTICE
          ("Executing STONITH script to bring down primary at " ++ pbs_server_name)%string ;;
        emit (E_system "%s %s > %s 2>&1" [ArgF stonith_fl; ArgS nd; ArgF out_err_fl]) ;;
        let rc := so_system e in
        (if negb (rc =? 0) then
           log_buffer_event LOG_CRIT
             ("STONITH script execution failed, script exit code: " ++ sprintf_d rc)%string
         else
           log_buffer_event LOG_INFO "STONITH script executed successfully") ;;
        r <- stonith_read_output e ;;
        match r with
        | inl v => ret v
        | inr out_err_msg =>
            match out_err_msg with
            | Some msg => log_buffer_event LOG_INFO (stonith_output_line msg rc)
            | None => skip
            end ;;
            emit (E_unlink out_err_fl) ;;
            if negb (rc =? 0) then ret (-1) else ret rc
        end
  end.

(** *** be_secondary *)

(** The locals of [be_secondary] that live across the iterations of its
    loop. *)
Record frame : Type := mkFrame {
  loop : Z;
  sbloop : Z;
  sbtime : Z;
  mytime : Z;
  takeov_on_nocontact : Z
}.

(** What the outside returns during one iteration of the loop. *)
Record tick_env : Type := mkTickEnv {
  te_time : Z;               (* time(0) *)
  te_client_to_svr : Z;      (* client_to_svr() in noconn and idle *)
  te_add_conn : bool;        (* add_conn() is not null *)
  te_alloc_br : bool;        (* alloc_br() is not null *)
  te_put_failover : Z;       (* put_failover() *)
  te_stat : Z;               (* stat(path_svrlive, &sb) *)
  te_mtime : Z;              (* sb.st_mtime *)
  te_alt_conn : Z;           (* client_to_svr() inside alt_conn() *)
  te_stonith : stonith_env;
  te_fopen : bool            (* fopen(path_secondaryact, "w") is not null *)
}.

(** [put_failover()]: the request is encoded and flushed by the DIS
    routines, whose result [rc] it hands back. *)
Definition put_failover (rc : Z) (sock : Z) (tag : failover_tag) : M Z :=
  emit (E_put_failover sock tag) ;; ret rc.

(** The statements that follow a successful dial: the state becomes
    [conn] and the socket is entered in the connection table; [on_conn]
    is the log call of the branch at hand. *)
Definition made_contact (e : tick_env) (on_conn : M unit) : M unit :=
  store_Secondary_state SECONDARY_STATE_conn ;;
  ss <- gets sec_sock ;;
  emit (E_add_conn ss cb_read_reg_reply) ;;
  if te_add_conn e then
    emit (E_cn_authen_or ss PBS_NET_CONN_AUTHENTICATED) ;;
    on_conn
  else
    emit (E_log_err "Connection not found, close socket free context") ;;
    emit (E_CS_close_socket ss) ;;
    emit (E_close ss).

(** The [switch] of the loop.  The result is [Some r] when the function
    returns [r], and [None] at a [break]. *)
Definition be_secondary_switch (delay : Z) (e : tick_env) (fr : frame)
  : M (frame * option Z) :=
  st <- gets Secondary_state ;;
  if (st =? SECONDARY_STATE_noconn) || (st =? SECONDARY_STATE_idle) then
    let fr := mkFrame (loop fr) 0 0 0 (takeov_on_nocontact fr) in
    ss <- gets sec_sock ;;
    (if ss >=? 0 then emit (E_close_conn ss) else skip) ;;
    emit E_client_to_svr ;;
    modify (set_sec_sock (te_client_to_svr e)) ;;
    (if te_client_to_svr e <? 0 then
       tn <- gets time_now ;;
       if (st =? SECONDARY_STATE_noconn) &&
          ((delay =? -1) || (tn >? takeov_on_nocontact fr))
       then
         modify (set_sec_sock (-1)) ;;
         store_Secondary_state SECONDARY_STATE_takeov
       else
         modify (set_sec_sock (-1)) ;;
         emit (E_sleep 10)
     else
       made_contact e skip) ;;
    ret (fr, None)
  else if st =? SECONDARY_STATE_conn then
    emit (E_alloc_br (te_alloc_br e)) ;;
    ss <- gets sec_sock ;;
    (if negb (te_alloc_br e) then
       emit (E_close_conn ss) ;;
       store_Secondary_state SECONDARY_STATE_noconn ;;
       modify (set_sec_sock (-1))
     else
       rc <- put_failover (te_put_failover e) ss FAILOVER_Register ;;
       (if rc =? 0 then
          store_Secondary_state SECONDARY_STATE_regsent
        else
          emit (E_close_conn ss) ;;
          store_Secondary_state SECONDARY_STATE_noconn ;;
          modify (set_sec_sock (-1))) ;;
       emit E_free_br) ;;
    ret (fr, None)
  else if st =? SECONDARY_STATE_regsent then
    ret (fr, None)
  else if st =? SECONDARY_STATE_handsk then
    tn <- gets time_now ;;
    hd <- gets hd_time ;;
    (if tn >=? hd + 2 * HANDSHAKE_TIME then
       store_Secondary_state SECONDARY_STATE_nohsk ;;
       log_event LOG_WARNING
         "Secondary has not received handshake in %ld seconds" [ArgZ (tn - hd)]
     else skip) ;;
    ret (fr, None)
  else if st =? SECONDARY_STATE_nohsk then
    tn <- gets time_now ;;
    hd <- gets hd_time ;;
    dly <- gets secondary_delay ;;
    ss <- gets sec_sock ;;
    emit (E_stat path_svrlive) ;;
    if te_stat e =? 0 then
      if te_mtime e >? sbtime fr then
        let fr' := mkFrame (loop fr) (sbloop fr + 1) (te_mtime e) tn
                     (takeov_on_nocontact fr) in
        (if (sbloop fr >? 4) && (ss =? -1)
         then store_Secondary_state SECONDARY_STATE_noconn else skip) ;;
        ret (fr', None)
      else if tn >? time_add (mytime fr) dly then
        store_Secondary_state SECONDARY_STATE_takeov ;;
        ret (fr, None)
      else ret (fr, None)
    else if tn >? time_add hd dly then
      store_Secondary_state SECONDARY_STATE_noconn ;;
      log_event LOG_CRIT "Secondary unable to stat server live file" [] ;;
      ret (fr, None)
    else if (ss =? -1) && (Z.rem (loop fr) 3 =? 0) then
      s <- alt_conn (te_alt_conn e) 8 ;;
      modify (set_sec_sock s) ;;
      (if s >=? 0 then made_contact e skip else skip) ;;
      ret (fr, None)
    else ret (fr, None)
  else if st =? SECONDARY_STATE_shutd then
    exit 0
  else if st =? SECONDARY_STATE_takeov then
    ss <- gets sec_sock ;;
    (if negb (ss =? -1) then
       emit (E_close_conn ss) ;; modify (set_sec_sock (-1))
     else skip) ;;
    log_event LOG_NOTICE
      "Secondary attempting to connect with Primary one last time before taking over" [] ;;
    s <- alt_conn (te_alt_conn e) 8 ;;
    modify (set_sec_sock s) ;;
    if s >=? 0 then
      made_contact e
        (log_event LOG_NOTICE "Secondary reconnected with Primary" []) ;;
      ret (fr, None)
    else
      rc <- check_and_invoke_stonith (te_stonith e) pbs_primary ;;
      if negb (rc =? 0) then
        log_buffer_event LOG_INFO "Secondary will attempt taking over again" ;;
        emit (E_sleep 10) ;;
        ret (fr, None)
      else
        modify (set_pbs_failover_active 1) ;;
        emit (E_fopen path_secondaryact "w") ;;
        (if te_fopen e then
           modify (set_secondaryact (Some "")) ;;
           emit (E_fprintf path_secondaryact (server_host ++ String "010"%char "")%string) ;;
           modify (set_secondaryact (Some (server_host ++ String "010"%char "")%string)) ;;
           emit (E_fclose path_secondaryact)
         else skip) ;;
        ret (fr, Some 0)
  else if st =? SECONDARY_STATE_inact then
    _ <- call_wait_request 600 ;;
    emit (E_sleep 10) ;;
    (* the source passes LOG_DEBUG and the event class in each other's place *)
    log_event LOG_DEBUG "Secondary completed waiting for Primary to go down" [] ;;
    ss <- gets sec_sock ;;
    emit (E_close_conn ss) ;;
    modify (set_sec_sock (-1)) ;;
    store_Secondary_state SECONDARY_STATE_idle ;;
    ret (fr, None)
  else
    ret (fr, None).

(** The end of an iteration: a failed poll sends the machine back to
    [noconn]. *)
Definition be_secondary_tail : M unit :=
  r <- call_wait_request 1 ;;
  if r =? -1 then
    store_Secondary_state SECONDARY_STATE_noconn ;;
    ss <- gets sec_sock ;;
    emit (E_close_conn ss) ;;
    modify (set_sec_sock (-1))
  else skip.

Definition incr_loop (fr : frame) : frame :=
  mkFrame (loop fr + 1) (sbloop fr) (sbtime fr) (mytime fr) (takeov_on_nocontact fr).

(** One iteration of [while (1)]. *)
Definition be_secondary_iter (delay : Z) (e : tick_env) (fr : frame)
  : M (frame * option Z) :=
  modify (set_time_now (te_time e)) ;;
  r <- be_secondary_switch delay e (incr_loop fr) ;;
  match snd r with
  | Some _ => ret r
  | None => be_secondary_tail ;; ret r
  end.

(** The loop, run for as many iterations as there are inputs; the result
    is [None] when it is still running after the last of them. *)
Fixpoint be_secondary_loop (delay : Z) (es : list tick_env) (fr : frame)
  : M (frame * option Z) :=
  match es with
  | [] => ret (fr, None)
  | e :: es' =>
      r <- be_secondary_iter delay e fr ;;
      match snd r with
      | Some _ => ret r
      | None => be_secondary_loop delay es' (fst r)
      end
  end.

(** The statements of [be_secondary] before the loop; [t0] is [time(0)]
    and [primaddr] what [get_hostaddr(pbs_conf.pbs_primary)] returns. *)
Definition be_secondary_init (t0 primaddr : Z) : M frame :=
  emit (E_call "init_network") ;;
  emit (E_call "init_network_add") ;;
  modify (set_hd_time t0) ;;
  if primaddr =? 0 then
    emit (E_printf
      "pbs_server: unable to obtain Primary Server's network address, aborting." []) ;;
    exit 1
  else
    dly <- gets secondary_delay ;;
    (if dly =? -1 then
       modify (set_secondary_delay 0) ;;
       emit (E_printf "pbs_server: secondary directed to start up as active" [])
     else
       emit (E_printf "pbs_server: coming up as Secondary, Primary is %s"
               [ArgS (c_str pbs_primary)]) ;;
       log_event LOG_NOTICE "pbs_server: coming up as Secondary, Primary is %s"
         [ArgS (c_str pbs_primary)]) ;;
    hd <- gets hd_time ;;
    dly' <- gets secondary_delay ;;
    emit (E_call "pbs_close_stdfiles") ;;
    ret (mkFrame 0 0 0 0 (time_add (time_add hd (60 * 5)) dly')).

Definition be_secondary (delay t0 primaddr : Z) (es : list tick_env) : M (option Z) :=
  fr <- be_secondary_init t0 primaddr ;;
  r <- be_secondary_loop delay es fr ;;
  ret (snd r).

End Handlers.

(** ** The primary's side of failover.c *)

(** What the outside returns during one call of [primary_handshake]. *)
Record handshake_env : Type := mkHandshakeEnv {
  he_alloc : bool;           (* alloc_br() is not null *)
  he_issue : Z;              (* issue_Drequest() *)
  he_stat : Z                (* stat(path_secondaryact, &sb) *)
}.

(** For one call of [failover_send_shutdown]. *)
Record send_env : Type := mkSendEnv {
  se_alloc : bool;           (* alloc_br() is not null *)
  se_issue : Z               (* issue_Drequest() *)
}.

(** For one call of [takeover_from_secondary]. *)
Record takeover_env : Type := mkTakeoverEnv {
  tk_addr : Z;               (* get_hostaddr(pbs_conf.pbs_secondary) *)
  tk_alt_conn : Z;           (* client_to_svr() inside alt_conn() *)
  tk_add_conn : bool;        (* add_conn() is not null *)
  tk_alloc : bool;           (* alloc_br() is not null *)
  tk_put_failover : Z        (* put_failover() *)
}.

Definition tag_name (tag : failover_tag) : string :=
  match tag with
  | FAILOVER_Register => "FAILOVER_Register"
  | FAILOVER_HandShake => "FAILOVER_HandShake"
  | FAILOVER_PrimIsBack => "FAILOVER_PrimIsBack"
  | FAILOVER_SecdShutdown => "FAILOVER_SecdShutdown"
  | FAILOVER_SecdGoInactive => "FAILOVER_SecdGoInactive"
  | FAILOVER_SecdTakeOver => "FAILOVER_SecdTakeOver"
  | FAILOVER_other _ => "other"
  end.

(** [issue_Drequest()] of the server, handed a failover request with tag
    [tag]; [rc] is what it returns. *)
Definition issue_Drequest (rc : Z) (tag : failover_tag) : M Z :=
  emit (E_call ("issue_Drequest " ++ tag_name tag)%string) ;; ret rc.

Section Primary.

Context {hdr : pbs_headers} {glob : pbs_globals}.
Variable wait_request : Z -> M Z.

(** [SV_STATE_PRIMDLY] of server.h, a parameter like the macros of
    [pbs_headers]. *)
Variable SV_STATE_PRIMDLY : Z.

(** *** rel_handshake *)
Definition rel_handshake : M unit := emit E_free_br.

(** *** primary_handshake *)
Definition primary_handshake (e : handshake_env) : M unit :=
  emit (E_call "update_svrlive") ;;
  sc <- gets Secondary_connection ;;
  (if sc >=? 0 then
     emit (E_alloc_br (he_alloc e)) ;;
     (if he_alloc e then
        rc <- issue_Drequest (he_issue e) FAILOVER_HandShake ;;
        if negb (rc =? 0) then
          emit (E_close_conn sc) ;;
          modify (set_Secondary_connection (-2))
        else skip
      else skip) ;;
     emit (E_stat path_secondaryact) ;;
     if negb (he_stat e =? -1) then
       modify (set_sv_state SV_STATE_SECIDLE)
     else skip
   else skip) ;;
  emit (E_call "set_task primary_handshake").

(** *** secondary_handshake *)
Definition secondary_handshake : M unit :=
  emit (E_call "update_svrlive") ;;
  emit (E_call "set_task secondary_handshake").

(** *** fo_shutdown_reply *)
Definition fo_shutdown_reply : M unit :=
  modify (fun s => set_sv_state (Z.land (sv_state s) (Z.lnot SV_STATE_PRIMDLY)) s) ;;
  emit (E_call "release_req").

(** *** failover_send_shutdown *)
Definition failover_send_shutdown (e : send_env) (type : failover_tag) : M Z :=
  sc <- gets Secondary_connection ;;
  if sc =? -1 then ret 1
  else
    emit (E_alloc_br (se_alloc e)) ;;
    if negb (se_alloc e) then
      emit (E_close_conn sc) ;;
      modify (set_Secondary_connection (-2)) ;;
      ret 1
    else
      rc <- issue_Drequest (se_issue e) type ;;
      if negb (rc =? 0) then
        emit (E_close_conn sc) ;;
        modify (set_Secondary_connection (-2)) ;;
        ret 1
      else ret 0.

(** *** close_secondary

    [conn] is [get_conn(sock)]: nothing when null, else the [cn_handle]
    of the entry. *)
Definition close_secondary (conn : option Z) : M unit :=
  match conn with
  | None => skip
  | Some cn_handle =>
      sc <- gets Secondary_connection ;;
      if sc =? cn_handle then modify (set_Secondary_connection (-1)) else skip
  end.

(** *** takeover_from_secondary *)
Definition takeover_from_secondary (e : takeover_env) : M Z :=
  emit (E_call "init_network") ;;
  emit (E_call "init_network_add") ;;
  if tk_addr e =? 0 then
    emit (E_printf "Cannot get network address of Secondary, aborting" []) ;;
    exit 1
  else
    sock <- alt_conn (tk_alt_conn e) 4 ;;
    if sock <? 0 then ret 0
    else
      emit (E_add_conn sock cb_read_reg_reply) ;;
      if negb (tk_add_conn e) then
        emit (E_printf "Connection not found, abort takeover from secondary" []) ;;
        exit 1
      else
        emit (E_cn_authen_or sock PBS_NET_CONN_AUTHENTICATED) ;;
        emit (E_alloc_br (tk_alloc e)) ;;
        if negb (tk_alloc e) then
          emit (E_printf
            "Unable to allocate request structure, abort takeover from secondary" []) ;;
          exit 1
        else
          rc <- put_failover (tk_put_failover e) sock FAILOVER_PrimIsBack ;;
          if negb (rc =? 0) then
            emit (E_printf "Could not communicate with Secondary, aborting" []) ;;
            exit 1
          else
            modify (set_goidle_ack 1) ;;
            _ <- call_wait_request wait_request 600 ;;
            ga <- gets goidle_ack ;;
            if ga =? 1 then
              emit (E_printf "Secondary not idling, aborting" []) ;;
              exit 2
            else
              emit (E_printf "Have taken control from Secondary Server" []) ;;
              ret 1.

End Primary.


(** ** Reading traces *)

(** The events that answer a request. *)
Definition is_reply (ev : event) : bool :=
  match ev with
  | E_reply_send _ | E_reply_text _ _ _ | E_req_reject _ _ _ => true
  | _ => false
  end.

(** The poll that finds nothing to do. *)
Definition idle_wait : Z -> M Z := fun _ => ret 0.

(** The positions of events: [in_order ps l] holds when [l] has, from
    left to right, an event for each test of [ps]. *)
Fixpoint in_order (ps : list (event -> bool)) (l : list event) : bool :=
  match ps with
  | [] => true
  | p :: ps' =>
      match l with
      | [] => false
      | ev :: l' => if p ev then in_order ps' l' else in_order ps l'
      end
  end.

Definition is_write (ev : event) : bool :=
  match ev with E_write_ulong _ _ _ => true | _ => false end.

Definition is_sleep (ev : event) : bool :=
  match ev with E_sleep _ => true | _ => false end.

Definition is_store (v : Z) (ev : event) : bool :=
  match ev with E_store_Secondary_state w => w =? v | _ => false end.

(** A variable [f] of the state that the poll leaves as it is, whatever
    callbacks it runs. *)
Definition preserves {A : Type} (f : state -> A) (w : Z -> M Z) : Prop :=
  forall (sec : Z) (s : state), f (final_state (w sec s)) = f s.

(** ** The three results of the fencing hook

    [check_and_invoke_stonith] returns an [int]; the classification below
    names the paths through it.  The script is absent when [stat] fails
    with [ENOENT].  Otherwise the command line is run: the result is
    failed when [system] does not return 0, or when the output file was
    opened and measured but the buffer could not be allocated or filled;
    else it is ok. *)
Inductive fence_result : Type := fence_ok | fence_absent | fence_failed.

Definition capture_fails (e : stonith_env) : bool :=
  negb (so_open e =? -1) && negb (so_fstat e =? -1) &&
  (negb (so_malloc e) || (so_read e =? -1)).

Definition fencing_outcome (e : stonith_env) : fence_result :=
  if negb (so_stat e =? 0) && (so_errno e =? ENOENT) then fence_absent
  else if negb (so_system e =? 0) then fence_failed
  else if capture_fails e then fence_failed
  else fence_ok.

Definition fence_code (r : fence_result) : Z :=
  match r with fence_failed => -1 | _ => 0 end.

(** ** More ways of reading states and traces *)

Definition is_crlf (c : ascii) : bool :=
  Ascii.eqb c "013"%char || Ascii.eqb c "010"%char.

Fixpoint all_crlf (s : string) : bool :=
  match s with
  | EmptyString => true
  | String c s' => is_crlf c && all_crlf s'
  end.

(** The last character of [s] is a carriage return or a line feed. *)
Fixpoint ends_crlf (s : string) : bool :=
  match s with
  | EmptyString => false
  | String c EmptyString => is_crlf c
  | String _ s' => ends_crlf s'
  end.

Definition is_system (ev : event) : bool :=
  match ev with E_system _ _ => true | _ => false end.

Definition is_unlink_out (ev : event) : bool :=
  match ev with E_unlink out_err_fl => true | _ => false end.

Definition is_alloc (ev : event) : bool :=
  match ev with E_alloc_br true => true | _ => false end.

Definition is_free (ev : event) : bool :=
  match ev with E_free_br => true | _ => false end.

(** The log line of [msg_regfailed]. *)
Definition is_regfailed (ev : event) : bool :=
  match ev with
  | E_log_event _ fmt _ =>
      String.eqb fmt "Primary rejected attempt to register as Secondary"
  | _ => false
  end.

(** [stat] says that there is no stonith script. *)
Definition script_absent (e : stonith_env) : bool :=
  negb (so_stat e =? 0) && (so_errno e =? ENOENT).

(** The output file was opened and measured and the buffer allocated,
    and the read failed. *)
Definition capture_read_fails (e : stonith_env) : bool :=
  negb (so_open e =? -1) && negb (so_fstat e =? -1) &&
  so_malloc e && (so_read e =? -1).

(** The values of [Secondary_state] that some statement of failover.c
    stores: all the macros but [SECONDARY_STATE_shutd]. *)
Definition stored_state (v : Z) : bool :=
  (v =? SECONDARY_STATE_noconn) || (v =? SECONDARY_STATE_conn) ||
  (v =? SECONDARY_STATE_regsent) || (v =? SECONDARY_STATE_handsk) ||
  (v =? SECONDARY_STATE_nohsk) || (v =? SECONDARY_STATE_takeov) ||
  (v =? SECONDARY_STATE_inact) || (v =? SECONDARY_STATE_idle).

(** A poll that comes back, and whose events all pass the test [p]. *)
Definition poll_adds (p : event -> bool) (w : Z -> M Z) : Prop :=
  forall (sec : Z) (s : state),
  exists evs, trace (final_state (w sec s)) = trace s ++ evs /\ forallb p evs = true.

(** A poll that finds nothing ready: it returns without a failure and
    without having run a callback. *)
Definition calm (w : Z -> M Z) : Prop :=
  forall (sec : Z) (s : state), exists r, w sec s = Ok r s /\ r <> -1.

(** The events that [l'] has after those of [l]. *)
Definition events_since (l l' : list event) : list event :=
  skipn (length l) l'.


(** [Secondary_state] is not [SECONDARY_STATE_shutd]. *)
Definition off_shutd (s : state) : Prop :=
  Secondary_state s <> SECONDARY_STATE_shutd.

(** A poll that comes back whenever [inv] holds, and keeps it. *)
Definition returns_keeping (inv : state -> Prop) (w : Z -> M Z) : Prop :=
  forall (sec : Z) (s : state), inv s -> exists r s', w sec s = Ok r s' /\ inv s'.


(** [sec_sock] is -1 or a descriptor. *)
Definition sock_ok (s : state) : Prop := -1 <= sec_sock s.

(** A poll that keeps [inv], whether it returns or ends the process. *)
Definition keeps (inv : state -> Prop) (w : Z -> M Z) : Prop :=
  forall (sec : Z) (s : state), inv s -> inv (final_state (w sec s)).


(** The error code that a reply carries is the one the client is told
    about: [PBSE_SYSTEM] with auxiliary code 0 in a rejection,
    [PBSE_NONE] in a text reply. *)
Definition reply_code_ok {hdr : pbs_headers} (ev : event) : bool :=
  match ev with
  | E_req_reject c aux _ => (c =? PBSE_SYSTEM) && (aux =? 0)
  | E_reply_text _ c _ => c =? PBSE_NONE
  | _ => true
  end.


(** The events that follow the opening of the file with the output of
    the stonith script. *)
Fixpoint after_open_out (evs : list event) : list event :=
  match evs with
  | [] => []
  | E_open out_err_fl _ _ :: l => l
  | _ :: l => after_open_out l
  end.

(** A call of [log_event]. *)
Definition is_log_event (ev : event) : bool :=
  match ev with E_log_event _ _ _ => true | _ => false end.

(** The script was run and its output read back. *)
Definition output_captured (e : stonith_env) : bool :=
  negb (script_absent e) && negb (so_open e =? -1) && negb (so_fstat e =? -1) &&
  so_malloc e && negb (so_read e =? -1).


(** ** The two servers side by side

    The primary and the secondary are two processes, each with a state
    of its own, on hosts that share the directory of the live file and
    of the marker file.  An interleaved execution is a list of moves:
    the primary runs [primary_handshake] once, or the secondary runs one
    iteration of the loop of [be_secondary], or the primary process
    ends.  What one process leaves in the shared files is what the other
    finds there: the modification time of the live file is the one that
    the last [update_svrlive()] gave it, and the marker file that the
    primary looks for is the file of the secondary's state. *)



Section Servers.

Context {hdr : pbs_headers} {glob : pbs_globals}.

(** The poll of the secondary, and the argument of its [be_secondary]. *)
Variable wait_request : Z -> M Z.
Variable delay : Z.













End Servers.


(** ** Sample data, for evaluating the model *)

Definition sample_headers : pbs_headers :=
  {| PBSE_SYSTEM := 15010; PBSE_OBJBUSY := 15027; PBSE_UNKREQ := 15005;
     DIS_EOD := 7;
     PBS_NET_CONN_AUTHENTICATED := 1; PBS_NET_CONN_NOTIMEOUT := 4;
     SV_STATE_SECIDLE := 7; LOG_BUF_SIZE := 4096; LOG_BUF_SIZE_pos := eq_refl |}.

Definition sample_secondary : pbs_globals :=
  {| hostidnum := 2130706433; pbs_get_hostid := 2130706433;
     server_host := "beta";
     pbs_primary := Some "alpha"; pbs_secondary := Some "beta";
     pbs_server_name := "alpha"; pbs_home_path := "/var/spool/pbs" |}.

Definition sample_primary : pbs_globals :=
  {| hostidnum := 18446744073709551615; pbs_get_hostid := 18446744073709551615;
     server_host := "alpha";
     pbs_primary := Some "alpha"; pbs_secondary := Some "beta";
     pbs_server_name := "alpha"; pbs_home_path := "/var/spool/pbs" |}.

Definition sample_req_env : req_env := mkReqEnv true "gamma" 4 1000.

(** No stonith script is installed. *)
Definition stonith_absent : stonith_env := mkStonithEnv (-1) ENOENT 0 (-1) (-1) false (-1) "".

(** The script is run, [system()] returns [rc], and the output [out] of
    the script is read back. *)
Definition stonith_ran (rc : Z) (out : string) : stonith_env :=
  mkStonithEnv 0 0 rc 3 0 true (Z.of_nat (String.length out)) out.

(** [system()] returns 0 for the script, and the read of its output
    fails. *)
Definition stonith_unread : stonith_env := mkStonithEnv 0 0 0 3 0 true (-1) "".

(** An iteration at time [t] in which the primary cannot be reached, the
    live file has modification time [mtime], and the fencing hook
    behaves as [so]. *)
Definition tick_unreachable (t mtime : Z) (so : stonith_env) (fopen_ok : bool) : tick_env :=
  mkTickEnv t (-1) false true (-1) 0 mtime (-1) so fopen_ok.


(** A secondary in state [ss] whose socket to the primary is [sock]; the
    last handshake came at 1000, it is 1003, the delay is 30 seconds. *)
Definition secondary_in (ss sock : Z) : state :=
  mkState 0 sock (-1) ss 1000 0 30 1003 0 None None [].

(** A primary that has no secondary yet, and the REGISTER of a host. *)
Definition primary_alone : state := initial_state 30 1000 None.

Definition register_from (conn : Z) : batch_request :=
  mkReq conn FAILOVER_Register 0 0 BATCH_REPLY_CHOICE_NULL.

(** A request with tag [tag], as [read_fo_request] hands it over. *)
Definition request_on (conn : Z) (tag : failover_tag) : batch_request :=
  mkReq conn tag 0 0 BATCH_REPLY_CHOICE_NULL.

(** Replies to REGISTER as [read_reg_reply] may find them: the
    connection closed, and an ok reply with the text [txt] that is saved
    through descriptor 3. *)
Definition reply_eod {hdr : pbs_headers} : reg_reply_env :=
  mkRegReplyEnv DIS_EOD 0 BATCH_REPLY_CHOICE_NULL None true 1003 (-1) (-1).

Definition reply_ok (txt : string) (fd written : Z) : reg_reply_env :=
  mkRegReplyEnv 0 0 BATCH_REPLY_CHOICE_Text (Some txt) true 1003 fd written.

(** The inputs of two iterations of a secondary that is started with a
    delay of -1 while the primary is down and no stonith script is
    installed: the first finds no primary, the second takes over. *)
Definition takeover_run (fopen_ok : bool) : list tick_env :=
  [tick_unreachable 1001 0 stonith_absent fopen_ok;
   tick_unreachable 1012 0 stonith_absent fopen_ok].


(** The primary once [gamma] has registered on connection 9. *)
Definition primary_with_peer : state :=
  final_state (req_failover (hdr := sample_headers) (glob := sample_primary)
                 idle_wait sample_req_env (register_from 9) primary_alone).

(** The secondary that [be_secondary] leaves behind when it returns 0 at
    the end of [takeover_run]. *)
Definition active_secondary (fopen_ok : bool) : state :=
  final_state (be_secondary (hdr := sample_headers) (glob := sample_secondary)
                 idle_wait (-1) 1000 1 (takeover_run fopen_ok)
                 (initial_state (-1) 0 None)).

(** A poll during which the primary closes the connection: the read
    callback of the socket, [read_fo_request], runs and finds the end of
    file. *)
Definition wait_sees_eof (conn : Z) : Z -> M Z :=
  fun _ =>
    read_fo_request (hdr := sample_headers) (glob := sample_secondary) idle_wait
      (mkFoReadEnv true (-1) (FAILOVER_other 0) sample_req_env) conn ;;
    ret 0.

(** A secondary started at 1000 with a delay of 30 seconds, after the
    statements before the loop and after one iteration without contact. *)
Definition started_at_1000 : state :=
  final_state (be_secondary_init (glob := sample_secondary) 1000 1 (initial_state 30 0 None)).

Definition after_one_tick : state :=
  final_state
    (be_secondary_loop (hdr := sample_headers) (glob := sample_secondary) idle_wait 30
       [tick_unreachable 1001 0 stonith_absent true] (mkFrame 0 0 0 0 1330) started_at_1000).

(** An iteration at time [t] in which the primary answers: the dial
    gives socket 5 and the REGISTER goes out. *)
Definition tick_reachable (t : Z) : tick_env :=
  mkTickEnv t 5 true true 0 0 0 5 stonith_absent true.

(** A poll that plays the primary of a clean shutdown: it answers the
    REGISTER with its host id, and once the handshakes are awaited it
    sends SECD_GO_INACTIVE. *)
Definition primary_says_go_inactive : Z -> M Z :=
  fun _ s =>
    if Secondary_state s =? SECONDARY_STATE_regsent then
      (read_reg_reply (hdr := sample_headers) (glob := sample_secondary)
         (reply_ok "-1" 3 8) (sec_sock s) ;; ret 0) s
    else if Secondary_state s =? SECONDARY_STATE_handsk then
      (read_fo_request (hdr := sample_headers) (glob := sample_secondary) idle_wait
         (mkFoReadEnv true 0 FAILOVER_SecdGoInactive sample_req_env) (sec_sock s) ;;
       ret 0) s
    else Ok 0 s.

(** The secondary after four iterations with that primary: it has
    registered, been told to go inactive, and waited the primary out. *)
Definition after_go_inactive : state :=
  final_state
    (be_secondary_loop (hdr := sample_headers) (glob := sample_secondary)
       primary_says_go_inactive 30
       [tick_reachable 1001; tick_reachable 1002; tick_reachable 1003;
        tick_reachable 1004]
       (mkFrame 0 0 0 0 1330) started_at_1000).


(** A primary whose handshake cannot be sent, and one whose handshake
    goes out; the marker file of the secondary does not exist. *)
Definition handshake_unsent : handshake_env := mkHandshakeEnv true 1 (-1).

Definition handshake_sent : handshake_env := mkHandshakeEnv true 0 (-1).

(** A primary that comes back and reaches the active secondary through
    socket 6. *)
Definition takeover_reaches : takeover_env := mkTakeoverEnv 1 6 true true 0.

(** A reply that carries the error code [c]. *)
Definition reply_rejected (c : Z) : reg_reply_env :=
  mkRegReplyEnv 0 c BATCH_REPLY_CHOICE_NULL None true 1003 (-1) (-1).

(** The stonith script ends with exit code 1, for which [system()]
    returns 256. *)
Definition stonith_refuses : stonith_env := stonith_ran 256 "no route to host".

(** An iteration in which the dial succeeds with socket 5 but the
    connection table has no room. *)
Definition tick_no_room (t : Z) : tick_env :=
  mkTickEnv t 5 false true 0 0 0 5 stonith_absent true.










(** A poll that fails while the secondary is in state [idle]. *)
Definition wait_fails_in_idle : Z -> M Z :=
  fun _ s => if Secondary_state s =? SECONDARY_STATE_idle then Ok (-1) s else Ok 0 s.

(** An output of the stonith script of 4095 characters, which fills the
    [log_buffer] of [sample_headers] by itself. *)
Definition long_output : string := string_of_list_ascii (repeat "x"%char 4095).


(** * Job submission: src/lib/Libifl/pbsD_submit.c

    [pbs_submit] and [pbs_submit_with_cred] of the client library.  The
    routines they call (the thread context and its lock, the attribute
    check, [access], the [PBSD_] requests) live in other files: a call is
    recorded, in program order, on [calls], and what it returns is an
    input.  [pbs_errno] and [connection[c].ch_errtxt] are written by
    those routines as well as by this file, so the stores of this file
    are recorded on [calls] too and no value is kept for them.  The
    attributes that the caller passes are a chain of structures that
    [pbs_submit] writes to: the chain is the field [attropls] of the
    state, in the order of the [next] pointers. *)

Module Libifl.

(** [enum batch_op] of pbs_ifl.h. *)
Inductive batch_op : Type :=
| SET | UNSET | INCR | DECR | EQ | NE | GE | GT | LE | LT | DFLT.

(** [struct attropl] without its [next] pointer. *)
Record attropl : Type := mkAttropl {
  name : string;
  resource : option string;
  value : string;
  op : batch_op
}.

Definition set_op (o : batch_op) (a : attropl) : attropl :=
  mkAttropl (name a) (resource a) (value a) o.

Record cred_info : Type := mkCredInfo {
  cred_type : Z;
  cred_len : Z;                (* size_t *)
  cred_buf : option string
}.

(** The macros of pbs_error.h that the file uses. *)
Class pbs_error_h : Type := {
  PBSE_INTERNAL : Z;
  PBSE_SYSTEM : Z;
  PBSE_BADSCRIPT : Z;
  PBSE_JOBSCRIPTMAXSIZE : Z;
  PBSE_BADCRED : Z
}.

Inductive call : Type :=
| C_init_thread_context
| C_lock_connection (c : Z)
| C_unlock_connection (c : Z)
| C_get_context_data
| C_malloc
| C_verify_attributes (c : Z) (attrib : list attropl)
| C_access (script : string)
| C_strdup (s : string)
| C_queuejob (c : Z) (jobid destination : string) (attrib : list attropl)
             (extend : option string)
| C_jscript (c : Z) (script : string)
| C_jcred (c : Z) (type : Z) (buf : option string) (len : Z)
| C_commit (c : Z) (jobid : string)
| C_store_pbs_errno (v : Z)
| C_store_ch_errtxt (c : Z) (txt : option string).

(** The thread context ([th_cred_info] is null or points to a
    [struct cred_info]), the attributes of the caller, and the calls made
    so far. *)
Record client : Type := mkClient {
  th_cred_info : option cred_info;
  attropls : list attropl;
  calls : list call
}.

Definition set_th_cred_info (v : option cred_info) (s : client) : client :=
  mkClient v (attropls s) (calls s).

Definition set_attropls (v : list attropl) (s : client) : client :=
  mkClient (th_cred_info s) v (calls s).

Definition set_calls (v : list call) (s : client) : client :=
  mkClient (th_cred_info s) (attropls s) v.

(** The functions of the file: state passing, no [exit]. *)
Definition L (A : Type) : Type := client -> A * client.

Definition lret {A : Type} (a : A) : L A := fun s => (a, s).

Definition lbind {A B : Type} (m : L A) (k : A -> L B) : L B :=
  fun s => let (a, s') := m s in k a s'.

Declare Scope lib_scope.
Delimit Scope lib_scope with lib.
Local Notation "x <- m ;; k" := (lbind m (fun x => k))
  (at level 61, m at next level, right associativity) : lib_scope.
Local Notation "m ;; k" := (lbind m (fun _ => k))
  (at level 61, right associativity) : lib_scope.
Local Open Scope lib_scope.

Definition lgets {A : Type} (f : client -> A) : L A := fun s => (f s, s).

Definition lmodify (f : client -> client) : L unit := fun s => (tt, f s).

Definition do_call (c : call) : L unit :=
  lmodify (fun s => set_calls (calls s ++ [c]) s).

(** [pbs_errno = v;] *)
Definition store_pbs_errno (v : Z) : L unit := do_call (C_store_pbs_errno v).

(** What the outside returns during one call of [pbs_submit]. *)
Record submit_env : Type := mkSubmitEnv {
  sb_init : Z;                 (* pbs_client_thread_init_thread_context() *)
  sb_ctx : bool;               (* pbs_client_thread_get_context_data() is not null *)
  sb_verify : Z;               (* pbs_verify_attributes() *)
  sb_lock : Z;                 (* pbs_client_thread_lock_connection() *)
  sb_access : Z;               (* access(script, R_OK) *)
  sb_strdup : bool;            (* strdup() is not null *)
  sb_queuejob : option string; (* PBSD_queuejob() *)
  sb_jscript : Z;              (* PBSD_jscript() *)
  sb_jcred : Z;                (* PBSD_jcred() *)
  sb_commit : Z;               (* PBSD_commit() *)
  sb_unlock : Z                (* pbs_client_thread_unlock_connection() *)
}.

(** And during one call of [pbs_submit_with_cred], which calls
    [pbs_submit]. *)
Record cred_env : Type := mkCredEnv {
  cr_init : Z;
  cr_lock : Z;
  cr_ctx : bool;
  cr_malloc : bool;            (* malloc() is not null *)
  cr_submit : submit_env;
  cr_unlock : Z
}.

(** [(script != (char * )0) && ( *script != '\0')] *)
Definition script_given (script : option string) : bool :=
  match script with
  | Some (String _ _) => true
  | _ => false
  end.

Section Functions.

Context {err : pbs_error_h}.

(** The label [error:] of [pbs_submit]. *)
Definition submit_error (c : Z) : L (option string) :=
  do_call (C_unlock_connection c) ;;
  lret None.

(** The statements of [pbs_submit] from [PBSD_queuejob] on. *)
Definition submit_queue (e : submit_env) (c : Z) (script : option string)
  (destination : string) (extend : option string) : L (option string) :=
  lmodify (fun s => set_attropls (map (set_op SET) (attropls s)) s) ;;
  attrib <- lgets attropls ;;
  do_call (C_queuejob c "" destination attrib extend) ;;
  match sb_queuejob e with
  | None => submit_error c
  | Some return_jobid =>
      sent <-
        (match script with
         | Some (String a b) =>
             do_call (C_jscript c (String a b)) ;;
             let rc := sb_jscript e in
             if negb (rc =? 0) then
               (if rc =? PBSE_JOBSCRIPTMAXSIZE
                then store_pbs_errno rc
                else store_pbs_errno PBSE_BADSCRIPT) ;;
               lret false
             else lret true
         | _ => lret true
         end) ;;
      if negb sent then submit_error c
      else
        cred <- lgets th_cred_info ;;
        credited <-
          (match cred with
           | Some ci =>
               if cred_len ci >? 0 then
                 do_call (C_jcred c (cred_type ci) (cred_buf ci) (cred_len ci)) ;;
                 if negb (sb_jcred e =? 0) then
                   store_pbs_errno PBSE_BADCRED ;; lret false
                 else lret true
               else lret true
           | None => lret true
           end) ;;
        if negb credited then submit_error c
        else
          do_call (C_commit c return_jobid) ;;
          if negb (sb_commit e =? 0) then submit_error c
          else
            do_call (C_unlock_connection c) ;;
            if negb (sb_unlock e =? 0) then lret None
            else lret (Some return_jobid)
  end.

Definition pbs_submit (e : submit_env) (c : Z) (script : option string)
  (destination : string) (extend : option string) : L (option string) :=
  do_call C_init_thread_context ;;
  if negb (sb_init e =? 0) then lret None
  else
    do_call C_get_context_data ;;
    if negb (sb_ctx e) then
      store_pbs_errno PBSE_INTERNAL ;; lret None
    else
      attrib <- lgets attropls ;;
      do_call (C_verify_attributes c attrib) ;;
      if negb (sb_verify e =? 0) then lret None
      else
        do_call (C_lock_connection c) ;;
        if negb (sb_lock e =? 0) then lret None
        else
          match script with
          | Some (String a b) =>
              do_call (C_access (String a b)) ;;
              if negb (sb_access e =? 0) then
                store_pbs_errno PBSE_BADSCRIPT ;;
                do_call (C_strdup "cannot access script file") ;;
                (if sb_strdup e then
                   do_call (C_store_ch_errtxt c (Some "cannot access script file"))
                 else
                   do_call (C_store_ch_errtxt c None) ;;
                   store_pbs_errno PBSE_SYSTEM) ;;
                submit_error c
              else submit_queue e c script destination extend
          | _ => submit_queue e c script destination extend
          end.

Definition pbs_submit_with_cred (e : cred_env) (c : Z) (script : option string)
  (destination : string) (extend : option string)
  (credtype : Z) (credlen : Z) (credbuf : option string) : L (option string) :=
  do_call C_init_thread_context ;;
  if negb (cr_init e =? 0) then lret None
  else
    do_call (C_lock_connection c) ;;
    if negb (cr_lock e =? 0) then lret None
    else
      do_call C_get_context_data ;;
      if negb (cr_ctx e) then
        store_pbs_errno PBSE_INTERNAL ;;
        do_call (C_unlock_connection c) ;;
        lret None
      else
        cred <- lgets th_cred_info ;;
        have <-
          (match cred with
           | None =>
               do_call C_malloc ;;
               if negb (cr_malloc e) then lret false else lret true
           | Some _ => lret true
           end) ;;
        if negb have then
          store_pbs_errno PBSE_INTERNAL ;;
          do_call (C_unlock_connection c) ;;
          lret None
        else
          lmodify (set_th_cred_info (Some (mkCredInfo credtype credlen credbuf))) ;;
          ret <- pbs_submit (cr_submit e) c script destination extend ;;
          lmodify (set_th_cred_info (Some (mkCredInfo 0 0 None))) ;;
          do_call (C_unlock_connection c) ;;
          if negb (cr_unlock e =? 0) then lret None
          else lret ret.

End Functions.

(** *** Reading the calls *)

Definition is_lock (c : Z) (x : call) : bool :=
  match x with C_lock_connection c' => c' =? c | _ => false end.

Definition is_unlock (c : Z) (x : call) : bool :=
  match x with C_unlock_connection c' => c' =? c | _ => false end.

Definition is_request (x : call) : bool :=
  match x with
  | C_queuejob _ _ _ _ _ | C_jscript _ _ | C_jcred _ _ _ _ | C_commit _ _ => true
  | _ => false
  end.

Definition is_errno (x : call) : bool :=
  match x with C_store_pbs_errno _ => true | _ => false end.

(** The lock was taken: everything before it went well. *)
Definition locked (e : submit_env) : bool :=
  (sb_init e =? 0) && sb_ctx e && (sb_verify e =? 0) && (sb_lock e =? 0).

(** The credential that [PBSD_jcred] has to carry. *)
Definition cred_due (s : client) : bool :=
  match th_cred_info s with
  | Some ci => cred_len ci >? 0
  | None => false
  end.

(** The script, if one is given, can be read. *)
Definition script_readable (e : submit_env) (script : option string) : bool :=
  negb (script_given script) || (sb_access e =? 0).

(** Every step before [PBSD_commit] went well. *)
Definition ready (e : submit_env) (script : option string) (s : client) : bool :=
  locked e && script_readable e script &&
  (match sb_queuejob e with Some _ => true | None => false end) &&
  (negb (script_given script) || (sb_jscript e =? 0)) &&
  (negb (cred_due s) || (sb_jcred e =? 0)).

Definition is_commit (x : call) : bool :=
  match x with C_commit _ _ => true | _ => false end.

Definition is_verify (x : call) : bool :=
  match x with C_verify_attributes _ _ => true | _ => false end.

Definition is_queuejob (x : call) : bool :=
  match x with C_queuejob _ _ _ _ _ => true | _ => false end.

Definition is_jcred (x : call) : bool :=
  match x with C_jcred _ _ _ _ => true | _ => false end.

(** [pbs_submit_with_cred] got as far as calling [pbs_submit]. *)
Definition reaches_submit (e : cred_env) (s : client) : bool :=
  (cr_init e =? 0) && (cr_lock e =? 0) && cr_ctx e &&
  (match th_cred_info s with Some _ => true | None => cr_malloc e end).

(** [in_calls ps l]: [l] has, from left to right, a call for each test
    of [ps]. *)
Fixpoint in_calls (ps : list (call -> bool)) (l : list call) : bool :=
  match ps with
  | [] => true
  | p :: ps' =>
      match l with
      | [] => false
      | x :: l' => if p x then in_calls ps' l' else in_calls ps l'
      end
  end.

(** *** Sample data *)

(** Values for the macros, for evaluating the model. *)
Definition sample_errors : pbs_error_h :=
  {| PBSE_INTERNAL := 15011; PBSE_SYSTEM := 15010; PBSE_BADSCRIPT := 15050;
     PBSE_JOBSCRIPTMAXSIZE := 15175; PBSE_BADCRED := 15019 |}.

(** Every call goes well and the server names the job [17.alpha]. *)
Definition submit_ok : submit_env :=
  mkSubmitEnv 0 true 0 0 0 true (Some "17.alpha") 0 0 0 0.

(** A client whose caller asks for four cpus with the operator INCR. *)
Definition sample_client : client :=
  mkClient None [mkAttropl "Resource_List" (Some "ncpus") "4" INCR] [].

End Libifl.


(** * Properties *)

(** ** ["%ld"] and [atol] are inverse on the values of [long] *)

Example sprintf_ld_neg : sprintf_ld (-1205) = "-1205".
Proof. reflexivity. Qed.

Example atol_spaces : atol "  +42abc" = 42.
Proof. reflexivity. Qed.

Example atol_saturates : atol "99999999999999999999" = LONG_MAX.
Proof. reflexivity. Qed.

Example strip_crlf_ex :
  strip_crlf (String "a" (String "010" (String "b" (String "013" (String "010" "")))))%char =
  (String "a" (String "010" (String "b" "")))%char.
Proof. reflexivity. Qed.

Lemma digit_cases (d : Z) :
  0 <= d <= 9 ->
  d = 0 \/ d = 1 \/ d = 2 \/ d = 3 \/ d = 4 \/ d = 5 \/ d = 6 \/ d = 7 \/ d = 8 \/ d = 9.
Proof. lia. Qed.

Lemma digit_char_props (d : Z) :
  0 <= d <= 9 ->
  digit_val (digit_char d) = Some d /\
  isspace (digit_char d) = false /\
  Ascii.eqb (digit_char d) "-" = false /\
  Ascii.eqb (digit_char d) "+" = false.
Proof.
  intros Hd. destruct (digit_cases d Hd) as [H|[H|[H|[H|[H|[H|[H|[H|[H|H]]]]]]]]];
    subst d; repeat split; reflexivity.
Qed.

Lemma print_digits_head (fuel : nat) (n : Z) (acc : string) :
  0 <= n ->
  exists d s, 0 <= d <= 9 /\ print_digits (S fuel) n acc = String (digit_char d) s.
Proof.
  revert n acc. induction fuel as [|f IH]; intros n acc Hn.
  - exists (n mod 10), acc. split; [pose proof (Z.mod_pos_bound n 10); lia|].
    cbn [print_digits]. destruct (n <? 10); reflexivity.
  - change (print_digits (S (S f)) n acc) with
      (let acc' := String (digit_char (n mod 10)) acc in
       if n <? 10 then acc' else print_digits (S f) (n / 10) acc').
    cbv zeta. destruct (n <? 10).
    + exists (n mod 10), acc. split; [pose proof (Z.mod_pos_bound n 10); lia|reflexivity].
    + apply IH. apply Z.div_pos; lia.
Qed.

(** Reading back the digits that [print_digits] wrote gives the number. *)
Lemma strtol_print_digits (fuel : nat) :
  forall (n : Z) (rest : string) (a : Z),
    0 <= n < 10 ^ Z.of_nat fuel ->
    exists k, 0 <= k /\
      strtol_digits (print_digits fuel n rest) a = strtol_digits rest (a * 10 ^ k + n).
Proof.
  induction fuel as [|f IH]; intros n rest a Hn.
  - exists 0. split; [lia|]. cbn [print_digits].
    replace n with 0 by (cbn in Hn; lia). f_equal. lia.
  - cbn [print_digits].
    assert (Hd : 0 <= n mod 10 <= 9) by (pose proof (Z.mod_pos_bound n 10); lia).
    destruct (digit_char_props _ Hd) as [Hv _].
    destruct (n <? 10) eqn:Hlt.
    + apply Z.ltb_lt in Hlt. exists 1. split; [lia|].
      cbn [strtol_digits]. rewrite Hv. f_equal.
      rewrite Z.mod_small by lia. lia.
    + apply Z.ltb_ge in Hlt.
      assert (Hq : 0 <= n / 10 < 10 ^ Z.of_nat f).
      { split; [apply Z.div_pos; lia|].
        apply Z.div_lt_upper_bound; [lia|].
        replace (Z.of_nat (S f)) with (Z.of_nat f + 1) in Hn by lia.
        rewrite Z.pow_add_r in Hn by lia. lia. }
      destruct (IH (n / 10) (String (digit_char (n mod 10)) rest) a Hq) as [k [Hk E]].
      exists (k + 1). split; [lia|].
      rewrite E. cbn [strtol_digits]. rewrite Hv. f_equal.
      rewrite Z.pow_add_r by lia.
      pose proof (Z.div_mod n 10). lia.
Qed.

Lemma atol_sprintf_ld (z : Z) :
  LONG_MIN <= z <= LONG_MAX -> atol (sprintf_ld z) = z.
Proof.
  unfold LONG_MIN, LONG_MAX. intros Hz. unfold sprintf_ld.
  destruct (z <? 0) eqn:Hneg.
  - apply Z.ltb_lt in Hneg.
    assert (Hr : 0 <= - z < 10 ^ Z.of_nat 19) by (change (10 ^ Z.of_nat 19) with 10000000000000000000; lia).
    destruct (strtol_print_digits 19 (- z) "" 0 Hr) as [k [_ E]].
    unfold atol. cbn [skip_space].
    change (isspace "-") with false. cbv iota.
    change (Ascii.eqb "-" "-") with true. cbv iota.
    rewrite E. cbn [strtol_digits]. unfold clamp_long, LONG_MIN, LONG_MAX. lia.
  - apply Z.ltb_ge in Hneg.
    assert (Hr : 0 <= z < 10 ^ Z.of_nat 19) by (change (10 ^ Z.of_nat 19) with 10000000000000000000; lia).
    destruct (strtol_print_digits 19 z "" 0 Hr) as [k [_ E]].
    destruct (print_digits_head 18 z "" Hneg) as [d [s [Hd Hs]]].
    destruct (digit_char_props d Hd) as [_ [Hsp [Hm Hp]]].
    unfold atol. rewrite Hs. cbn [skip_space]. rewrite Hsp, Hm, Hp.
    rewrite <- Hs, E. cbn [strtol_digits]. unfold clamp_long, LONG_MIN, LONG_MAX. lia.
Qed.

Lemma to_long_range (h : Z) : LONG_MIN <= to_long h <= LONG_MAX.
Proof.
  unfold to_long, to_ulong, LONG_MIN, LONG_MAX.
  pose proof (Z.mod_pos_bound h (2 ^ 64) ltac:(lia)).
  destruct (h mod 2 ^ 64 <? 2 ^ 63) eqn:E;
    [apply Z.ltb_lt in E | apply Z.ltb_ge in E]; lia.
Qed.

Lemma to_ulong_to_long (h : Z) : to_ulong (to_long h) = to_ulong h.
Proof.
  unfold to_long. destruct (to_ulong h <? 2 ^ 63).
  - unfold to_ulong. apply Z.mod_mod. lia.
  - unfold to_ulong.
    replace (h mod 2 ^ 64 - 2 ^ 64) with (h mod 2 ^ 64 + (-1) * 2 ^ 64) by lia.
    rewrite Z.mod_add by lia. apply Z.mod_mod. lia.
Qed.

(** The host id that the primary prints with ["%ld"] is the one the
    secondary gets from [atol] and the conversion to [unsigned long]. *)
Lemma hostid_text_roundtrip (h : Z) :
  to_ulong (atol (sprintf_ld (to_long h))) = to_ulong h.
Proof.
  rewrite atol_sprintf_ld by apply to_long_range. apply to_ulong_to_long.
Qed.

(** ** Sums of [time_t] *)

(** A sum that is a value of [time_t] is computed as it stands. *)
Lemma to_long_exact (z : Z) : LONG_MIN <= z <= LONG_MAX -> to_long z = z.
Proof.
  unfold to_long, to_ulong, LONG_MIN, LONG_MAX. intros H.
  destruct (Z.neg_nonneg_cases z) as [Hneg|Hpos].
  - replace (z mod 2 ^ 64) with (z + 2 ^ 64)
      by (apply Z.mod_unique with (q := -1); lia).
    destruct (z + 2 ^ 64 <? 2 ^ 63) eqn:E;
      [apply Z.ltb_lt in E | apply Z.ltb_ge in E]; lia.
  - rewrite Z.mod_small by lia.
    destruct (z <? 2 ^ 63) eqn:E; [apply Z.ltb_lt in E | apply Z.ltb_ge in E]; lia.
Qed.

Lemma time_add_exact (a b : Z) :
  LONG_MIN <= a + b <= LONG_MAX -> time_add a b = a + b.
Proof. apply to_long_exact. Qed.

(** Two sums in a row wrap like the sum of the three. *)
Lemma time_add_twice (a b c : Z) :
  time_add (time_add a b) c = to_long (a + b + c).
Proof.
  unfold time_add, to_long at 1 3.
  replace (to_ulong (to_long (a + b) + c)) with (to_ulong (a + b + c));
    [reflexivity|].
  unfold to_ulong.
  rewrite <- (Z.add_mod_idemp_l (to_long (a + b)) c) by lia.
  rewrite <- (Z.add_mod_idemp_l (a + b) c) by lia.
  f_equal. f_equal. symmetry. apply to_ulong_to_long.
Qed.

Example time_add_wraps : time_add 973 LONG_MAX = -9223372036854774836.
Proof. reflexivity. Qed.

(** ** Lines cut to the size of the buffer *)

(** A text that leaves room for the final NUL is stored whole. *)
Lemma take_chars_all (s : string) (n : Z) :
  Z.of_nat (String.length s) <= n -> take_chars n s = s.
Proof.
  revert n. induction s as [|c s IH]; intros n H; cbn [take_chars]; [reflexivity|].
  cbn [String.length] in H.
  destruct (n <=? 0) eqn:E; [apply Z.leb_le in E; lia|].
  rewrite IH by lia. reflexivity.
Qed.

(** Of a text that fills the room by itself, nothing of what follows it
    is stored. *)
Lemma take_chars_append (s t : string) (n : Z) :
  n <= Z.of_nat (String.length s) ->
  take_chars n (s ++ t)%string = take_chars n s.
Proof.
  revert n. induction s as [|c s IH]; intros n H; cbn [String.append take_chars].
  - cbn [String.length] in H. destruct t; cbn [take_chars]; [reflexivity|].
    destruct (n <=? 0) eqn:E; [reflexivity | apply Z.leb_gt in E; lia].
  - cbn [String.length] in H.
    destruct (n <=? 0) eqn:E; [reflexivity|].
    rewrite IH by lia. reflexivity.
Qed.

(** ** The trimming of the script's output *)

(** X1. The loop that ends [out_err_msg] cuts exactly the trailing
    carriage returns and line feeds: what is cut consists of them only,
    and what is left does not end in one (an output made of line ends
    only is left empty). *)
Theorem strip_crlf_cuts_line_ends (s : string) :
  exists cut,
    s = (strip_crlf s ++ cut)%string /\
    all_crlf cut = true /\
    ends_crlf (strip_crlf s) = false.
Proof.
  induction s as [|c s IH].
  - exists EmptyString. repeat split.
  - destruct IH as (cut & Hs & Hcut & Hend).
    cbn [strip_crlf]. fold (is_crlf c).
    destruct (strip_crlf s) as [|d u] eqn:E.
    + destruct (is_crlf c) eqn:Hc.
      * exists (String c cut). cbn in Hs. subst s.
        cbn. rewrite Hc, Hcut. repeat split.
      * exists cut. cbn in Hs. subst s. cbn. rewrite Hc. repeat split. exact Hcut.
    + exists cut. split; [|split].
      * cbn. cbn in Hs. rewrite <- Hs. reflexivity.
      * exact Hcut.
      * exact Hend.
Qed.


Section Properties.

Context {hdr : pbs_headers} {glob : pbs_globals}.
Variable wait_request : Z -> M Z.

(** Proof steps shared by the properties: unfold the handler and the
    monad, keep the integer tests as they are written, decide the tests
    between constants. *)
Ltac simp :=
  cbn -[Z.eqb Z.ltb Z.leb Z.gtb Z.geb Z.add Z.sub Z.mul Z.rem Z.lxor Z.opp
        atol sprintf_ld sprintf_d to_ulong to_long time_add String.append
        strip_crlf snprintf stonith_output_line check_and_invoke_stonith] in *.

Ltac run_handler :=
  cbv beta iota zeta delta
      [read_fo_request read_reg_reply req_failover req_failover_reply
       be_secondary_switch be_secondary_tail made_contact put_failover alt_conn
       check_and_invoke_stonith stonith_read_output
       store_Secondary_state call_wait_request log_event log_buffer_event
       bind ret emit modify gets skip exit];
  simp.

Ltac has_var t := match t with context [?x] => is_var x end.

Ltac closed_test op a b :=
  tryif has_var a then fail else
  tryif has_var b then fail else
  let v := eval vm_compute in (op a b) in
  match v with
  | true => change (op a b) with true
  | false => change (op a b) with false
  end.

Ltac closed_tests :=
  repeat match goal with
  | |- context [Z.eqb ?a ?b] => closed_test Z.eqb a b
  | |- context [Z.ltb ?a ?b] => closed_test Z.ltb a b
  | |- context [Z.leb ?a ?b] => closed_test Z.leb a b
  | |- context [Z.gtb ?a ?b] => closed_test Z.gtb a b
  | |- context [Z.geb ?a ?b] => closed_test Z.geb a b
  end; simp.

(** The integer tests among the hypotheses, as propositions. *)
Ltac zbool :=
  repeat match goal with
  | H : (_ =? _) = true |- _ => apply Z.eqb_eq in H
  | H : (_ =? _) = false |- _ => apply Z.eqb_neq in H
  | H : (_ <? _) = true |- _ => apply Z.ltb_lt in H
  | H : (_ <? _) = false |- _ => apply Z.ltb_ge in H
  | H : (_ <=? _) = true |- _ => apply Z.leb_le in H
  | H : (_ <=? _) = false |- _ => apply Z.leb_gt in H
  | H : (_ >? _) = true |- _ => rewrite Z.gtb_ltb in H
  | H : (_ >? _) = false |- _ => rewrite Z.gtb_ltb in H
  | H : (_ >=? _) = true |- _ => rewrite Z.geb_leb in H
  | H : (_ >=? _) = false |- _ => rewrite Z.geb_leb in H
  end.

(** ** The fencing hook *)

(** Given a host name, [check_and_invoke_stonith] returns, with the code
    of its path, and only adds to the trace. *)
Lemma check_and_invoke_stonith_result (e : stonith_env) (nd : string) (s : state) :
  exists evs,
    check_and_invoke_stonith e (Some nd) s =
      Ok (fence_code (fencing_outcome e)) (set_trace (trace s ++ evs) s).
Proof.
  unfold fencing_outcome, capture_fails.
  cbv beta iota zeta delta
    [check_and_invoke_stonith stonith_read_output log_event log_buffer_event
     bind ret emit modify gets skip exit].
  simp.
  destruct (so_stat e =? 0); destruct (so_errno e =? ENOENT); simp;
    try (eexists; rewrite <- ?app_assoc; reflexivity);
    destruct (so_system e =? 0) eqn:Hsys; simp;
    destruct (so_open e =? -1); simp;
    try destruct (so_fstat e =? -1); simp;
    try destruct (so_malloc e); simp;
    try destruct (so_read e =? -1); simp;
    try rewrite Hsys; simp;
    try (apply Z.eqb_eq in Hsys; rewrite Hsys);
    eexists; rewrite <- ?app_assoc; simp; reflexivity.
Qed.

(** Without a host name it returns -1 at once. *)
Lemma check_and_invoke_stonith_null (e : stonith_env) (s : state) :
  check_and_invoke_stonith e None s = Ok (-1) s.
Proof. reflexivity. Qed.

(** A missing script is reported at info level and nothing is run. *)
Lemma check_and_invoke_stonith_absent (e : stonith_env) (nd : string) (s : state) :
  fencing_outcome e = fence_absent ->
  check_and_invoke_stonith e (Some nd) s =
    Ok 0 (set_trace (trace s ++ [E_stat stonith_fl;
                                 E_log_event LOG_INFO
                                   (snprintf LOG_BUF_SIZE "Skipping STONITH") []]) s).
Proof.
  unfold fencing_outcome.
  cbv beta iota zeta delta
    [check_and_invoke_stonith log_event log_buffer_event
     bind ret emit modify gets skip exit].
  simp.
  destruct (negb (so_stat e =? 0) && (so_errno e =? ENOENT)); simp.
  - intros _. rewrite <- app_assoc. reflexivity.
  - destruct (negb (so_system e =? 0)); [discriminate|].
    destruct (capture_fails e); discriminate.
Qed.

(** ** The switch of [be_secondary] *)

Ltac run_switch :=
  cbv beta iota zeta delta
      [be_secondary_switch be_secondary_tail made_contact put_failover alt_conn
       store_Secondary_state call_wait_request log_event log_buffer_event
       bind ret emit modify gets skip exit];
  simp.

Ltac case_if :=
  match goal with
  | |- context [if ?c then _ else _] => destruct c eqn:?
  end; simp.

Ltac use_stonith :=
  match goal with
  | |- context [check_and_invoke_stonith ?e (Some ?nd) ?s] =>
      let evs := fresh "evs" in
      let Heq := fresh "Heq" in
      destruct (check_and_invoke_stonith_result e nd s) as [evs Heq];
      rewrite Heq; clear Heq
  | |- context [check_and_invoke_stonith ?e None ?s] =>
      rewrite (check_and_invoke_stonith_null e s)
  end; simp.

(** When the switch makes the function return, it returns 0, from state
    [takeov], after the last dial failed and the fencing hook did not
    fail; [pbs_failover_active] is then 1 and the marker file holds the
    host name if it could be opened.  On every other path the flag and
    the file are as before. *)
Lemma be_secondary_switch_activation (delay : Z) (e : tick_env) (fr : frame) (st : state) :
  preserves pbs_failover_active wait_request ->
  preserves secondaryact wait_request ->
  match be_secondary_switch wait_request delay e fr st with
  | Ok (fr', Some v) st' =>
      v = 0 /\ fr' = fr /\
      Secondary_state st = SECONDARY_STATE_takeov /\
      te_alt_conn e < 0 /\
      (exists nd, pbs_primary = Some nd) /\
      fencing_outcome (te_stonith e) <> fence_failed /\
      pbs_failover_active st' = 1 /\
      secondaryact st' =
        (if te_fopen e
         then Some (server_host ++ String "010"%char "")%string
         else secondaryact st)
  | Ok (_, None) st' | Exited _ st' =>
      pbs_failover_active st' = pbs_failover_active st /\
      secondaryact st' = secondaryact st
  end.
Proof.
  intros Hact Hfile. run_switch.
  destruct (Secondary_state st =? SECONDARY_STATE_noconn) eqn:E1; simp.
  { repeat case_if; auto. }
  destruct (Secondary_state st =? SECONDARY_STATE_idle) eqn:E2; simp.
  { repeat case_if; auto. }
  destruct (Secondary_state st =? SECONDARY_STATE_conn) eqn:E3; simp.
  { repeat case_if; auto. }
  destruct (Secondary_state st =? SECONDARY_STATE_regsent) eqn:E4; simp; auto.
  destruct (Secondary_state st =? SECONDARY_STATE_handsk) eqn:E5; simp.
  { repeat case_if; auto. }
  destruct (Secondary_state st =? SECONDARY_STATE_nohsk) eqn:E6; simp.
  { repeat case_if; auto. }
  destruct (Secondary_state st =? SECONDARY_STATE_shutd) eqn:E7; simp; auto.
  destruct (Secondary_state st =? SECONDARY_STATE_takeov) eqn:E8; simp.
  { apply Z.eqb_eq in E8.
    destruct (negb (sec_sock st =? -1)); simp;
      (destruct (te_alt_conn e <? 0) eqn:Hdial; simp; closed_tests;
       [ | destruct (te_alt_conn e >=? 0) eqn:Hge; simp;
           [ destruct (te_add_conn e); simp; auto | zbool; lia ] ]);
      (destruct pbs_primary as [nd|] eqn:Hprim; use_stonith; closed_tests; auto);
      (destruct (fencing_outcome (te_stonith e)) eqn:Hf; simp; closed_tests; auto);
      (destruct (te_fopen e); simp; zbool;
       repeat split; eauto; congruence). }
  destruct (Secondary_state st =? SECONDARY_STATE_inact) eqn:E9; simp; auto.
  pose proof (Hact 600 (set_trace (trace st ++ [E_wait_request 600]) st)) as P.
  pose proof (Hfile 600 (set_trace (trace st ++ [E_wait_request 600]) st)) as Q.
  destruct (wait_request 600 _); simp; auto.
Qed.

(** The end of an iteration leaves the active flag alone. *)
Lemma be_secondary_tail_active (s : state) :
  preserves pbs_failover_active wait_request ->
  pbs_failover_active (final_state (be_secondary_tail wait_request s)) =
  pbs_failover_active s.
Proof.
  intros Hact.
  cbv beta iota zeta delta
    [be_secondary_tail store_Secondary_state call_wait_request
     bind ret emit modify gets skip].
  simp.
  pose proof (Hact 1 (set_trace (trace s ++ [E_wait_request 1]) s)) as P.
  destruct (wait_request 1 _) as [r s1|c s1]; simp; [|exact P].
  destruct (r =? -1); simp; exact P.
Qed.

(** Over the whole loop: when [be_secondary] returns, it returns 0 with
    [pbs_failover_active] set; as long as it has not returned, or when the
    process ends, the flag is the one the loop started with. *)
Lemma be_secondary_loop_activation (delay : Z) (es : list tick_env) :
  preserves pbs_failover_active wait_request ->
  preserves secondaryact wait_request ->
  forall (fr : frame) (st : state),
    match be_secondary_loop wait_request delay es fr st with
    | Ok (_, Some v) st' => v = 0 /\ pbs_failover_active st' = 1
    | Ok (_, None) st' | Exited _ st' =>
        pbs_failover_active st' = pbs_failover_active st
    end.
Proof.
  intros Hact Hfile. induction es as [|e es IH]; intros fr st.
  - reflexivity.
  - cbn [be_secondary_loop].
    pose proof (be_secondary_switch_activation delay e (incr_loop fr)
                  (set_time_now (te_time e) st) Hact Hfile) as Hsw.
    cbv beta iota zeta delta [be_secondary_iter bind modify ret].
    destruct (be_secondary_switch _ _ _ _ _) as [[fr1 [v|]] s1|c s1]; cbn [snd fst].
    + intuition.
    + pose proof (be_secondary_tail_active s1 Hact) as Ht.
      destruct (be_secondary_tail wait_request s1) as [[] s2|c s2];
        cbn [final_state snd fst] in *.
      * specialize (IH fr1 s2).
        destruct (be_secondary_loop _ _ _ _ _) as [[fr3 [v|]] s3|c s3];
          cbn [pbs_failover_active set_time_now] in *; intuition congruence.
      * cbn [pbs_failover_active set_time_now] in *. intuition congruence.
    + cbn [pbs_failover_active set_time_now] in *. intuition.
Qed.

(** The handlers that a poll may run do not write the active flag. *)
Lemma read_reg_reply_keeps_active (e : reg_reply_env) (sock : Z) (s : state) :
  pbs_failover_active (final_state (read_reg_reply e sock s)) = pbs_failover_active s.
Proof.
  run_handler. repeat case_if; try reflexivity.
  all: destruct (rr_choice e); simp; try destruct (rr_str e); simp;
    repeat case_if; reflexivity.
Qed.

Lemma read_fo_request_keeps_active (e : fo_read_env) (conn : Z) (s : state) :
  preserves pbs_failover_active wait_request ->
  pbs_failover_active (final_state (read_fo_request wait_request e conn s)) =
  pbs_failover_active s.
Proof.
  intros Hact. run_handler.
  destruct (fr_alloc e); simp; [|reflexivity].
  destruct (fr_rc e =? -1); simp; [repeat case_if; reflexivity|].
  destruct (fr_rc e =? 0); simp; [|reflexivity].
  destruct (rq_get_conn (fr_req e)); simp; [|reflexivity].
  destruct (fr_tag e); simp; closed_tests; repeat case_if; try reflexivity.
  match goal with
  | |- context [wait_request 600 ?s0] =>
      pose proof (Hact 600 s0) as P; destruct (wait_request 600 s0)
  end; simp; [|exact P].
  repeat case_if; exact P.
Qed.


(** ** The two servers side by side *)






Ltac switch_step :=
  first
    [ use_stonith
    | match goal with
      | |- context [check_and_invoke_stonith _ pbs_primary _] =>
          destruct pbs_primary eqn:?
      end
    | match goal with
      | |- context [wait_request ?n ?s] => destruct (wait_request n s)
      end; simp
    | case_if ].

(** The switch never writes [takeov_on_nocontact]. *)
Lemma be_secondary_switch_deadline (delay : Z) (e : tick_env) (fr : frame) (st : state) :
  match be_secondary_switch wait_request delay e fr st with
  | Ok (fr', _) _ => takeov_on_nocontact fr' = takeov_on_nocontact fr
  | Exited _ _ => True
  end.
Proof.
  run_switch. repeat switch_step; auto.
Qed.

Lemma be_secondary_iter_deadline (delay : Z) (e : tick_env) (fr fr' : frame)
  (r : option Z) (st st' : state) :
  be_secondary_iter wait_request delay e fr st = Ok (fr', r) st' ->
  takeov_on_nocontact fr' = takeov_on_nocontact fr.
Proof.
  unfold be_secondary_iter.
  cbv beta iota zeta delta [bind modify ret]. 
  pose proof (be_secondary_switch_deadline delay e (incr_loop fr)
                (set_time_now (te_time e) st)) as H.
  destruct (be_secondary_switch _ _ _ _ _) as [[fr1 r1] s1|]; [|discriminate].
  simp. destruct r1; simp.
  - intros E. inversion E; subst. exact H.
  - destruct (be_secondary_tail wait_request s1); [|discriminate].
    intros E. inversion E; subst. exact H.
Qed.

(** The deadline is the same after any number of iterations. *)
Lemma be_secondary_loop_deadline (delay : Z) (es : list tick_env) :
  forall (fr fr' : frame) (r : option Z) (st st' : state),
    be_secondary_loop wait_request delay es fr st = Ok (fr', r) st' ->
    takeov_on_nocontact fr' = takeov_on_nocontact fr.
Proof.
  induction es as [|e es IH]; intros fr fr' r st st'.
  - cbn. unfold ret. intros E. inversion E. reflexivity.
  - cbn [be_secondary_loop]. unfold bind at 1.
    destruct (be_secondary_iter wait_request delay e fr st) as [[fr1 r1] s1|] eqn:Hit;
      [|discriminate].
    apply be_secondary_iter_deadline in Hit.
    destruct r1; cbn [snd fst].
    + unfold ret. intros E. inversion E; subst. exact Hit.
    + intros E. apply IH in E. congruence.
Qed.

(** [be_secondary] computes the deadline before the loop, from the time
    of its start and from [secondary_delay], in which -1 has been
    replaced by 0; the sum is one of [time_t]. *)
Lemma be_secondary_init_deadline (t0 primaddr : Z) (s0 s1 : state) (fr0 : frame) :
  be_secondary_init t0 primaddr s0 = Ok fr0 s1 ->
  secondary_delay s1 = (if secondary_delay s0 =? -1 then 0 else secondary_delay s0) /\
  takeov_on_nocontact fr0 = to_long (t0 + 5 * 60 + secondary_delay s1) /\
  hd_time s1 = t0.
Proof.
  cbv beta iota zeta delta [be_secondary_init log_event bind ret emit modify gets skip exit].
  simp. destruct (primaddr =? 0); simp; [discriminate|].
  destruct (secondary_delay s0 =? -1); simp;
    intros E; inversion E; subst; simp; rewrite time_add_twice;
    repeat split; reflexivity.
Qed.

(** C7. In state [nohsk], when the live file can be examined and its
    modification time is the remembered one, the switch moves to [takeov]
    exactly when [time_now > mytime + secondary_delay]; a stagnation of
    exactly [secondary_delay] seconds leaves the state [nohsk].  The sum
    is one of [time_t]: this is said of the runs in which it is a value
    of that type, the others being those of a delay near the end of the
    range ([nohsk_wrapped_sum] shows one). *)
Theorem nohsk_stagnant_live_file (delay : Z) (e : tick_env) (fr : frame) (st : state) :
  Secondary_state st = SECONDARY_STATE_nohsk ->
  te_stat e = 0 ->
  te_mtime e = sbtime fr ->
  LONG_MIN <= mytime fr + secondary_delay st <= LONG_MAX ->
  exists st',
    be_secondary_switch wait_request delay e fr st = Ok (fr, None) st' /\
    (Secondary_state st' = SECONDARY_STATE_takeov <->
     time_now st > mytime fr + secondary_delay st) /\
    (time_now st <= mytime fr + secondary_delay st ->
     Secondary_state st' = SECONDARY_STATE_nohsk).
Proof.
  intros Hst Hstat Hm Hrange. run_switch. rewrite Hst. closed_tests.
  rewrite Hstat, Hm. closed_tests.
  rewrite Z.gtb_ltb, Z.ltb_irrefl. simp.
  rewrite (time_add_exact _ _ Hrange).
  destruct (time_now st >? mytime fr + secondary_delay st) eqn:Hgt; simp;
    eexists; (split; [reflexivity|]); simp; zbool; rewrite ?Hst;
    unfold SECONDARY_STATE_takeov, SECONDARY_STATE_nohsk; split; try lia;
    split; lia.
Qed.

(** C8. Let [be_secondary] have started at time [t0], and let its loop
    have run for any number of iterations.  The deadline
    [takeov_on_nocontact] is still the value computed before the loop,
    [t0 + 5 * 60 + secondary_delay], a sum of [time_t] that is taken
    here to be a value of that type.  In the next iteration, at time
    [now], when the dial to the primary fails: from [noconn] the state
    becomes [takeov] exactly when [delay] is -1 or [now] is past the
    deadline, and otherwise stays [noconn] after a sleep of 10 seconds;
    from [idle] it stays [idle] after the same sleep. *)
Theorem noconn_takeover_deadline
  (delay t0 primaddr : Z) (s0 s1 s : state) (fr0 fr : frame)
  (es : list tick_env) (e : tick_env) :
  be_secondary_init t0 primaddr s0 = Ok fr0 s1 ->
  be_secondary_loop wait_request delay es fr0 s1 = Ok (fr, None) s ->
  te_client_to_svr e < 0 ->
  LONG_MIN <= t0 + 5 * 60 + secondary_delay s1 <= LONG_MAX ->
  let deadline := t0 + 5 * 60 + secondary_delay s1 in
  let now := te_time e in
  let sw := be_secondary_switch wait_request delay e (incr_loop fr) (set_time_now now s) in
  secondary_delay s1 = (if secondary_delay s0 =? -1 then 0 else secondary_delay s0) /\
  takeov_on_nocontact fr = deadline /\
  (Secondary_state s = SECONDARY_STATE_noconn ->
   exists fr' s',
     sw = Ok (fr', None) s' /\
     sec_sock s' = -1 /\
     (Secondary_state s' = SECONDARY_STATE_takeov <-> delay = -1 \/ now > deadline) /\
     (Secondary_state s' <> SECONDARY_STATE_takeov ->
      Secondary_state s' = SECONDARY_STATE_noconn /\
      exists pre, trace s' = pre ++ [E_sleep 10])) /\
  (Secondary_state s = SECONDARY_STATE_idle ->
   exists fr' s',
     sw = Ok (fr', None) s' /\
     sec_sock s' = -1 /\
     Secondary_state s' = SECONDARY_STATE_idle /\
     exists pre, trace s' = pre ++ [E_sleep 10]).
Proof.
  intros Hinit Hloop Hdial Hrange deadline now sw.
  destruct (be_secondary_init_deadline _ _ _ _ _ Hinit) as [Hdly [Hdl _]].
  rewrite (to_long_exact _ Hrange) in Hdl.
  apply be_secondary_loop_deadline in Hloop.
  assert (Hfr : takeov_on_nocontact fr = deadline) by (unfold deadline; congruence).
  clear Hinit. apply Z.ltb_lt in Hdial.
  split; [exact Hdly|]. split; [exact Hfr|].
  split; intros Hst; unfold sw; run_switch; rewrite Hst; closed_tests;
    rewrite Hdial; simp; destruct (sec_sock s >=? 0); simp.
  1, 2:
    rewrite Hfr;
    (destruct (delay =? -1) eqn:Hd; simp;
     [| destruct (now >? deadline) eqn:Hn; simp ]);
    eexists; eexists; (split; [reflexivity|]); simp; zbool;
    (split; [reflexivity|]); rewrite ?Hst;
    unfold SECONDARY_STATE_takeov, SECONDARY_STATE_noconn;
    (split; [split; intros; try lia; auto|]);
    intros Hne; try congruence; try lia;
    (split; [reflexivity | eexists; reflexivity]).
  all: eexists; eexists; (split; [reflexivity|]); simp;
    (split; [reflexivity|]); (split; [exact Hst|]); eexists; reflexivity.
Qed.

(** C9, what the code does.  Given the host name of the primary, the
    fencing hook returns -1 when its outcome is failed and 0 when it is
    ok or absent ([fencing_outcome]).  The outcome is absent when [stat]
    of the script fails with the error [ENOENT], and then only: a line
    is logged at info level and nothing is run.  In every other case,
    also after a [stat] that fails with another error, the command line
    is run.  The outcome is then failed when [system()] does not return
    0, as the specification has it; it is failed as well when
    [system()] returns 0 and the output of the script cannot be read
    back (the buffer is not allocated, or the read fails), where the
    specification, like the comment of the function, says ok: the paths
    on which the output file cannot be opened or measured do return the
    0 of the script.
    In state [takeov], once the last dial has failed: on failed the
    switch logs that it will try again, sleeps 10 seconds and breaks
    with the state still [takeov], the active flag and the marker file
    untouched; on ok or absent it sets [pbs_failover_active] and makes
    [be_secondary] return 0. *)
Theorem takeov_fencing
  (delay : Z) (e : tick_env) (fr : frame) (st : state) (nd : string) :
  pbs_primary = Some nd ->
  Secondary_state st = SECONDARY_STATE_takeov ->
  te_alt_conn e < 0 ->
  (forall s, exists evs,
      check_and_invoke_stonith (te_stonith e) pbs_primary s =
        Ok (fence_code (fencing_outcome (te_stonith e)))
           (set_trace (trace s ++ evs) s)) /\
  (fencing_outcome (te_stonith e) = fence_absent <->
   so_stat (te_stonith e) <> 0 /\ so_errno (te_stonith e) = ENOENT) /\
  (fencing_outcome (te_stonith e) = fence_absent ->
   forall s,
     check_and_invoke_stonith (te_stonith e) pbs_primary s =
       Ok 0 (set_trace (trace s ++ [E_stat stonith_fl;
                                    E_log_event LOG_INFO
                                      (snprintf LOG_BUF_SIZE "Skipping STONITH") []]) s)) /\
  (script_absent (te_stonith e) = false ->
   so_system (te_stonith e) = 0 ->
   capture_fails (te_stonith e) = true ->
   forall s, exists evs,
     check_and_invoke_stonith (te_stonith e) pbs_primary s =
       Ok (-1) (set_trace (trace s ++ evs) s)) /\
  exists st',
    match fencing_outcome (te_stonith e) with
    | fence_failed =>
        be_secondary_switch wait_request delay e fr st = Ok (fr, None) st' /\
        Secondary_state st' = SECONDARY_STATE_takeov /\
        pbs_failover_active st' = pbs_failover_active st /\
        secondaryact st' = secondaryact st /\
        exists pre,
          trace st' = pre ++
            [E_log_event LOG_INFO
               (snprintf LOG_BUF_SIZE "Secondary will attempt taking over again") [];
             E_sleep 10]
    | _ =>
        be_secondary_switch wait_request delay e fr st = Ok (fr, Some 0) st' /\
        pbs_failover_active st' = 1
    end.
Proof.
  intros Hprim Hst Hdial. apply Z.ltb_lt in Hdial.
  split.
  { intros s. rewrite Hprim. apply check_and_invoke_stonith_result. }
  split.
  { unfold fencing_outcome.
    assert (Hno : (if negb (so_system (te_stonith e) =? 0) then fence_failed
                   else if capture_fails (te_stonith e) then fence_failed
                   else fence_ok) <> fence_absent).
    { destruct (negb (so_system (te_stonith e) =? 0)); [discriminate|].
      destruct (capture_fails (te_stonith e)); discriminate. }
    destruct (so_stat (te_stonith e) =? 0) eqn:E1;
      destruct (so_errno (te_stonith e) =? ENOENT) eqn:E2; simp; zbool;
      (split; [intros H | intros [H1 H2]]);
      auto; try contradiction; congruence. }
  split.
  { intros Habs s. rewrite Hprim. apply check_and_invoke_stonith_absent. exact Habs. }
  split.
  { intros Habs Hsys Hcap s. rewrite Hprim.
    destruct (check_and_invoke_stonith_result (te_stonith e) nd s) as [evs Heq].
    exists evs. rewrite Heq. unfold fencing_outcome.
    unfold script_absent in Habs. rewrite Habs, Hsys, Hcap. reflexivity. }
  run_switch. rewrite Hst. closed_tests. rewrite Hdial. closed_tests.
  rewrite Hprim.
  destruct (negb (sec_sock st =? -1)); simp; use_stonith;
    destruct (fencing_outcome (te_stonith e)); simp; closed_tests;
    try (destruct (te_fopen e); simp; eexists; split; reflexivity);
    eexists; (split; [reflexivity|]); simp;
    (split; [exact Hst|]); (split; [reflexivity|]); (split; [reflexivity|]);
    rewrite <- app_assoc; simp; eexists; reflexivity.
Qed.

(** ** The requests *)

(** ** [goidle_ack] on the secondary

    The flag is raised by [takeover_from_secondary] only, which the
    primary runs at its start; nothing that the secondary runs sets it. *)

Ltac step_keeping H :=
  first
    [ use_stonith
    | match goal with
      | |- context [check_and_invoke_stonith _ pbs_primary _] =>
          destruct pbs_primary eqn:?
      end
    | match goal with
      | |- context [wait_request ?n ?s] =>
          let P := fresh "P" in
          pose proof (H n s) as P; destruct (wait_request n s)
      end; simp
    | case_if ].

Lemma read_reg_reply_goidle (e : reg_reply_env) (sock : Z) (s : state) :
  goidle_ack s = 0 ->
  goidle_ack (final_state (read_reg_reply e sock s)) = 0.
Proof.
  intros Hg. run_handler.
  repeat case_if; try assumption; try reflexivity.
  all: destruct (rr_choice e); simp; try destruct (rr_str e); simp;
    repeat case_if; assumption.
Qed.

Lemma req_failover_goidle (e : req_env) (preq : batch_request) (s : state) :
  preserves goidle_ack wait_request ->
  goidle_ack (final_state (req_failover wait_request e preq s)) = goidle_ack s.
Proof.
  intros Hg. run_handler.
  destruct (rq_get_conn e); simp; [|reflexivity].
  destruct (rq_failover preq); simp; closed_tests;
    repeat step_keeping Hg; try reflexivity; assumption.
Qed.

Lemma be_secondary_switch_goidle (delay : Z) (e : tick_env) (fr : frame) (s : state) :
  preserves goidle_ack wait_request ->
  goidle_ack (final_state (be_secondary_switch wait_request delay e fr s)) =
  goidle_ack s.
Proof.
  intros Hg. run_switch. repeat step_keeping Hg; try reflexivity; assumption.
Qed.

(** ** Accepting the first REGISTER *)

(** With no secondary connected, the primary marks the connection as
    exempt from the idle timeout, records its handle, installs
    [process_Dreply] and the close function, and replies with its host
    id printed by ["%ld"]. *)
Lemma req_failover_register_first (e : req_env) (preq : batch_request) (st : state) :
  rq_get_conn e = true ->
  rq_failover preq = FAILOVER_Register ->
  Secondary_connection st < 0 ->
  req_failover wait_request e preq st =
    Ok tt
      (set_trace
         (trace st ++
            [E_log_event LOG_INFO "Failover: registering %s as Secondary Server"
               [ArgS (rq_connecthost e)];
             E_cn_authen_or (rq_conn preq) PBS_NET_CONN_NOTIMEOUT;
             E_cn_func (rq_conn preq) cb_process_Dreply;
             E_net_add_close_func (rq_conn preq);
             E_reply_text (set_brp_auxcode 0 preq) PBSE_NONE
               (sprintf_ld (to_long hostidnum))])
         (set_Secondary_connection (rq_handle e) st)).
Proof.
  intros Hconn Htag Hlt.
  assert (Hge : (Secondary_connection st >=? 0) = false)
    by (rewrite Z.geb_leb; apply Z.leb_gt; lia).
  run_handler. rewrite Hconn, Htag. simp. rewrite Hge. simp.
  repeat rewrite <- app_assoc. reflexivity.
Qed.


(** C2, as the source has it.  A REGISTER that arrives while a secondary
    is connected ([Secondary_connection >= 0]) puts [PBSE_OBJBUSY] in
    [err], but the reply that goes out is [req_reject(PBSE_SYSTEM, 0,
    preq)]: that is the only answer to the request, and apart from the
    log line nothing in the state changes, so the connected peer is not
    disturbed. *)
Theorem req_failover_second_register (e : req_env) (preq : batch_request) (st : state) :
  PBSE_OBJBUSY <> 0 ->
  rq_failover preq = FAILOVER_Register ->
  Secondary_connection st >= 0 ->
  let evs :=
    (if rq_get_conn e
     then [E_log_event LOG_WARNING
             "Failover: second secondary tried to register, host: %s"
             [ArgS (rq_connecthost e)]]
     else []) ++
    [E_req_reject PBSE_SYSTEM 0 (set_brp_auxcode 0 preq)] in
  req_failover wait_request e preq st = Ok tt (set_trace (trace st ++ evs) st) /\
  filter is_reply evs = [E_req_reject PBSE_SYSTEM 0 (set_brp_auxcode 0 preq)].
Proof.
  intros Hnz Htag Hconn evs. unfold evs. apply Z.eqb_neq in Hnz.
  assert (Hge : (Secondary_connection st >=? 0) = true)
    by (rewrite Z.geb_leb; apply Z.leb_le; lia).
  run_handler. rewrite Htag.
  destruct (rq_get_conn e); simp.
  - rewrite Hge. simp. rewrite Hnz. simp.
    rewrite <- app_assoc. split; reflexivity.
  - split; reflexivity.
Qed.

(** C6, as the source has it.  On SECD_TAKEOVER the secondary sleeps 10
    seconds, then stores [takeov] in [Secondary_state], then sends the
    acknowledgement, then polls with [wait_request(600)]; when the poll
    comes back it closes [sec_sock] if that is still open. *)
Theorem req_failover_takeover_order (e : req_env) (preq : batch_request) (st : state) :
  rq_get_conn e = true ->
  rq_failover preq = FAILOVER_SecdTakeOver ->
  let ack := set_brp_choice BATCH_REPLY_CHOICE_NULL
               (set_brp_code 0 (set_brp_auxcode 0 preq)) in
  let st1 :=
    set_trace (trace st ++ [E_sleep 10;
                            E_store_Secondary_state SECONDARY_STATE_takeov;
                            E_reply_send ack;
                            E_wait_request 600])
      (set_Secondary_state SECONDARY_STATE_takeov st) in
  req_failover wait_request e preq st =
    (_ <- wait_request 600 ;;
     ss <- gets sec_sock ;;
     if negb (ss =? -1)
     then emit (E_close_conn ss) ;; modify (set_sec_sock (-1))
     else skip) st1.
Proof.
  intros Hconn Htag ack st1. unfold st1, ack.
  run_handler. rewrite Hconn, Htag. closed_tests.
  repeat rewrite <- app_assoc. simp. reflexivity.
Qed.

(** What a request does to the marker file: PRIM_IS_BACK removes it, the
    other requests leave it. *)
Lemma req_failover_marker (e : req_env) (preq : batch_request) (st : state) :
  preserves secondaryact wait_request ->
  secondaryact (final_state (req_failover wait_request e preq st)) =
    match rq_failover preq with
    | FAILOVER_PrimIsBack => if rq_get_conn e then None else secondaryact st
    | _ => secondaryact st
    end.
Proof.
  intros Hfile. run_handler.
  destruct (rq_get_conn e); simp; [|destruct (rq_failover preq); reflexivity].
  destruct (rq_failover preq) eqn:Htag; simp; closed_tests; try reflexivity.
  - destruct (Secondary_connection st >=? 0); simp; [|reflexivity].
    destruct (negb (PBSE_OBJBUSY =? 0)); simp; rewrite ?Htag; reflexivity.
  - destruct (Secondary_state st =? SECONDARY_STATE_nohsk); simp; reflexivity.
  - match goal with
    | |- context [wait_request 600 ?s] =>
        pose proof (Hfile 600 s) as P; destruct (wait_request 600 s)
    end; simp; [|exact P].
    destruct (negb (sec_sock s =? -1)); simp; exact P.
Qed.

(** SECD_GO_INACTIVE moves the state to [inact] and acknowledges. *)
Lemma req_failover_go_inactive (e : req_env) (preq : batch_request) (st : state) :
  rq_get_conn e = true ->
  rq_failover preq = FAILOVER_SecdGoInactive ->
  req_failover wait_request e preq st =
    Ok tt (set_trace
             (trace st ++
                [E_store_Secondary_state SECONDARY_STATE_inact;
                 E_reply_send (set_brp_choice BATCH_REPLY_CHOICE_NULL
                                 (set_brp_code 0 (set_brp_auxcode 0 preq)))])
             (set_Secondary_state SECONDARY_STATE_inact st)).
Proof.
  intros Hconn Htag. run_handler. rewrite Hconn, Htag. closed_tests.
  repeat rewrite <- app_assoc. reflexivity.
Qed.

(** C3, as the source has it.  The marker file is written by
    [be_secondary] on the one path that sets [pbs_failover_active] and
    returns 0, with the host name and a newline, provided [fopen]
    succeeds; no other path of the switch touches the file or the flag.
    Among the requests (that arrive on a connection of the table),
    PRIM_IS_BACK removes the file; the others, SECD_GO_INACTIVE
    included, leave it, and SECD_GO_INACTIVE moves the state to [inact].
    The polls inside the two functions are taken not to write the flag
    or the file themselves. *)
Theorem marker_file_transitions
  (delay : Z) (e : tick_env) (fr : frame) (re : req_env) (preq : batch_request)
  (st : state) :
  preserves pbs_failover_active wait_request ->
  preserves secondaryact wait_request ->
  rq_get_conn re = true ->
  match be_secondary_switch wait_request delay e fr st with
  | Ok (_, Some v) st' =>
      v = 0 /\
      pbs_failover_active st' = 1 /\
      secondaryact st' =
        (if te_fopen e
         then Some (server_host ++ String "010"%char "")%string
         else secondaryact st)
  | Ok (_, None) st' | Exited _ st' =>
      pbs_failover_active st' = pbs_failover_active st /\
      secondaryact st' = secondaryact st
  end /\
  secondaryact (final_state (req_failover wait_request re preq st)) =
    match rq_failover preq with
    | FAILOVER_PrimIsBack => None
    | _ => secondaryact st
    end /\
  (rq_failover preq = FAILOVER_SecdGoInactive ->
   Secondary_state (final_state (req_failover wait_request re preq st)) =
     SECONDARY_STATE_inact).
Proof.
  intros Hact Hfile Hconn. split; [|split].
  - pose proof (be_secondary_switch_activation delay e fr st Hact Hfile) as H.
    destruct (be_secondary_switch wait_request delay e fr st) as [[fr' [v|]] st'|];
      intuition.
  - rewrite req_failover_marker by exact Hfile. rewrite Hconn. reflexivity.
  - intros Htag. rewrite req_failover_go_inactive by assumption. reflexivity.
Qed.

(** C10. [read_fo_request], once the request structure is allocated and
    the read of the request fails: on end of file ([rc = -1]) the state
    becomes [nohsk] unless it is [inact] or [noconn], which stay; on any
    other failure it becomes [noconn]; in both cases the connection is
    closed, [sec_sock] is -1, the request is freed and nothing is replied. *)
Theorem read_fo_request_on_read_failure (e : fo_read_env) (conn : Z) (st : state) :
  fr_alloc e = true ->
  fr_rc e <> 0 ->
  exists st' evs,
    read_fo_request wait_request e conn st = Ok tt st' /\
    trace st' = trace st ++ evs /\
    Secondary_state st' =
      (if fr_rc e =? -1 then
         if (Secondary_state st =? SECONDARY_STATE_inact) ||
            (Secondary_state st =? SECONDARY_STATE_noconn)
         then Secondary_state st else SECONDARY_STATE_nohsk
       else SECONDARY_STATE_noconn) /\
    sec_sock st' = -1 /\
    In (E_close_conn conn) evs /\
    In E_free_br evs /\
    existsb is_reply evs = false.
Proof.
  intros Halloc Hrc.
  apply Z.eqb_neq in Hrc.
  run_handler. rewrite Halloc, Hrc. simp.
  destruct (fr_rc e =? -1); simp;
    [ destruct (Secondary_state st =? SECONDARY_STATE_inact);
      destruct (Secondary_state st =? SECONDARY_STATE_noconn) | ];
    simp; eexists; eexists; (split; [reflexivity|]); simp;
    rewrite <- ?app_assoc; (split; [reflexivity|]); simp; intuition.
Qed.

(** C4. When the read of the register reply reports end of data
    ([rc == DIS_EOD], the value under which the source recognises the
    closed connection) while the state is [regsent], [read_reg_reply]
    moves the state to [takeov] and does nothing else: no other variable
    changes, nothing is closed and the process goes on. *)
Theorem read_reg_reply_eof_in_regsent (e : reg_reply_env) (sock : Z) (st : state) :
  DIS_EOD <> 0 ->
  rr_rc e = DIS_EOD ->
  Secondary_state st = SECONDARY_STATE_regsent ->
  read_reg_reply e sock st =
    Ok tt (set_trace (trace st ++ [E_store_Secondary_state SECONDARY_STATE_takeov])
             (set_Secondary_state SECONDARY_STATE_takeov st)).
Proof.
  intros Hnz Hrc Hst. apply Z.eqb_neq in Hnz.
  run_handler. rewrite Hrc, Hnz. simp. rewrite Hst, Z.eqb_refl. simp. reflexivity.
Qed.

(** C5, as the source has it.  The secondary reads an ok reply to
    REGISTER that carries a text.  When the socket is in the connection
    table and license.fo can be opened and written in full,
    [read_reg_reply] returns, and what it did is: install
    [read_fo_request] on the socket, move to [handsk], and open
    license.fo once with [O_WRONLY|O_CREAT|O_TRUNC] and mode 0600, write
    once the 8 bytes of [atol(text) ^ pbs_get_hostid()], close it;
    [hd_time] is the time of the call.  When the socket is not in the
    table, or the file cannot be opened or written in full, the process
    ends with code 1.  When the text is the ["%ld"] image of the
    primary's host id [h], as [req_failover] sends it, the value to write
    is [h ^ pbs_get_hostid()]. *)
Theorem read_reg_reply_registered
  (e : reg_reply_env) (sock : Z) (st : state) (txt : string) :
  rr_rc e = 0 ->
  rr_code e = 0 ->
  rr_choice e = BATCH_REPLY_CHOICE_Text ->
  rr_str e = Some txt ->
  goidle_ack st = 0 ->
  let hid := Z.lxor (to_ulong (atol txt)) (to_ulong pbs_get_hostid) in
  (rr_get_conn e = true /\ rr_open e <> -1 /\ rr_write e = 8 ->
   exists st',
     read_reg_reply e sock st = Ok tt st' /\
     trace st' = trace st ++
       [E_cn_func sock cb_read_fo_request;
        E_store_Secondary_state SECONDARY_STATE_handsk;
        E_open license_fo [O_WRONLY; O_CREAT; O_TRUNC] 384;
        E_write_ulong (rr_open e) hid 8;
        E_close (rr_open e)] /\
     hd_time st' = rr_time e /\
     Secondary_state st' = SECONDARY_STATE_handsk) /\
  (rr_get_conn e = false \/ rr_open e = -1 \/ rr_write e <> 8 ->
   exists st', read_reg_reply e sock st = Exited 1 st') /\
  (forall h : Z,
      txt = sprintf_ld (to_long h) ->
      hid = Z.lxor (to_ulong h) (to_ulong pbs_get_hostid)).
Proof.
  intros Hrc Hcode Hch Hstr Hga hid.
  split; [|split].
  - intros (Hconn & Hopen & Hwr). apply Z.eqb_neq in Hopen.
    run_handler. rewrite Hrc, Hcode. closed_tests. rewrite Hga. closed_tests.
    rewrite Hch, Hstr, Hconn. simp. rewrite Hopen. simp. rewrite Hwr. closed_tests.
    eexists. split; [reflexivity|]. simp.
    repeat rewrite <- app_assoc. simp. repeat split.
  - intros Hbad.
    run_handler. rewrite Hrc, Hcode. closed_tests. rewrite Hga. closed_tests.
    rewrite Hch, Hstr.
    destruct (rr_get_conn e); simp; [|eexists; reflexivity].
    destruct (rr_open e =? -1) eqn:Ho; simp; [eexists; reflexivity|].
    destruct (rr_write e =? 8) eqn:Hw; simp; [|eexists; reflexivity].
    apply Z.eqb_neq in Ho. apply Z.eqb_eq in Hw.
    destruct Hbad as [H|[H|H]]; [discriminate | contradiction | contradiction].
  - intros h Htxt. unfold hid. rewrite Htxt, hostid_text_roundtrip. reflexivity.
Qed.

(** ** More on the fencing hook *)

(** X2. Given a host name, [check_and_invoke_stonith] runs a command
    exactly when [stat] does not report the script missing, and it
    removes the file that captured the output on every such path but
    one: when the read of that file fails, the function returns without
    the [unlink]. *)
Theorem stonith_output_file_cleanup (e : stonith_env) (nd : string) (s : state) :
  exists r evs,
    check_and_invoke_stonith e (Some nd) s = Ok r (set_trace (trace s ++ evs) s) /\
    existsb is_system evs = negb (script_absent e) /\
    existsb is_unlink_out evs = negb (script_absent e) && negb (capture_read_fails e).
Proof.
  unfold script_absent, capture_read_fails.
  cbv beta iota zeta delta
    [check_and_invoke_stonith stonith_read_output log_event log_buffer_event
     bind ret emit modify gets skip exit].
  simp.
  destruct (so_stat e =? 0); destruct (so_errno e =? ENOENT); simp;
    try (eexists; eexists; rewrite <- ?app_assoc; repeat split; reflexivity);
    destruct (so_system e =? 0); simp;
    destruct (so_open e =? -1); simp;
    try destruct (so_fstat e =? -1); simp;
    try destruct (so_malloc e); simp;
    try destruct (so_read e =? -1); simp;
    eexists; eexists; rewrite <- ?app_assoc; simp;
    (split; [reflexivity|]); split; reflexivity.
Qed.


(** ** More on the requests *)

Lemma filter_none {A : Type} (p : A -> bool) (l : list A) :
  forallb (fun x => negb (p x)) l = true -> filter p l = [].
Proof.
  induction l as [|x l IH]; cbn; [reflexivity|].
  destruct (p x); cbn; [discriminate|]. exact IH.
Qed.

(** X3. Every call of [req_failover] answers the request exactly once,
    by a reply or a reject, with one exception: for a PRIM_IS_BACK that
    arrives on a known connection nothing is sent and the request is
    kept in [saved_takeover_req] for a later acknowledgement.  (The poll
    inside the SECD_TAKEOVER case is taken not to send replies of its
    own.) *)
Theorem req_failover_answers_once (e : req_env) (preq : batch_request) (st : state) :
  poll_adds (fun ev => negb (is_reply ev)) wait_request ->
  let st' := final_state (req_failover wait_request e preq st) in
  exists evs,
    trace st' = trace st ++ evs /\
    length (filter is_reply evs) =
      (match rq_failover preq with
       | FAILOVER_PrimIsBack => if rq_get_conn e then 0 else 1
       | _ => 1
       end)%nat /\
    (rq_failover preq = FAILOVER_PrimIsBack -> rq_get_conn e = true ->
     saved_takeover_req st' =
       Some (set_brp_choice BATCH_REPLY_CHOICE_NULL
               (set_brp_code 0 (set_brp_auxcode 0 preq)))).
Proof.
  intros Hpoll st'. unfold st'. clear st'. run_handler.
  destruct (rq_get_conn e); simp;
    [|eexists; split; [reflexivity|]; split;
      [destruct (rq_failover preq); reflexivity | discriminate]].
  destruct (rq_failover preq) eqn:Htag; simp; closed_tests.
  - destruct (Secondary_connection st >=? 0); simp.
    + destruct (negb (PBSE_OBJBUSY =? 0)); simp; rewrite ?Htag; simp;
        eexists; rewrite <- ?app_assoc; (split; [reflexivity|]);
        (split; [reflexivity | discriminate]).
    + eexists; rewrite <- ?app_assoc; (split; [reflexivity|]);
        (split; [reflexivity | discriminate]).
  - destruct (Secondary_state st =? SECONDARY_STATE_nohsk); simp;
      eexists; rewrite <- ?app_assoc; (split; [reflexivity|]);
      (split; [reflexivity | discriminate]).
  - eexists; rewrite <- ?app_assoc; (split; [reflexivity|]);
      (split; [reflexivity | reflexivity]).
  - eexists; rewrite <- ?app_assoc; (split; [reflexivity|]);
      (split; [reflexivity | discriminate]).
  - eexists; rewrite <- ?app_assoc; (split; [reflexivity|]);
      (split; [reflexivity | discriminate]).
  - match goal with
    | |- context [wait_request 600 ?s0] =>
        destruct (Hpoll 600 s0) as (evs0 & Htr & Hno);
        destruct (wait_request 600 s0) as [r s1|c s1]
    end; simp.
    + destruct (negb (sec_sock s1 =? -1)); simp; rewrite Htr; simp;
        eexists; rewrite <- ?app_assoc; (split; [reflexivity|]);
        (split; [|discriminate]); simp;
        rewrite ?filter_app, (filter_none _ _ Hno); reflexivity.
    + rewrite Htr. eexists; rewrite <- ?app_assoc; (split; [reflexivity|]);
        (split; [|discriminate]); simp.
      rewrite (filter_none _ _ Hno). reflexivity.
  - eexists; rewrite <- ?app_assoc; (split; [reflexivity|]);
      (split; [reflexivity | discriminate]).
Qed.

(** X4. A HANDSHAKE and the timer of state [handsk] together: after a
    handshake received at time [rq_time e] in state [handsk] or [nohsk],
    the next pass through the switch, at time [now], keeps the state
    [handsk] as long as [now] is less than 10 seconds later, and moves
    it to [nohsk] from 10 seconds on. *)
Theorem handshake_then_timer
  (e : req_env) (preq : batch_request) (st : state)
  (delay now : Z) (te : tick_env) (fr : frame) :
  rq_get_conn e = true ->
  rq_failover preq = FAILOVER_HandShake ->
  Secondary_state st = SECONDARY_STATE_handsk \/
  Secondary_state st = SECONDARY_STATE_nohsk ->
  let s1 := final_state (req_failover wait_request e preq st) in
  exists s',
    be_secondary_switch wait_request delay te fr (set_time_now now s1) =
      Ok (fr, None) s' /\
    Secondary_state s' =
      (if now >=? rq_time e + 2 * HANDSHAKE_TIME
       then SECONDARY_STATE_nohsk else SECONDARY_STATE_handsk) /\
    hd_time s' = rq_time e.
Proof.
  intros Hconn Htag Hst s1. unfold s1. clear s1.
  run_handler. rewrite Hconn, Htag. closed_tests.
  destruct Hst as [Hst|Hst]; rewrite Hst; closed_tests;
    run_switch; rewrite ?Hst; closed_tests;
    destruct (now >=? rq_time e + 2 * HANDSHAKE_TIME); simp;
    eexists; repeat split; simp; try exact Hst.
Qed.


(** ** The primary's side *)

Ltac run_primary :=
  cbv beta iota zeta delta
      [primary_handshake secondary_handshake fo_shutdown_reply
       failover_send_shutdown close_secondary takeover_from_secondary
       issue_Drequest rel_handshake
       read_reg_reply req_failover req_failover_reply put_failover alt_conn
       store_Secondary_state call_wait_request log_event log_buffer_event
       bind ret emit modify gets skip exit];
  simp.

(** X5. A REGISTER, a close and a second REGISTER on the primary.  While
    [Secondary_connection] is negative, a REGISTER on a known connection
    records the handle of that connection, here one that is not
    negative.  [close_secondary] resets the variable to -1 only for the
    connection that is recorded: the close of any other connection, or
    of one that is not in the table, leaves the peer registered.  The
    REGISTER that follows is accepted, and its handle recorded, when the
    close was that of the recorded connection, and refused, with the
    variable as it was, when it was not.  (The reset by
    [close_secondary] is one of the ways back to a negative value; a
    handshake or a shutdown request that cannot be sent stores -2, after
    which a REGISTER is accepted as well.) *)
Theorem register_close_register
  (e1 e2 : req_env) (p1 p2 : batch_request) (closed : option Z) (st : state) :
  Secondary_connection st < 0 ->
  rq_get_conn e1 = true -> rq_failover p1 = FAILOVER_Register ->
  rq_get_conn e2 = true -> rq_failover p2 = FAILOVER_Register ->
  0 <= rq_handle e1 ->
  let s1 := final_state (req_failover wait_request e1 p1 st) in
  let s2 := final_state (close_secondary closed s1) in
  let s3 := final_state (req_failover wait_request e2 p2 s2) in
  Secondary_connection s1 = rq_handle e1 /\
  Secondary_connection s2 =
    (if match closed with Some h => h =? rq_handle e1 | None => false end
     then -1 else rq_handle e1) /\
  Secondary_connection s3 =
    (if match closed with Some h => h =? rq_handle e1 | None => false end
     then rq_handle e2 else rq_handle e1).
Proof.
  intros Hlt Hc1 Ht1 Hc2 Ht2 Hh s1 s2 s3. unfold s3, s2, s1. clear s1 s2 s3.
  assert (Hge : (Secondary_connection st >=? 0) = false)
    by (rewrite Z.geb_leb; apply Z.leb_gt; lia).
  assert (Hge1 : (rq_handle e1 >=? 0) = true)
    by (rewrite Z.geb_leb; apply Z.leb_le; lia).
  run_primary. rewrite Hc1, Ht1, Hc2, Ht2. simp. rewrite Hge. simp.
  split; [reflexivity|].
  destruct closed as [h|]; simp.
  - rewrite (Z.eqb_sym (rq_handle e1) h).
    destruct (h =? rq_handle e1); simp; closed_tests; rewrite ?Hge1; simp.
    + split; reflexivity.
    + destruct (negb (PBSE_OBJBUSY =? 0)); simp; rewrite ?Ht2; simp;
        split; reflexivity.
  - rewrite Hge1. simp.
    destruct (negb (PBSE_OBJBUSY =? 0)); simp; rewrite ?Ht2; simp;
      split; reflexivity.
Qed.

(** X6. One tick of [primary_handshake].  The marker file of the
    secondary is examined exactly when a secondary was connected at the
    start of the tick, and the server state becomes [SV_STATE_SECIDLE]
    exactly when it was examined and found; a handshake that cannot be
    sent closes the connection and leaves -2 in [Secondary_connection];
    the live file is touched first and the task is set again last. *)
Theorem primary_handshake_tick (e : handshake_env) (st : state) :
  let connected := Secondary_connection st >=? 0 in
  exists st' evs,
    primary_handshake e st = Ok tt st' /\
    trace st' = trace st ++ [E_call "update_svrlive"] ++ evs ++
                [E_call "set_task primary_handshake"] /\
    existsb (fun ev => match ev with E_stat path_secondaryact => true | _ => false end)
      evs = connected /\
    sv_state st' =
      (if connected && negb (he_stat e =? -1) then SV_STATE_SECIDLE else sv_state st) /\
    Secondary_connection st' =
      (if connected && he_alloc e && negb (he_issue e =? 0)
       then -2 else Secondary_connection st).
Proof.
  intros connected. unfold connected. clear connected. run_primary.
  destruct (Secondary_connection st >=? 0); simp.
  - destruct (he_alloc e) eqn:Ha; simp;
      [destruct (he_issue e =? 0) eqn:Hi; simp|];
      destruct (he_stat e =? -1) eqn:Hs; simp;
      rewrite <- ?app_assoc; simp;
      eexists;
      exists ([E_alloc_br (he_alloc e)] ++
              (if he_alloc e
               then [E_call ("issue_Drequest " ++ "FAILOVER_HandShake")%string] ++
                    (if negb (he_issue e =? 0)
                     then [E_close_conn (Secondary_connection st)] else [])
               else []) ++ [E_stat path_secondaryact]);
      rewrite Ha, ?Hi;
      (split; [reflexivity|]); simp; rewrite <- ?app_assoc; simp;
      (split; [reflexivity|]); repeat split.
  - eexists. exists []. split; [reflexivity|]. simp. rewrite <- app_assoc.
    repeat split.
Qed.

(** X7. After a handshake that could not be sent, the primary goes on
    without a peer: the following ticks only touch the live file and set
    the task again (they send nothing and no longer look for the marker
    file), and a REGISTER is accepted again, -2 being below 0. *)
Theorem primary_handshake_after_lost_peer
  (e e' : handshake_env) (re : req_env) (preq : batch_request) (st : state) :
  Secondary_connection st >= 0 ->
  he_alloc e = true ->
  he_issue e <> 0 ->
  rq_get_conn re = true ->
  rq_failover preq = FAILOVER_Register ->
  let s1 := final_state (primary_handshake e st) in
  Secondary_connection s1 = -2 /\
  In (E_close_conn (Secondary_connection st)) (events_since (trace st) (trace s1)) /\
  primary_handshake e' s1 =
    Ok tt (set_trace (trace s1 ++ [E_call "update_svrlive";
                                   E_call "set_task primary_handshake"]) s1) /\
  Secondary_connection (final_state (req_failover wait_request re preq s1)) =
    rq_handle re.
Proof.
  intros Hge Halloc Hissue Hconn Htag s1. unfold s1. clear s1.
  apply Z.eqb_neq in Hissue.
  assert (Hc : (Secondary_connection st >=? 0) = true)
    by (rewrite Z.geb_leb; apply Z.leb_le; lia).
  run_primary. rewrite Hc. simp. rewrite Halloc. simp. rewrite Hissue. simp.
  destruct (he_stat e =? -1); simp; closed_tests; rewrite Hconn, Htag; simp;
    closed_tests; rewrite <- ?app_assoc; simp.
  all: (split; [reflexivity|]).
  all: split; [unfold events_since; rewrite skipn_app, Nat.sub_diag, skipn_all;
      simp; intuition|].
  all: split; reflexivity.
Qed.

(** X8. [failover_send_shutdown] returns 0 exactly when a connection is
    recorded (anything but -1), the request could be allocated and
    [issue_Drequest] took it; it returns 1 otherwise.  Only -1 counts as
    "no secondary": with -2 left by an earlier failure the function
    still allocates a request and issues it on that handle.  After a
    failed allocation or issue the connection is closed and -2 is
    recorded; after a success the variable is as before. *)
Theorem failover_send_shutdown_result (e : send_env) (type : failover_tag) (st : state) :
  let sc := Secondary_connection st in
  let sent := negb (sc =? -1) && se_alloc e && (se_issue e =? 0) in
  exists st' evs,
    failover_send_shutdown e type st = Ok (if sent then 0 else 1) st' /\
    trace st' = trace st ++ evs /\
    (evs = [] <-> sc = -1) /\
    Secondary_connection st' =
      (if (sc =? -1) || sent then sc else -2) /\
    (sc <> -1 -> sent = false -> In (E_close_conn sc) evs).
Proof.
  intros sc sent. unfold sent, sc. clear sent sc. run_primary.
  destruct (Secondary_connection st =? -1) eqn:Hsc; simp.
  - exists st, []. rewrite app_nil_r. zbool. repeat split; auto. congruence.
  - zbool.
    destruct (se_alloc e); simp; [destruct (se_issue e =? 0); simp|];
      eexists; eexists; rewrite <- ?app_assoc; simp;
      (split; [reflexivity|]); (split; [reflexivity|]);
      (split; [split; [discriminate | contradiction]|]);
      (split; [reflexivity|]); intros; try discriminate; simp; intuition.
Qed.


(** Names for the states that a run has gone through, so that a later
    step does not copy them. *)
Ltac name_states :=
  repeat match goal with
  | |- context [set_trace ?t ?s] =>
      is_var s; let S := fresh "S" in set (S := set_trace t s)
  | |- context [set_goidle_ack ?v ?s] =>
      is_var s; let S := fresh "S" in set (S := set_goidle_ack v s)
  | |- context [set_Secondary_connection ?v ?s] =>
      is_var s; let S := fresh "S" in set (S := set_Secondary_connection v s)
  | |- context [set_Secondary_state ?v ?s] =>
      is_var s; let S := fresh "S" in set (S := set_Secondary_state v s)
  | |- context [set_sec_sock ?v ?s] =>
      is_var s; let S := fresh "S" in set (S := set_sec_sock v s)
  | |- context [set_sv_state ?v ?s] =>
      is_var s; let S := fresh "S" in set (S := set_sv_state v s)
  | |- context [set_hd_time ?v ?s] =>
      is_var s; let S := fresh "S" in set (S := set_hd_time v s)
  | |- context [set_time_now ?v ?s] =>
      is_var s; let S := fresh "S" in set (S := set_time_now v s)
  | |- context [set_pbs_failover_active ?v ?s] =>
      is_var s; let S := fresh "S" in set (S := set_pbs_failover_active v s)
  | |- context [set_secondaryact ?v ?s] =>
      is_var s; let S := fresh "S" in set (S := set_secondaryact v s)
  | |- context [set_saved_takeover_req ?v ?s] =>
      is_var s; let S := fresh "S" in set (S := set_saved_takeover_req v s)
  | |- context [set_secondary_delay ?v ?s] =>
      is_var s; let S := fresh "S" in set (S := set_secondary_delay v s)
  end.

(** X9. [takeover_from_secondary] when the poll runs [read_reg_reply] on
    the reply of the secondary.  [goidle_ack] being 1, the reply is read
    as the answer to the go-idle request only: an accepted reply clears
    the flag and the function returns 1; any other reply ends the process
    with code 1 after the log line that names the secondary.  In neither
    case is the text of the reply taken for a host id: the license file
    is not opened and [Secondary_state] is not written. *)
Theorem takeover_reply_decides (e : takeover_env) (rr : reg_reply_env) (st : state) :
  tk_addr e <> 0 -> tk_alt_conn e >= 0 ->
  tk_add_conn e = true -> tk_alloc e = true -> tk_put_failover e = 0 ->
  Secondary_state st <> SECONDARY_STATE_regsent ->
  let poll := fun _ : Z => read_reg_reply rr (tk_alt_conn e) ;; ret 0 in
  exists st' evs,
    (if (rr_rc rr =? 0) && (rr_code rr =? 0)
     then takeover_from_secondary poll e st = Ok 1 st' /\ goidle_ack st' = 0
     else takeover_from_secondary poll e st = Exited 1 st' /\
          In (E_log_event LOG_CRIT "Active PBS Server at %s %s"
                [ArgS (c_str pbs_secondary);
                 ArgS "failed to acknowledge request to go idle"]) evs) /\
    trace st' = trace st ++ evs /\
    existsb (fun ev => match ev with E_open license_fo _ _ => true | _ => false end)
      evs = false /\
    Secondary_state st' = Secondary_state st.
Proof.
  intros Haddr Hdial Hadd Halloc Hput Hst poll. unfold poll. clear poll.
  apply Z.eqb_neq in Haddr. apply Z.eqb_neq in Hst.
  assert (Hd : (tk_alt_conn e <? 0) = false) by (apply Z.ltb_ge; lia).
  run_primary. rewrite Haddr. simp. rewrite Hd. simp. name_states.
  rewrite Hd, Hadd. simp. name_states.
  rewrite Halloc. simp. name_states. rewrite Hput. simp. closed_tests. name_states.
  destruct (rr_rc rr =? 0); simp; [destruct (rr_code rr =? 0); simp|];
    closed_tests; rewrite ?Hst, ?andb_false_r; simp; closed_tests;
    eexists; eexists;
    (split; [split; [reflexivity|]|]); simp; rewrite <- ?app_assoc; simp;
    try (split; [reflexivity|]); try reflexivity; try (split; reflexivity).
  all: do 10 right; left; reflexivity.
Qed.

(** X10. [takeover_from_secondary] when the poll runs no callback: the
    function never returns 1.  It returns 0 exactly when the address of
    the secondary resolves and the dial fails, and then nothing is sent;
    when the request has gone out it ends the process with code 2, the
    flag [goidle_ack] still being 1; every other failure ends it with
    code 1. *)
Theorem takeover_needs_acknowledgement (e : takeover_env) (st : state) :
  calm wait_request ->
  let sent := negb (tk_addr e =? 0) && negb (tk_alt_conn e <? 0) &&
              tk_add_conn e && tk_alloc e && (tk_put_failover e =? 0) in
  exists st' evs,
    takeover_from_secondary wait_request e st =
      (if negb (tk_addr e =? 0) && (tk_alt_conn e <? 0) then Ok 0 st'
       else if sent then Exited 2 st' else Exited 1 st') /\
    trace st' = trace st ++ evs /\
    goidle_ack st' = (if sent then 1 else goidle_ack st) /\
    existsb (fun ev => match ev with E_put_failover _ _ => true | _ => false end) evs =
      negb (tk_addr e =? 0) && negb (tk_alt_conn e <? 0) && tk_add_conn e && tk_alloc e.
Proof.
  intros Hcalm sent. unfold sent. clear sent. run_primary.
  destruct (tk_addr e =? 0); simp.
  { eexists; eexists; (split; [reflexivity|]); simp; rewrite <- ?app_assoc;
      (split; [reflexivity|]); split; reflexivity. }
  destruct (tk_alt_conn e <? 0) eqn:Hd; simp; rewrite ?Hd; simp.
  { eexists; eexists; (split; [reflexivity|]); simp; rewrite <- ?app_assoc;
      (split; [reflexivity|]); split; reflexivity. }
  name_states.
  destruct (tk_add_conn e); simp.
  2:{ eexists; eexists; (split; [reflexivity|]); simp; rewrite <- ?app_assoc;
      (split; [reflexivity|]); split; reflexivity. }
  name_states.
  destruct (tk_alloc e); simp.
  2:{ eexists; eexists; (split; [reflexivity|]); simp; rewrite <- ?app_assoc;
      (split; [reflexivity|]); split; reflexivity. }
  name_states.
  destruct (tk_put_failover e =? 0); simp.
  2:{ eexists; eexists; (split; [reflexivity|]); simp; rewrite <- ?app_assoc;
      (split; [reflexivity|]); split; reflexivity. }
  name_states.
  match goal with
  | |- context [wait_request 600 ?s0] =>
      destruct (Hcalm 600 s0) as [r [Hw _]]; rewrite Hw
  end.
  simp. closed_tests.
  eexists; eexists; (split; [reflexivity|]); simp; rewrite <- ?app_assoc;
    (split; [reflexivity|]); split; reflexivity.
Qed.


(** ** Runs of the loop *)

Ltac run_iter :=
  cbv beta iota zeta delta
      [be_secondary_iter be_secondary_switch be_secondary_tail made_contact
       put_failover alt_conn incr_loop
       store_Secondary_state call_wait_request log_event log_buffer_event
       bind ret emit modify gets skip exit];
  simp.

Ltac calm_poll H :=
  match goal with
  | |- context [wait_request ?n ?s0] =>
      let r := fresh "r" in
      let Hw := fresh "Hw" in
      let Hr := fresh "Hr" in
      destruct (H n s0) as [r [Hw Hr]]; rewrite Hw;
      apply Z.eqb_neq in Hr; simp; rewrite ?Hr; simp
  end.




(** One iteration in state [takeov] when the primary is out of reach and
    the fencing hook fails. *)
Lemma be_secondary_iter_fence_fails (delay : Z) (e : tick_env) (fr : frame) (st : state) :
  calm wait_request ->
  te_alt_conn e < 0 ->
  pbs_primary = None \/ fencing_outcome (te_stonith e) = fence_failed ->
  Secondary_state st = SECONDARY_STATE_takeov ->
  exists fr' st' evs,
    be_secondary_iter wait_request delay e fr st = Ok (fr', None) st' /\
    Secondary_state st' = SECONDARY_STATE_takeov /\
    pbs_failover_active st' = pbs_failover_active st /\
    secondaryact st' = secondaryact st /\
    trace st' = trace st ++ evs /\
    (1 <= length (filter is_sleep evs))%nat.
Proof.
  intros Hcalm Hdial Hfence Hst. apply Z.ltb_lt in Hdial.
  assert (Hge : (-1 >=? 0) = false) by reflexivity.
  run_iter. rewrite Hst. closed_tests. rewrite Hdial. simp. closed_tests.
  destruct (negb (sec_sock st =? -1)); simp; name_states.
  all: destruct pbs_primary as [nd|] eqn:Hprim;
    [ destruct Hfence as [Hfence|Hfence]; [discriminate|];
      use_stonith; rewrite Hfence; simp
    | use_stonith ];
    closed_tests; name_states; calm_poll Hcalm;
    eexists; eexists; eexists; (split; [reflexivity|]); simp;
    rewrite <- ?app_assoc; simp;
    repeat (split; [first [reflexivity | exact Hst]|]).
  all: simp; rewrite ?filter_app, ?length_app; simp; lia.
Qed.

(** X12. Let the polls of the loop be calm: each comes back without a
    failure and without having run a callback ([calm]).  Then, as long
    as the fencing hook fails, the secondary does not become active:
    however many iterations the loop makes in state [takeov] with the
    primary out of reach and the hook failing (or with no primary host
    configured, for which the hook returns -1), [be_secondary] does not
    return, the state stays [takeov], [pbs_failover_active] and the
    marker file are as before, and each iteration has slept.  (A poll
    that fails stores [noconn] at the end of the iteration, and a
    callback may store another state: the condition on the polls is
    needed for the state to stay [takeov].) *)
Theorem fencing_failure_blocks_takeover (delay : Z) (es : list tick_env) :
  calm wait_request ->
  Forall (fun e => te_alt_conn e < 0 /\
                   (pbs_primary = None \/
                    fencing_outcome (te_stonith e) = fence_failed)) es ->
  forall (fr : frame) (st : state),
    Secondary_state st = SECONDARY_STATE_takeov ->
    exists fr' st' evs,
      be_secondary_loop wait_request delay es fr st = Ok (fr', None) st' /\
      Secondary_state st' = SECONDARY_STATE_takeov /\
      pbs_failover_active st' = pbs_failover_active st /\
      secondaryact st' = secondaryact st /\
      trace st' = trace st ++ evs /\
      (length es <= length (filter is_sleep evs))%nat.
Proof.
  intros Hcalm Hall. induction Hall as [|e es [Hd Hf] _ IH]; intros fr st Hst.
  - exists fr, st, []. cbn. rewrite app_nil_r. repeat split; auto.
  - destruct (be_secondary_iter_fence_fails delay e fr st Hcalm Hd Hf Hst)
      as (fr1 & s1 & evs1 & Hit & Hst1 & Hact1 & Hm1 & Htr1 & Hsl1).
    destruct (IH fr1 s1 Hst1)
      as (fr2 & s2 & evs2 & Hlp & Hst2 & Hact2 & Hm2 & Htr2 & Hsl2).
    exists fr2, s2, (evs1 ++ evs2).
    cbn [be_secondary_loop]. unfold bind at 1. rewrite Hit. cbn [snd fst].
    rewrite Hlp, Htr2, Htr1, app_assoc, !filter_app, length_app.
    repeat split; auto; try congruence. cbn [length]. lia.
Qed.


(** ** No statement stores [SECONDARY_STATE_shutd] *)

Ltac keep_poll H :=
  match goal with
  | |- context [wait_request ?n ?s0] =>
      let r := fresh "r" in
      let s' := fresh "s" in
      let Hw := fresh "Hw" in
      let Hi := fresh "Hi" in
      let Hs := fresh "Hs" in
      assert (Hs : off_shutd s0) by (unfold off_shutd; simp; assumption);
      destruct (H n s0 Hs) as [r [s' [Hw Hi]]]; rewrite Hw; clear Hw Hs; simp
  end.

Ltac off_shutd_done :=
  unfold off_shutd in *; simp;
  first [ assumption | discriminate ].

(** The switch of the loop does not end the process, and does not store
    [SECONDARY_STATE_shutd]. *)
Lemma be_secondary_switch_off_shutd (delay : Z) (e : tick_env) (fr : frame) (st : state) :
  returns_keeping off_shutd wait_request ->
  off_shutd st ->
  exists r st',
    be_secondary_switch wait_request delay e fr st = Ok r st' /\ off_shutd st'.
Proof.
  intros Hpoll Hoff. run_switch.
  destruct (Secondary_state st =? SECONDARY_STATE_noconn) eqn:E1; simp.
  { repeat case_if; eexists; eexists; (split; [reflexivity|]); off_shutd_done. }
  destruct (Secondary_state st =? SECONDARY_STATE_idle) eqn:E2; simp.
  { repeat case_if; eexists; eexists; (split; [reflexivity|]); off_shutd_done. }
  destruct (Secondary_state st =? SECONDARY_STATE_conn) eqn:E3; simp.
  { repeat case_if; eexists; eexists; (split; [reflexivity|]); off_shutd_done. }
  destruct (Secondary_state st =? SECONDARY_STATE_regsent) eqn:E4; simp.
  { eexists; eexists; (split; [reflexivity|]); off_shutd_done. }
  destruct (Secondary_state st =? SECONDARY_STATE_handsk) eqn:E5; simp.
  { repeat case_if; eexists; eexists; (split; [reflexivity|]); off_shutd_done. }
  destruct (Secondary_state st =? SECONDARY_STATE_nohsk) eqn:E6; simp.
  { repeat case_if; eexists; eexists; (split; [reflexivity|]); off_shutd_done. }
  destruct (Secondary_state st =? SECONDARY_STATE_shutd) eqn:E7; simp.
  { apply Z.eqb_eq in E7. contradiction. }
  destruct (Secondary_state st =? SECONDARY_STATE_takeov) eqn:E8; simp.
  { destruct (negb (sec_sock st =? -1)); simp; name_states;
      (destruct (te_alt_conn e <? 0) eqn:Hdial; simp; closed_tests;
       [ | destruct (te_alt_conn e >=? 0) eqn:Hge; simp;
           [ destruct (te_add_conn e); simp;
             eexists; eexists; (split; [reflexivity|]); off_shutd_done
           | zbool; lia ] ]);
      (destruct pbs_primary as [nd|] eqn:Hprim; use_stonith; closed_tests;
       [ destruct (fencing_outcome (te_stonith e)); simp; closed_tests | ]);
      try (destruct (te_fopen e); simp);
      eexists; eexists; (split; [reflexivity|]); off_shutd_done. }
  destruct (Secondary_state st =? SECONDARY_STATE_inact) eqn:E9; simp.
  { keep_poll Hpoll.
    eexists; eexists; (split; [reflexivity|]); off_shutd_done. }
  eexists; eexists; (split; [reflexivity|]); off_shutd_done.
Qed.

(** The end of an iteration, likewise. *)
Lemma be_secondary_tail_off_shutd (st : state) :
  returns_keeping off_shutd wait_request ->
  off_shutd st ->
  exists st', be_secondary_tail wait_request st = Ok tt st' /\ off_shutd st'.
Proof.
  intros Hpoll Hoff. run_switch. keep_poll Hpoll.
  destruct (r =? -1); simp; eexists; (split; [reflexivity|]); off_shutd_done.
Qed.

(** X13. The loop of [be_secondary] never ends the process by itself.
    No statement of failover.c stores [SECONDARY_STATE_shutd], so the
    [exit(0)] of that case of the switch is not reached: started in any
    other state, and with polls that return and keep the state off
    [shutd], the loop comes through any number of iterations without an
    exit, in a state that is still not [shutd]. *)
Theorem be_secondary_loop_never_exits (delay : Z) (es : list tick_env) :
  returns_keeping off_shutd wait_request ->
  forall (fr : frame) (st : state),
    off_shutd st ->
    exists r st',
      be_secondary_loop wait_request delay es fr st = Ok r st' /\ off_shutd st'.
Proof.
  intros Hpoll. induction es as [|e es IH]; intros fr st Hoff.
  - exists (fr, None), st. split; [reflexivity|assumption].
  - cbn [be_secondary_loop]. unfold bind at 1.
    cbv beta iota zeta delta [be_secondary_iter bind modify ret].
    destruct (be_secondary_switch_off_shutd delay e (incr_loop fr)
                (set_time_now (te_time e) st) Hpoll Hoff)
      as ([fr1 [v|]] & s1 & Hsw & Hoff1); rewrite Hsw; cbn [snd fst].
    + eexists; eexists; split; [reflexivity|assumption].
    + destruct (be_secondary_tail_off_shutd s1 Hpoll Hoff1) as (s2 & Ht & Hoff2).
      rewrite Ht. cbn [snd fst]. apply IH. assumption.
Qed.


(** X14. The handlers that a poll runs do not store
    [SECONDARY_STATE_shutd] either: whatever [read_fo_request] (and with
    it [req_failover]) and [read_reg_reply] are given, they leave a state
    that is not [shutd] when they were entered in such a state, also
    when they end the process. *)
Theorem handlers_keep_off_shutd
  (fe : fo_read_env) (re : reg_reply_env) (conn sock : Z) (st : state) :
  keeps off_shutd wait_request ->
  off_shutd st ->
  off_shutd (final_state (read_fo_request wait_request fe conn st)) /\
  off_shutd (final_state (read_reg_reply re sock st)).
Proof.
  intros Hpoll Hoff. split.
  - run_handler.
    destruct (fr_alloc fe); simp; [|off_shutd_done].
    destruct (fr_rc fe =? -1); simp; [repeat case_if; off_shutd_done|].
    destruct (fr_rc fe =? 0); simp; [|off_shutd_done].
    destruct (rq_get_conn (fr_req fe)); simp; [|off_shutd_done].
    destruct (fr_tag fe); simp; closed_tests; repeat case_if; try off_shutd_done.
    match goal with
    | |- context [wait_request 600 ?s0] =>
        assert (P : off_shutd s0) by off_shutd_done;
        apply (Hpoll 600) in P; destruct (wait_request 600 s0)
    end; simp; [|exact P].
    repeat case_if; exact P.
  - run_handler. repeat case_if; try off_shutd_done.
    all: destruct (rr_choice re); simp; try destruct (rr_str re); simp;
      repeat case_if; off_shutd_done.
Qed.


(** ** The reply to REGISTER *)

Lemma events_since_app (l evs : list event) : events_since l (l ++ evs) = evs.
Proof.
  unfold events_since.
  rewrite skipn_app, Nat.sub_diag, skipn_all. reflexivity.
Qed.

Lemma events_since_self (l : list event) : events_since l l = [].
Proof. unfold events_since. apply skipn_all. Qed.

Ltac since :=
  simp; rewrite <- ?app_assoc; rewrite ?events_since_app, ?events_since_self; simp.

(** X15. The log line of [msg_regfailed] is never written when
    [PBSE_UNKREQ] is not 0.  The test [brp_code == PBSE_UNKREQ] sits on
    the path where [brp_code] has been found to be 0, so a primary that
    rejects the registration with [PBSE_UNKREQ] is reported like any
    other rejection, by the line "did not accept secondary registration"
    and [exit(1)] ([DIS_EOD] not being 0 either, a reply that was read
    is not taken for an end of data). *)
Theorem regfailed_line_unreachable (e : reg_reply_env) (sock : Z) (st : state) :
  PBSE_UNKREQ <> 0 ->
  existsb is_regfailed
    (events_since (trace st) (trace (final_state (read_reg_reply e sock st)))) = false /\
  (DIS_EOD <> 0 -> rr_rc e = 0 -> rr_code e = PBSE_UNKREQ -> goidle_ack st = 0 ->
   read_reg_reply e sock st =
     Exited 1
       (set_trace
          (trace st ++
           [E_log_event LOG_CRIT "Active PBS Server at %s %s"
              [ArgS (c_str pbs_primary);
               ArgS "did not accept secondary registration"]]) st)).
Proof.
  intros Hunk. split.
  - run_handler.
    destruct (rr_rc e =? 0) eqn:Hrc; simp;
      [destruct (rr_code e =? 0) eqn:Hcode; simp|].
    + destruct (negb (goidle_ack st =? 0)); since; [reflexivity|].
      apply Z.eqb_eq in Hcode. rewrite Hcode.
      assert (Hne : (0 =? PBSE_UNKREQ) = false) by (apply Z.eqb_neq; congruence).
      rewrite Hne.
      destruct (rr_choice e); since; try reflexivity.
      destruct (rr_str e); since; [|reflexivity].
      repeat case_if; since; reflexivity.
    + repeat case_if; since; reflexivity.
    + repeat case_if; since; reflexivity.
  - intros Heod Hrc Hcode Hga. run_handler. rewrite Hrc, Hcode. closed_tests.
    apply Z.eqb_neq in Hunk. rewrite Hunk. simp.
    assert (Hne : (0 =? DIS_EOD) = false) by (apply Z.eqb_neq; congruence).
    rewrite Hne. simp. rewrite Hga. closed_tests. reflexivity.
Qed.


(** ** When the fencing script is run *)

Lemma set_trace_twice (t t' : list event) (s : state) :
  set_trace t (set_trace t' s) = set_trace t s.
Proof. reflexivity. Qed.

(** What [check_and_invoke_stonith] adds to the trace: a [system] call
    unless the script is absent. *)
Lemma check_and_invoke_stonith_events (e : stonith_env) (nd : string) (s : state) :
  exists evs,
    check_and_invoke_stonith e (Some nd) s =
      Ok (fence_code (fencing_outcome e)) (set_trace (trace s ++ evs) s) /\
    existsb is_system evs = negb (script_absent e).
Proof.
  unfold fencing_outcome, capture_fails, script_absent.
  cbv beta iota zeta delta
    [check_and_invoke_stonith stonith_read_output log_event log_buffer_event
     bind ret emit modify gets skip exit].
  simp.
  destruct (so_stat e =? 0); destruct (so_errno e =? ENOENT); simp;
    rewrite ?set_trace_twice;
    try (eexists; rewrite <- ?app_assoc; split; reflexivity);
    destruct (so_system e =? 0) eqn:Hsys; simp; rewrite ?set_trace_twice;
    destruct (so_open e =? -1); simp; rewrite ?set_trace_twice;
    try (destruct (so_fstat e =? -1); simp; rewrite ?set_trace_twice);
    try (destruct (so_malloc e); simp; rewrite ?set_trace_twice);
    try (destruct (so_read e =? -1); simp; rewrite ?set_trace_twice);
    try rewrite Hsys; simp;
    try (apply Z.eqb_eq in Hsys; rewrite Hsys);
    rewrite <- ?app_assoc; eexists; simp; split; reflexivity.
Qed.

Ltac use_stonith_events :=
  match goal with
  | |- context [check_and_invoke_stonith ?e (Some ?nd) ?s] =>
      let evs := fresh "evs" in
      let Heq := fresh "Heq" in
      let Hsys := fresh "Hsys" in
      destruct (check_and_invoke_stonith_events e nd s) as [evs [Heq Hsys]];
      rewrite Heq; clear Heq
  | |- context [check_and_invoke_stonith ?e None ?s] =>
      rewrite (check_and_invoke_stonith_null e s)
  end; simp.

Ltac no_system :=
  simp; rewrite <- ?app_assoc; eexists; (split; [reflexivity|]);
  simp; rewrite ?andb_false_r; reflexivity.

(** X16. The fencing script is run by one path of the switch only.  One
    pass through the switch of [be_secondary] calls [system] exactly
    when the state is [takeov], the last dial to the primary has failed,
    a primary host is configured and [stat] does not report the script
    missing; in every other state, and after a dial that succeeded, no
    command is run. *)
Theorem fencing_only_after_failed_dial (delay : Z) (e : tick_env) (fr : frame) (st : state) :
  poll_adds (fun ev => negb (is_system ev)) wait_request ->
  exists evs,
    trace (final_state (be_secondary_switch wait_request delay e fr st)) = trace st ++ evs /\
    existsb is_system evs =
      (Secondary_state st =? SECONDARY_STATE_takeov) && (te_alt_conn e <? 0) &&
      (match pbs_primary with Some _ => true | None => false end) &&
      negb (script_absent (te_stonith e)).
Proof.
  intros Hpoll. run_switch.
  destruct (Secondary_state st =? SECONDARY_STATE_noconn) eqn:E1; simp.
  { apply Z.eqb_eq in E1. rewrite E1. closed_tests. repeat case_if; no_system. }
  destruct (Secondary_state st =? SECONDARY_STATE_idle) eqn:E2; simp.
  { apply Z.eqb_eq in E2. rewrite E2. closed_tests. repeat case_if; no_system. }
  destruct (Secondary_state st =? SECONDARY_STATE_conn) eqn:E3; simp.
  { apply Z.eqb_eq in E3. rewrite E3. closed_tests. repeat case_if; no_system. }
  destruct (Secondary_state st =? SECONDARY_STATE_regsent) eqn:E4; simp.
  { apply Z.eqb_eq in E4. rewrite E4. closed_tests. exists []. rewrite app_nil_r.
    split; reflexivity. }
  destruct (Secondary_state st =? SECONDARY_STATE_handsk) eqn:E5; simp.
  { apply Z.eqb_eq in E5. rewrite E5. closed_tests.
    repeat case_if; try no_system. exists []. rewrite app_nil_r. split; reflexivity. }
  destruct (Secondary_state st =? SECONDARY_STATE_nohsk) eqn:E6; simp.
  { apply Z.eqb_eq in E6. rewrite E6. closed_tests. repeat case_if; no_system. }
  destruct (Secondary_state st =? SECONDARY_STATE_shutd) eqn:E7; simp.
  { apply Z.eqb_eq in E7. rewrite E7. closed_tests. exists []. rewrite app_nil_r.
    split; reflexivity. }
  destruct (Secondary_state st =? SECONDARY_STATE_takeov) eqn:E8; simp.
  { destruct (negb (sec_sock st =? -1)); simp; name_states;
      (destruct (te_alt_conn e <? 0) eqn:Hdial; simp; closed_tests;
       [ | destruct (te_alt_conn e >=? 0) eqn:Hge; simp;
           [ destruct (te_add_conn e); no_system | zbool; lia ] ]);
      (destruct pbs_primary as [nd|] eqn:Hprim; use_stonith_events; closed_tests;
       [ destruct (fencing_outcome (te_stonith e)); simp; closed_tests | ]);
      try (destruct (te_fopen e); simp);
      rewrite <- ?app_assoc; eexists; (split; [reflexivity|]);
      simp; rewrite ?existsb_app, ?Hsys; simp; rewrite ?orb_false_r; reflexivity. }
  destruct (Secondary_state st =? SECONDARY_STATE_inact) eqn:E9; simp.
  { match goal with
    | |- context [wait_request ?n ?s0] =>
        destruct (Hpoll n s0) as [evs [Htr Hev]]; destruct (wait_request n s0)
    end; simp; rewrite Htr; rewrite <- ?app_assoc; eexists;
      (split; [reflexivity|]); simp; rewrite ?existsb_app; simp;
      rewrite ?orb_false_r.
    all: apply not_true_is_false; intros Hex;
      apply existsb_exists in Hex; destruct Hex as [ev [Hin Hs]];
      rewrite forallb_forall in Hev; apply Hev in Hin; rewrite Hs in Hin;
      discriminate. }
  exists []. rewrite app_nil_r. split; reflexivity.
Qed.


(** ** Leaving [nohsk] *)

(** X17. One pass of the switch in state [nohsk] examines the live file
    and does not make the function return.  It stores [takeov] on one
    evidence only: the live file can be examined, its modification time
    has not advanced past the remembered one, and [time_now] is past
    [mytime + secondary_delay], a sum of [time_t] ([time_add]).  A pass
    in which the file cannot be examined does not store [takeov]: once
    [time_now] is past [hd_time + secondary_delay], a sum of [time_t]
    again, it stores [noconn], the state from which later passes dial
    the primary and take over after the deadline.  The pass leaves
    [pbs_failover_active] as it is. *)
Theorem nohsk_takeover_evidence (delay : Z) (e : tick_env) (fr : frame) (st : state) :
  Secondary_state st = SECONDARY_STATE_nohsk ->
  exists fr' st' evs,
    be_secondary_switch wait_request delay e fr st = Ok (fr', None) st' /\
    trace st' = trace st ++ E_stat path_svrlive :: evs /\
    (Secondary_state st' = SECONDARY_STATE_takeov <->
     te_stat e = 0 /\ te_mtime e <= sbtime fr /\
     time_now st > time_add (mytime fr) (secondary_delay st)) /\
    (te_stat e <> 0 -> time_now st > time_add (hd_time st) (secondary_delay st) ->
     Secondary_state st' = SECONDARY_STATE_noconn) /\
    pbs_failover_active st' = pbs_failover_active st.
Proof.
  intros Hst. run_switch. rewrite Hst. closed_tests.
  assert (Hne : SECONDARY_STATE_nohsk <> SECONDARY_STATE_takeov) by discriminate.
  destruct (te_stat e =? 0) eqn:Hstat; simp.
  - destruct (te_mtime e >? sbtime fr) eqn:Hm; simp;
      [ destruct ((sbloop fr >? 4) && (sec_sock st =? -1)); simp
      | destruct (time_now st >? time_add (mytime fr) (secondary_delay st)) eqn:Hgt;
        simp ];
      rewrite <- ?app_assoc; simp;
      eexists; eexists; eexists; (split; [reflexivity|]); simp;
      (split; [reflexivity|]); rewrite ?Hst; zbool;
      (split; [split; [intros H; try discriminate H; try contradiction; try (repeat split; lia)
                      | intros [H1 [H2 H3]]; try reflexivity; lia]|]);
      (split; [intros; try reflexivity; lia|]); reflexivity.
  - destruct (time_now st >? time_add (hd_time st) (secondary_delay st)) eqn:Hgt; simp;
      [ | destruct ((sec_sock st =? -1) && (Z.rem (loop fr) 3 =? 0)); simp;
          [ destruct (te_alt_conn e <? 0) eqn:Hd; simp; closed_tests;
            [ | destruct (te_alt_conn e >=? 0) eqn:Hge; simp;
                [ destruct (te_add_conn e); simp | ] ] | ] ];
      rewrite <- ?app_assoc; simp;
      eexists; eexists; eexists; (split; [reflexivity|]); simp;
      (split; [reflexivity|]); rewrite ?Hst; zbool;
      (split; [split; [intros H; try discriminate H; try contradiction; try (repeat split; lia)
                      | intros [H1 [H2 H3]]; try reflexivity; lia]|]);
      (split; [intros; try reflexivity; lia|]); reflexivity.
Qed.


(** ** The socket of the secondary *)

Ltac sock_done :=
  unfold sock_ok in *; simp; first [ assumption | lia ].

Lemma be_secondary_switch_sock_ok (delay : Z) (e : tick_env) (fr : frame) (st : state) :
  keeps sock_ok wait_request ->
  sock_ok st ->
  sock_ok (final_state (be_secondary_switch wait_request delay e fr st)).
Proof.
  intros Hpoll Hok. run_switch.
  destruct (Secondary_state st =? SECONDARY_STATE_noconn) eqn:E1; simp.
  { repeat case_if; zbool; sock_done. }
  destruct (Secondary_state st =? SECONDARY_STATE_idle) eqn:E2; simp.
  { repeat case_if; zbool; sock_done. }
  destruct (Secondary_state st =? SECONDARY_STATE_conn) eqn:E3; simp.
  { repeat case_if; sock_done. }
  destruct (Secondary_state st =? SECONDARY_STATE_regsent) eqn:E4; simp.
  { sock_done. }
  destruct (Secondary_state st =? SECONDARY_STATE_handsk) eqn:E5; simp.
  { repeat case_if; sock_done. }
  destruct (Secondary_state st =? SECONDARY_STATE_nohsk) eqn:E6; simp.
  { repeat case_if; zbool; sock_done. }
  destruct (Secondary_state st =? SECONDARY_STATE_shutd) eqn:E7; simp.
  { sock_done. }
  destruct (Secondary_state st =? SECONDARY_STATE_takeov) eqn:E8; simp.
  { destruct (negb (sec_sock st =? -1)); simp; name_states;
      (destruct (te_alt_conn e <? 0) eqn:Hdial; simp; closed_tests;
       [ | destruct (te_alt_conn e >=? 0) eqn:Hge; simp;
           [ destruct (te_add_conn e); simp; zbool; sock_done
           | zbool; lia ] ]);
      (destruct pbs_primary as [nd|] eqn:Hprim; use_stonith; closed_tests;
       [ destruct (fencing_outcome (te_stonith e)); simp; closed_tests | ]);
      try (destruct (te_fopen e); simp);
      sock_done. }
  destruct (Secondary_state st =? SECONDARY_STATE_inact) eqn:E9; simp.
  { match goal with
    | |- context [wait_request ?n ?s0] =>
        assert (P : sock_ok s0) by sock_done;
        apply (Hpoll n) in P; destruct (wait_request n s0)
    end; simp; [sock_done|exact P]. }
  sock_done.
Qed.

Lemma be_secondary_tail_sock_ok (st : state) :
  keeps sock_ok wait_request ->
  sock_ok st ->
  sock_ok (final_state (be_secondary_tail wait_request st)).
Proof.
  intros Hpoll Hok. run_switch.
  match goal with
  | |- context [wait_request ?n ?s0] =>
      assert (P : sock_ok s0) by sock_done;
      apply (Hpoll n) in P; destruct (wait_request n s0) as [r s1|c s1]
  end; simp; [|exact P].
  destruct (r =? -1); simp; [sock_done|exact P].
Qed.

(** X18. [sec_sock] is always -1 or a descriptor.  Whatever the dials
    return, every negative result is replaced by -1 before the variable
    is tested again, so the tests [sec_sock >= 0] and [sec_sock == -1]
    of the loop between them cover every value it can have: after any
    number of iterations, and also when the process has ended,
    [-1 <= sec_sock]. *)
Theorem sec_sock_minus_one_or_descriptor (delay : Z) (es : list tick_env) :
  keeps sock_ok wait_request ->
  forall (fr : frame) (st : state),
    sock_ok st ->
    sock_ok (final_state (be_secondary_loop wait_request delay es fr st)).
Proof.
  intros Hpoll. induction es as [|e es IH]; intros fr st Hok.
  - exact Hok.
  - cbn [be_secondary_loop]. unfold bind at 1.
    cbv beta iota zeta delta [be_secondary_iter bind modify ret].
    assert (Hok0 : sock_ok (set_time_now (te_time e) st)) by exact Hok.
    pose proof (be_secondary_switch_sock_ok delay e (incr_loop fr) _ Hpoll Hok0) as Hsw.
    destruct (be_secondary_switch wait_request delay e (incr_loop fr) _)
      as [[fr1 [v|]] s1|c s1]; cbn [snd fst final_state] in *.
    + exact Hsw.
    + pose proof (be_secondary_tail_sock_ok s1 Hpoll Hsw) as Ht.
      destruct (be_secondary_tail wait_request s1) as [[] s2|c s2];
        cbn [snd fst final_state] in *.
      * apply IH. exact Ht.
      * exact Ht.
    + exact Hsw.
Qed.


(** ** The whole of [be_secondary] *)

(** X19. [be_secondary] returns in one way only: with 0, with
    [pbs_failover_active] set to 1, and after the address of the primary
    was found.  As long as it has not returned, and when the process
    ends inside it, the flag is the one it was called with; without an
    address for the primary it ends the process with code 1 before the
    first dial. *)
Theorem be_secondary_returns_active
  (delay t0 primaddr : Z) (es : list tick_env) (st : state) :
  preserves pbs_failover_active wait_request ->
  preserves secondaryact wait_request ->
  match be_secondary wait_request delay t0 primaddr es st with
  | Ok (Some v) st' => v = 0 /\ pbs_failover_active st' = 1 /\ primaddr <> 0
  | Ok None st' => pbs_failover_active st' = pbs_failover_active st /\ primaddr <> 0
  | Exited c st' =>
      pbs_failover_active st' = pbs_failover_active st /\
      (primaddr = 0 ->
       c = 1 /\ existsb (fun ev => match ev with E_client_to_svr => true | _ => false end)
                  (events_since (trace st) (trace st')) = false)
  end.
Proof.
  intros Hact Hfile. unfold be_secondary. unfold bind at 1.
  destruct (be_secondary_init t0 primaddr st) as [fr0 s1|c s1] eqn:Hinit.
  - assert (H1 : pbs_failover_active s1 = pbs_failover_active st /\ primaddr <> 0).
    { revert Hinit.
      cbv beta iota zeta delta
        [be_secondary_init log_event bind ret emit modify gets skip exit].
      simp. destruct (primaddr =? 0) eqn:Hp; simp; [discriminate|].
      apply Z.eqb_neq in Hp.
      destruct (secondary_delay st =? -1); simp;
        intros E; inversion E; subst; simp; split; auto. }
    destruct H1 as [H1 Hp].
    pose proof (be_secondary_loop_activation delay es Hact Hfile fr0 s1) as Hl.
    unfold bind. destruct (be_secondary_loop wait_request delay es fr0 s1)
      as [[fr1 [v|]] s2|c s2]; cbn [snd ret] in *.
    + intuition.
    + split; [congruence|assumption].
    + split; [congruence|]. intros Hz. contradiction.
  - revert Hinit.
    cbv beta iota zeta delta
      [be_secondary_init log_event bind ret emit modify gets skip exit].
    simp. destruct (primaddr =? 0) eqn:Hp; simp.
    + intros E; inversion E; subst; simp. split; [reflexivity|]. intros _.
      split; [reflexivity|]. rewrite <- ?app_assoc, events_since_app. reflexivity.
    + destruct (secondary_delay st =? -1); simp; discriminate.
Qed.


(** ** The error codes of the replies *)

Ltac in_list :=
  repeat match goal with
  | H : In _ (_ ++ _) |- _ => apply in_app_or in H; destruct H as [H|H]
  | H : In _ (_ :: _) |- _ => destruct H as [H|H]
  | H : In _ [] |- _ => destruct H
  | H : _ \/ _ |- _ => destruct H as [H|H]
  | H : False |- _ => destruct H
  | H : _ = ?ev |- _ => is_var ev; subst ev; simp; auto
  end.

(** X20. [req_failover] knows one error code.  Every rejection it sends
    carries [PBSE_SYSTEM] with auxiliary code 0, whatever the value of
    [err] was (also for a tag it does not know, which is not answered
    with [PBSE_UNKREQ]), and the text reply to REGISTER carries
    [PBSE_NONE]. *)
Theorem req_failover_error_code (e : req_env) (preq : batch_request) (st : state) :
  poll_adds (fun ev => negb (is_reply ev)) wait_request ->
  forallb reply_code_ok
    (events_since (trace st)
       (trace (final_state (req_failover wait_request e preq st)))) = true.
Proof.
  intros Hpoll. apply forallb_forall. intros ev. unfold reply_code_ok.
  run_handler.
  destruct (rq_get_conn e); simp;
    [|since; intros H; in_list; rewrite Z.eqb_refl; reflexivity].
  destruct (rq_failover preq) eqn:Htag; simp; closed_tests;
    repeat case_if;
    try (since; intros H; in_list; rewrite ?Z.eqb_refl; reflexivity).
  match goal with
  | |- context [wait_request ?n ?s0] =>
      destruct (Hpoll n s0) as [evs [Htr Hev]]; destruct (wait_request n s0)
  end; simp; repeat case_if; simp; rewrite ?Htr; since; intros H; in_list.
  all: rewrite forallb_forall in Hev; apply Hev in H; destruct ev; simp; auto;
    discriminate.
Qed.


(** ** Sending the registration *)

(** X21. One pass in state [conn].  The state becomes [regsent] exactly
    when a request could be allocated and [put_failover] returned 0; on
    either failure the socket is closed, [sec_sock] is -1 and the state
    is [noconn] again.  A request that was allocated is freed in the
    same pass, whether it could be sent or not. *)
Theorem conn_sends_registration (delay : Z) (e : tick_env) (fr : frame) (st : state) :
  Secondary_state st = SECONDARY_STATE_conn ->
  let sent := te_alloc_br e && (te_put_failover e =? 0) in
  exists st' evs,
    be_secondary_switch wait_request delay e fr st = Ok (fr, None) st' /\
    trace st' = trace st ++ evs /\
    Secondary_state st' =
      (if sent then SECONDARY_STATE_regsent else SECONDARY_STATE_noconn) /\
    sec_sock st' = (if sent then sec_sock st else -1) /\
    existsb (fun ev => match ev with
                       | E_close_conn c => c =? sec_sock st
                       | _ => false
                       end) evs = negb sent /\
    existsb (fun ev => match ev with
                       | E_put_failover c FAILOVER_Register => c =? sec_sock st
                       | _ => false
                       end) evs = te_alloc_br e /\
    length (filter is_alloc evs) = length (filter is_free evs).
Proof.
  intros Hst sent. unfold sent. clear sent.
  run_switch. rewrite Hst. closed_tests.
  destruct fr as [l sbl sbt myt tk]; simp.
  destruct (te_alloc_br e); simp;
    [destruct (te_put_failover e =? 0); simp|];
    rewrite <- ?app_assoc; simp; rewrite ?Z.eqb_refl;
    eexists; eexists; (split; [reflexivity|]); simp;
    (split; [reflexivity|]); simp; rewrite ?Z.eqb_refl; simp;
    repeat (split; [reflexivity|]); reflexivity.
Qed.

(** X22. A dial that succeeds while the connection table has no room.
    When [add_conn] returns null, the pass closes the socket but leaves
    the state at [conn] and the descriptor in [sec_sock]; the next pass
    sends the REGISTER request on that closed descriptor. *)
Theorem register_on_closed_socket
  (delay : Z) (e1 e2 : tick_env) (fr : frame) (st : state) :
  calm wait_request ->
  Secondary_state st = SECONDARY_STATE_noconn \/
  Secondary_state st = SECONDARY_STATE_idle ->
  te_client_to_svr e1 >= 0 ->
  te_add_conn e1 = false ->
  te_alloc_br e2 = true ->
  let sock := te_client_to_svr e1 in
  exists fr1 s1 fr2 s2 pre mid post,
    be_secondary_iter wait_request delay e1 fr st = Ok (fr1, None) s1 /\
    Secondary_state s1 = SECONDARY_STATE_conn /\
    sec_sock s1 = sock /\
    be_secondary_iter wait_request delay e2 fr1 s1 = Ok (fr2, None) s2 /\
    trace s2 = trace st ++ pre ++ E_close sock :: mid ++
               E_put_failover sock FAILOVER_Register :: post.
Proof.
  intros Hcalm Hst Hdial Hadd Halloc sock. unfold sock. clear sock.
  assert (Hd : (te_client_to_svr e1 <? 0) = false) by (apply Z.ltb_ge; lia).
  assert (Hstate : (Secondary_state st =? SECONDARY_STATE_noconn) ||
                   (Secondary_state st =? SECONDARY_STATE_idle) = true).
  { destruct Hst as [Hst|Hst]; rewrite Hst; reflexivity. }
  assert (H1 : exists fr1 s1 pre,
             be_secondary_iter wait_request delay e1 fr st = Ok (fr1, None) s1 /\
             Secondary_state s1 = SECONDARY_STATE_conn /\
             sec_sock s1 = te_client_to_svr e1 /\
             trace s1 = trace st ++ pre ++
                        [E_close (te_client_to_svr e1); E_wait_request 1]).
  { run_iter. rewrite Hstate. simp.
    destruct (sec_sock st >=? 0); simp; rewrite Hd; simp; rewrite Hadd; simp;
      name_states; calm_poll Hcalm; rewrite <- ?app_assoc; simp;
      eexists; eexists;
      [ exists [E_close_conn (sec_sock st); E_client_to_svr;
                E_store_Secondary_state SECONDARY_STATE_conn;
                E_add_conn (te_client_to_svr e1) cb_read_reg_reply;
                E_log_err "Connection not found, close socket free context";
                E_CS_close_socket (te_client_to_svr e1)]
      | exists [E_client_to_svr;
                E_store_Secondary_state SECONDARY_STATE_conn;
                E_add_conn (te_client_to_svr e1) cb_read_reg_reply;
                E_log_err "Connection not found, close socket free context";
                E_CS_close_socket (te_client_to_svr e1)] ];
      repeat (split; [reflexivity|]); simp; rewrite <- ?app_assoc; reflexivity. }
  destruct H1 as (fr1 & s1 & pre & Hit1 & Hst1 & Hsock1 & Htr1).
  assert (H2 : exists fr2 s2 post,
             be_secondary_iter wait_request delay e2 fr1 s1 = Ok (fr2, None) s2 /\
             trace s2 = trace s1 ++ E_alloc_br true ::
                        E_put_failover (sec_sock s1) FAILOVER_Register :: post).
  { clear Hit1. run_iter. rewrite Hst1. closed_tests. rewrite Halloc. simp.
    destruct (te_put_failover e2 =? 0); simp; name_states; calm_poll Hcalm;
      rewrite <- ?app_assoc; simp;
      eexists; eexists; eexists; (split; [reflexivity|]); simp;
      rewrite <- ?app_assoc; reflexivity. }
  destruct H2 as (fr2 & s2 & post & Hit2 & Htr2).
  exists fr1, s1, fr2, s2, pre, [E_wait_request 1; E_alloc_br true], post.
  repeat (split; [assumption|]).
  rewrite Htr2, Htr1, Hsock1, <- !app_assoc. reflexivity.
Qed.


(** ** After SecdGoInactive *)




(** ** The reply to the shutdown request *)

(** X23. [fo_shutdown_reply] clears the bits of [SV_STATE_PRIMDLY] in
    the server state and no other: afterwards the state has no bit in
    common with the mask, every bit outside the mask is as before, and a
    second reply changes nothing more.  The request is released after
    the state was written. *)
Theorem fo_shutdown_reply_clears_delay (primdly : Z) (st : state) :
  exists st',
    fo_shutdown_reply primdly st = Ok tt st' /\
    Z.land (sv_state st') primdly = 0 /\
    (forall i, 0 <= i -> Z.testbit primdly i = false ->
               Z.testbit (sv_state st') i = Z.testbit (sv_state st) i) /\
    sv_state (final_state (fo_shutdown_reply primdly st')) = sv_state st' /\
    trace st' = trace st ++ [E_call "release_req"] /\
    Secondary_connection st' = Secondary_connection st.
Proof.
  run_primary. eexists. split; [reflexivity|]. simp.
  split; [|split; [|split; [|split; reflexivity]]].
  - rewrite <- Z.land_assoc, (Z.land_comm (Z.lnot primdly)), Z.land_lnot_diag.
    apply Z.land_0_r.
  - intros i Hi Hb. rewrite Z.land_spec, Z.lnot_spec, Hb by assumption.
    apply andb_true_r.
  - rewrite <- Z.land_assoc, Z.land_diag. reflexivity.
Qed.


(** ** From a silent primary to the takeover *)

(** In [nohsk], a live file that has advanced is remembered, with the
    time at which it was seen. *)
Lemma be_secondary_iter_nohsk_records
  (delay : Z) (e : tick_env) (fr : frame) (st : state) :
  calm wait_request ->
  Secondary_state st = SECONDARY_STATE_nohsk ->
  sbloop fr <= 4 ->
  te_stat e = 0 -> te_mtime e > sbtime fr ->
  exists fr' st',
    be_secondary_iter wait_request delay e fr st = Ok (fr', None) st' /\
    Secondary_state st' = SECONDARY_STATE_nohsk /\
    sbtime fr' = te_mtime e /\ mytime fr' = te_time e /\
    sec_sock st' = sec_sock st /\
    secondary_delay st' = secondary_delay st /\
    secondaryact st' = secondaryact st.
Proof.
  intros Hcalm Hst Hsb Hstat Hm.
  assert (H1 : (te_mtime e >? sbtime fr) = true) by (rewrite Z.gtb_ltb; apply Z.ltb_lt; lia).
  assert (H2 : (sbloop fr >? 4) = false) by (rewrite Z.gtb_ltb; apply Z.ltb_ge; lia).
  run_iter. rewrite Hst. closed_tests. rewrite Hstat. closed_tests.
  rewrite H1, H2. simp. name_states. calm_poll Hcalm.
  eexists; eexists; (split; [reflexivity|]); simp.
  repeat (split; [first [reflexivity | exact Hst]|]); reflexivity.
Qed.

(** In [nohsk], a live file that has stood still for longer than the
    delay makes the state [takeov]. *)
Lemma be_secondary_iter_nohsk_stale
  (delay : Z) (e : tick_env) (fr : frame) (st : state) :
  calm wait_request ->
  Secondary_state st = SECONDARY_STATE_nohsk ->
  te_stat e = 0 -> te_mtime e <= sbtime fr ->
  te_time e > time_add (mytime fr) (secondary_delay st) ->
  exists fr' st',
    be_secondary_iter wait_request delay e fr st = Ok (fr', None) st' /\
    Secondary_state st' = SECONDARY_STATE_takeov /\
    sec_sock st' = sec_sock st /\
    secondaryact st' = secondaryact st.
Proof.
  intros Hcalm Hst Hstat Hm Ht.
  assert (H1 : (te_mtime e >? sbtime fr) = false) by (rewrite Z.gtb_ltb; apply Z.ltb_ge; lia).
  assert (H2 : (te_time e >? time_add (mytime fr) (secondary_delay st)) = true)
    by (rewrite Z.gtb_ltb; apply Z.ltb_lt; lia).
  run_iter. rewrite Hst. closed_tests. rewrite Hstat. closed_tests.
  rewrite H1, H2. simp. name_states. calm_poll Hcalm.
  eexists; eexists; (split; [reflexivity|]); simp.
  repeat (split; [reflexivity|]); reflexivity.
Qed.

(** In [takeov], with the primary out of reach and the fencing hook not
    failing, the loop ends. *)
Lemma be_secondary_iter_takes_over
  (delay : Z) (e : tick_env) (fr : frame) (st : state) (nd : string) :
  Secondary_state st = SECONDARY_STATE_takeov ->
  sec_sock st = -1 ->
  te_alt_conn e < 0 ->
  pbs_primary = Some nd ->
  fencing_outcome (te_stonith e) <> fence_failed ->
  exists fr' st',
    be_secondary_iter wait_request delay e fr st = Ok (fr', Some 0) st' /\
    pbs_failover_active st' = 1 /\
    secondaryact st' =
      (if te_fopen e then Some (server_host ++ String "010"%char "")%string
       else secondaryact st).
Proof.
  intros Hst Hsock Hdial Hprim Hfence. apply Z.ltb_lt in Hdial.
  run_iter. rewrite Hst. closed_tests. rewrite Hsock. closed_tests.
  rewrite Hdial. simp. closed_tests. name_states.
  rewrite Hprim. use_stonith.
  destruct (fencing_outcome (te_stonith e)); [| |contradiction]; simp; closed_tests;
    name_states; destruct (te_fopen e); simp;
    eexists; eexists; (split; [reflexivity|]); split; reflexivity.
Qed.

(** X24. The path from a silent primary to the takeover, with calm
    polls ([calm]).  The secondary is waiting for handshakes when the
    connection to the primary ends.
    If the live file is then seen to advance once, stands still for
    longer than [secondary_delay] (the time of the second look is past
    the time of the first plus the delay, the sum of [time_t] that the
    program compares it with), the last dial to the primary fails and
    the fencing hook does not fail, the third iteration makes
    [be_secondary] return 0 with [pbs_failover_active] set and the
    marker file written (if it could be opened). *)
Theorem primary_silence_leads_to_takeover
  (delay : Z) (fe : fo_read_env) (conn : Z) (e1 e2 e3 : tick_env)
  (fr : frame) (st : state) (nd : string) :
  calm wait_request ->
  Secondary_state st = SECONDARY_STATE_handsk ->
  fr_alloc fe = true -> fr_rc fe = -1 ->
  sbloop fr <= 4 ->
  te_stat e1 = 0 -> te_mtime e1 > sbtime fr ->
  te_stat e2 = 0 -> te_mtime e2 <= te_mtime e1 ->
  te_time e2 > time_add (te_time e1) (secondary_delay st) ->
  te_alt_conn e3 < 0 ->
  pbs_primary = Some nd ->
  fencing_outcome (te_stonith e3) <> fence_failed ->
  let s0 := final_state (read_fo_request wait_request fe conn st) in
  exists fr' st',
    Secondary_state s0 = SECONDARY_STATE_nohsk /\
    be_secondary_loop wait_request delay [e1; e2; e3] fr s0 = Ok (fr', Some 0) st' /\
    pbs_failover_active st' = 1 /\
    secondaryact st' =
      (if te_fopen e3 then Some (server_host ++ String "010"%char "")%string
       else secondaryact st).
Proof.
  intros Hcalm Hst Halloc Hrc Hsb Hs1 Hm1 Hs2 Hm2 Ht2 Hd3 Hprim Hfence s0.
  assert (H0 : Secondary_state s0 = SECONDARY_STATE_nohsk /\ sec_sock s0 = -1 /\
               secondary_delay s0 = secondary_delay st /\
               secondaryact s0 = secondaryact st).
  { unfold s0. run_handler. rewrite Halloc. simp. rewrite Hrc. closed_tests.
    rewrite Hst. closed_tests. repeat split; reflexivity. }
  destruct H0 as (Hst0 & Hsock0 & Hdly0 & Hact0). clearbody s0.
  destruct (be_secondary_iter_nohsk_records delay e1 fr s0 Hcalm Hst0 Hsb Hs1 Hm1)
    as (fr1 & s1 & Hit1 & Hst1 & Hsbt & Hmy & Hsock1 & Hdly1 & Hact1).
  destruct (be_secondary_iter_nohsk_stale delay e2 fr1 s1 Hcalm Hst1 Hs2)
    as (fr2 & s2 & Hit2 & Hst2 & Hsock2 & Hact2); [lia|congruence|].
  destruct (be_secondary_iter_takes_over delay e3 fr2 s2 nd Hst2) as
    (fr3 & s3 & Hit3 & Hflag & Hfile); [congruence|assumption|assumption|assumption|].
  exists fr3, s3. split; [exact Hst0|].
  cbn [be_secondary_loop]. unfold bind at 1. rewrite Hit1. cbn [snd fst].
  unfold bind at 1. rewrite Hit2. cbn [snd fst].
  unfold bind at 1. rewrite Hit3. cbn [snd fst]. unfold ret.
  split; [reflexivity|]. split; [exact Hflag|].
  rewrite Hfile. destruct (te_fopen e3); congruence.
Qed.


(** ** The output of the fencing script *)

(** X25. The output of the stonith script reaches the log exactly when
    the script was run and its output file could be opened, measured and
    read into an allocated buffer.  One line is then logged, at info
    level: what [log_buffer] holds of the output, its trailing line ends
    removed, followed by [", exit_code: "], the value that [system()]
    returned (0 or not) and a full stop.  When the whole of it fits the
    buffer, the line is that text; an output that fills the buffer by
    itself is logged without the value. *)
Theorem stonith_output_logged (e : stonith_env) (nd : string) (s : state) :
  let msg := strip_crlf (so_text e) in
  let line := stonith_output_line msg (so_system e) in
  exists r evs,
    check_and_invoke_stonith e (Some nd) s = Ok r (set_trace (trace s ++ evs) s) /\
    filter is_log_event (after_open_out evs) =
      (if output_captured e
       then [E_log_event LOG_INFO (snprintf LOG_BUF_SIZE line) []]
       else []) /\
    (Z.of_nat (String.length line) < LOG_BUF_SIZE ->
     snprintf LOG_BUF_SIZE line = line) /\
    (LOG_BUF_SIZE - 1 <= Z.of_nat (String.length msg) ->
     snprintf LOG_BUF_SIZE line = snprintf LOG_BUF_SIZE msg).
Proof.
  intros msg line.
  assert (Hfit : Z.of_nat (String.length line) < LOG_BUF_SIZE ->
                 snprintf LOG_BUF_SIZE line = line)
    by (intros H; apply take_chars_all; lia).
  assert (Hcut : LOG_BUF_SIZE - 1 <= Z.of_nat (String.length msg) ->
                 snprintf LOG_BUF_SIZE line = snprintf LOG_BUF_SIZE msg)
    by (intros H; apply take_chars_append; exact H).
  unfold output_captured, script_absent. subst line msg.
  cbv beta iota zeta delta
    [check_and_invoke_stonith stonith_read_output log_event log_buffer_event
     bind ret emit modify gets skip exit].
  simp.
  destruct (so_stat e =? 0); destruct (so_errno e =? ENOENT); simp;
    rewrite ?set_trace_twice;
    try (eexists; eexists; rewrite <- ?app_assoc;
         split; [reflexivity|]; split; [reflexivity|]; split; assumption);
    destruct (so_system e =? 0) eqn:Hsys; simp; rewrite ?set_trace_twice;
    destruct (so_open e =? -1); simp; rewrite ?set_trace_twice;
    try (destruct (so_fstat e =? -1); simp; rewrite ?set_trace_twice);
    try (destruct (so_malloc e); simp; rewrite ?set_trace_twice);
    try (destruct (so_read e =? -1); simp; rewrite ?set_trace_twice);
    rewrite <- ?app_assoc; eexists; eexists; simp;
    (split; [reflexivity|]); (split; [reflexivity|]); split; assumption.
Qed.


(** ** A reply to REGISTER without text *)

(** X30. An accepted reply to REGISTER that carries no text sends the
    secondary back to [noconn] with the socket still open and still in
    [sec_sock]; the socket is not lost: the next pass of the switch
    closes it before it dials the primary again. *)
Theorem textless_reply_redials
  (e : reg_reply_env) (sock delay : Z) (te : tick_env) (fr : frame) (st : state) :
  PBSE_UNKREQ <> 0 ->
  rr_rc e = 0 -> rr_code e = 0 ->
  goidle_ack st = 0 ->
  is_Text (rr_choice e) &&
  (match rr_str e with Some _ => true | None => false end) = false ->
  sec_sock st >= 0 ->
  exists s1 fr2 s2 evs,
    read_reg_reply e sock st = Ok tt s1 /\
    trace s1 = trace st ++ [E_store_Secondary_state SECONDARY_STATE_noconn] /\
    sec_sock s1 = sec_sock st /\
    be_secondary_switch wait_request delay te fr s1 = Ok (fr2, None) s2 /\
    trace s2 = trace s1 ++ E_close_conn (sec_sock st) :: E_client_to_svr :: evs.
Proof.
  intros Hunk Hrc Hcode Hga Htext Hsock.
  assert (Hne : (0 =? PBSE_UNKREQ) = false) by (apply Z.eqb_neq; congruence).
  assert (Hge : (sec_sock st >=? 0) = true) by (rewrite Z.geb_leb; apply Z.leb_le; lia).
  assert (H1 : read_reg_reply e sock st =
               Ok tt (set_trace
                        (trace st ++ [E_store_Secondary_state SECONDARY_STATE_noconn])
                        (set_Secondary_state SECONDARY_STATE_noconn st))).
  { run_handler. rewrite Hrc, Hcode. closed_tests. rewrite Hga. closed_tests.
    rewrite Hne. destruct (rr_choice e); simp; try reflexivity.
    destruct (rr_str e); simp; [discriminate|reflexivity]. }
  exists (set_trace (trace st ++ [E_store_Secondary_state SECONDARY_STATE_noconn])
            (set_Secondary_state SECONDARY_STATE_noconn st)).
  run_switch. closed_tests. rewrite Hge. simp.
  destruct (te_client_to_svr te <? 0); simp;
    [ destruct ((delay =? -1) || (time_now st >? takeov_on_nocontact fr)); simp
    | destruct (te_add_conn te); simp ];
    rewrite <- ?app_assoc; simp;
    do 3 eexists; (split; [exact H1|]); (split; [reflexivity|]);
    (split; [reflexivity|]); (split; [reflexivity|]); simp;
    rewrite <- ?app_assoc; reflexivity.
Qed.


End Properties.

(** * Properties of the job submission *)

Section SubmitProperties.

Import Libifl.

Context {err : pbs_error_h}.

Ltac lsimp :=
  cbn -[Z.eqb Z.gtb String.append] in *.

Ltac run_submit :=
  cbv beta iota zeta delta
      [pbs_submit_with_cred pbs_submit submit_queue submit_error store_pbs_errno
       do_call lbind lret lgets lmodify];
  lsimp.

Ltac atom c :=
  lazymatch c with
  | negb ?b => atom b
  | andb ?a _ => atom a
  | orb ?a _ => atom a
  | _ => constr:(c)
  end.

Ltac lcase :=
  match goal with
  | |- context [if ?c then _ else _] => let a := atom c in destruct a eqn:?
  | |- context [match sb_queuejob ?e with _ => _ end] => destruct (sb_queuejob e) eqn:?
  | |- context [match th_cred_info ?s with _ => _ end] => destruct (th_cred_info s) eqn:?
  end; lsimp.

Ltac lists :=
  lsimp; rewrite <- ?app_assoc; lsimp; rewrite ?Z.eqb_refl; lsimp.

Ltac calls_done :=
  eexists; lists; (split; [reflexivity|]); lists; repeat split; lists;
  try reflexivity; try congruence.

(** X26. [pbs_submit] gives back the lock it took.  Whatever the calls
    return, the lock of the connection is asked for at most once, after
    the thread context was found and the attributes were accepted, and
    it is released exactly once on every path on which it was obtained,
    as the last call the function makes; when it was not obtained, the
    function makes no request and releases nothing. *)
Theorem pbs_submit_unlocks_once
  (e : submit_env) (c : Z) (script : option string) (destination : string)
  (extend : option string) (s : client) :
  exists evs,
    calls (snd (pbs_submit e c script destination extend s)) = calls s ++ evs /\
    filter (is_lock c) evs =
      (if (sb_init e =? 0) && sb_ctx e && (sb_verify e =? 0)
       then [C_lock_connection c] else []) /\
    filter (is_unlock c) evs = (if locked e then [C_unlock_connection c] else []) /\
    (if locked e then exists pre, evs = pre ++ [C_unlock_connection c]
     else filter is_request evs = []).
Proof.
  unfold locked. run_submit.
  destruct (sb_init e =? 0); lsimp; [|calls_done].
  destruct (sb_ctx e); lsimp; [|calls_done].
  destruct (sb_verify e =? 0); lsimp; [|calls_done].
  destruct (sb_lock e =? 0); lsimp; [|calls_done].
  destruct script as [[|a b]|]; lsimp; repeat lcase;
    eexists; lists; (split; [reflexivity|]); lists;
    (split; [reflexivity|]); (split; [reflexivity|]);
    match goal with
    | |- exists pre, ?l = pre ++ [?x] =>
        exists (removelast l); lsimp; reflexivity
    end.
Qed.

(** X27. [pbs_submit] returns a job id only for a committed job.  The
    result is the id that [PBSD_queuejob] returned when every step up to
    and including [PBSD_commit] went well and the lock could be
    released, and null otherwise; the id that is committed is that same
    id, and [PBSD_commit] is called exactly when the job was queued and
    the script and the credential, where there are any, went across. *)
Theorem pbs_submit_returns_committed_job
  (e : submit_env) (c : Z) (script : option string) (destination : string)
  (extend : option string) (s : client) :
  exists evs,
    calls (snd (pbs_submit e c script destination extend s)) = calls s ++ evs /\
    fst (pbs_submit e c script destination extend s) =
      (if ready e script s && (sb_commit e =? 0) && (sb_unlock e =? 0)
       then sb_queuejob e else None) /\
    filter is_commit evs =
      (if ready e script s
       then match sb_queuejob e with
            | Some id => [C_commit c id]
            | None => []
            end
       else []).
Proof.
  unfold ready, locked, script_readable, cred_due. run_submit.
  destruct (sb_init e =? 0); lsimp; [|calls_done].
  destruct (sb_ctx e); lsimp; [|calls_done].
  destruct (sb_verify e =? 0); lsimp; [|calls_done].
  destruct (sb_lock e =? 0); lsimp; [|calls_done].
  destruct script as [[|a b]|]; lsimp; repeat lcase; calls_done.
Qed.

(** X28. The attributes are checked as the caller wrote them and queued
    with the operator SET.  [pbs_verify_attributes] is given the chain
    with the operators of the caller; before [PBSD_queuejob] is called
    every operator has been overwritten with SET, in the caller's own
    structures, and nothing else of an attribute is changed.  When the
    function fails before that point the chain is as it was. *)
Theorem pbs_submit_forces_set
  (e : submit_env) (c : Z) (script : option string) (destination : string)
  (extend : option string) (s : client) :
  let queued := locked e && script_readable e script in
  exists evs,
    calls (snd (pbs_submit e c script destination extend s)) = calls s ++ evs /\
    filter is_verify evs =
      (if (sb_init e =? 0) && sb_ctx e
       then [C_verify_attributes c (attropls s)] else []) /\
    filter is_queuejob evs =
      (if queued
       then [C_queuejob c "" destination (map (set_op SET) (attropls s)) extend]
       else []) /\
    attropls (snd (pbs_submit e c script destination extend s)) =
      (if queued then map (set_op SET) (attropls s) else attropls s) /\
    Forall (fun a => op a = SET) (map (set_op SET) (attropls s)) /\
    map name (map (set_op SET) (attropls s)) = map name (attropls s) /\
    map resource (map (set_op SET) (attropls s)) = map resource (attropls s) /\
    map value (map (set_op SET) (attropls s)) = map value (attropls s).
Proof.
  intros queued. unfold queued, locked, script_readable. clear queued.
  assert (Hset : Forall (fun a => op a = SET) (map (set_op SET) (attropls s)) /\
                 map name (map (set_op SET) (attropls s)) = map name (attropls s) /\
                 map resource (map (set_op SET) (attropls s)) = map resource (attropls s) /\
                 map value (map (set_op SET) (attropls s)) = map value (attropls s)).
  { rewrite !map_map. repeat split; try reflexivity.
    apply Forall_forall. intros a Ha. apply in_map_iff in Ha.
    destruct Ha as [a0 [Ha0 _]]. subst a. reflexivity. }
  run_submit.
  destruct (sb_init e =? 0); lsimp;
    [|eexists; lists; repeat (split; [reflexivity|]); exact Hset].
  destruct (sb_ctx e); lsimp;
    [|eexists; lists; repeat (split; [reflexivity|]); exact Hset].
  destruct (sb_verify e =? 0); lsimp;
    [|eexists; lists; repeat (split; [reflexivity|]); exact Hset].
  destruct (sb_lock e =? 0); lsimp;
    [|eexists; lists; repeat (split; [reflexivity|]); exact Hset].
  destruct script as [[|a b]|]; lsimp; repeat lcase;
    eexists; lists; (split; [reflexivity|]); lists;
    repeat (split; [reflexivity|]); exact Hset.
Qed.

(** X29. [pbs_submit_with_cred] lends the credential to [pbs_submit] and
    takes it back.  Once [pbs_submit] has been called, the credential
    structure of the thread holds a null buffer, length 0 and type 0
    again, whether the submission succeeded or not; a credential that is
    sent is the one of the arguments, and none is sent when its length
    is 0.  The lock of the connection is held across the call, which
    asks for it a second time, and every lock that was obtained is
    released. *)
Theorem pbs_submit_with_cred_scrubs
  (e : cred_env) (c : Z) (script : option string) (destination : string)
  (extend : option string) (credtype credlen : Z) (credbuf : option string)
  (s : client) :
  let run := pbs_submit_with_cred e c script destination extend
               credtype credlen credbuf s in
  let inner := cr_submit e in
  exists evs,
    calls (snd run) = calls s ++ evs /\
    th_cred_info (snd run) =
      (if reaches_submit e s then Some (mkCredInfo 0 0 None) else th_cred_info s) /\
    filter is_jcred evs =
      (if reaches_submit e s && locked inner && script_readable inner script &&
          (match sb_queuejob inner with Some _ => true | None => false end) &&
          (negb (script_given script) || (sb_jscript inner =? 0)) &&
          (credlen >? 0)
       then [C_jcred c credtype credbuf credlen] else []) /\
    length (filter (is_unlock c) evs) =
      Nat.add (if (cr_init e =? 0) && (cr_lock e =? 0) then 1%nat else 0%nat)
              (if reaches_submit e s && locked inner then 1%nat else 0%nat) /\
    (reaches_submit e s && locked inner = true ->
     in_calls [is_lock c; is_lock c; is_unlock c; is_unlock c] evs = true).
Proof.
  intros run inner. unfold run, inner, reaches_submit, locked, script_readable.
  clear run inner. run_submit.
  destruct (cr_init e =? 0); lsimp; [|repeat lcase; calls_done; intros; discriminate].
  destruct (cr_lock e =? 0); lsimp; [|repeat lcase; calls_done; intros; discriminate].
  destruct (cr_ctx e); lsimp; [|repeat lcase; calls_done; intros; discriminate].
  destruct (th_cred_info s) as [ci|] eqn:Hci; lsimp;
    [|destruct (cr_malloc e); lsimp; [|repeat lcase; calls_done; intros; discriminate]].
  all: destruct (sb_init (cr_submit e) =? 0); lsimp; [|repeat lcase; calls_done; intros; discriminate].
  all: destruct (sb_ctx (cr_submit e)); lsimp; [|repeat lcase; calls_done; intros; discriminate].
  all: destruct (sb_verify (cr_submit e) =? 0); lsimp; [|repeat lcase; calls_done; intros; discriminate].
  all: destruct (sb_lock (cr_submit e) =? 0); lsimp; [|repeat lcase; calls_done; intros; discriminate].
  all: destruct script as [[|a b]|]; lsimp; repeat lcase; calls_done; intros; try discriminate; try reflexivity.
Qed.

End SubmitProperties.

(** * The properties on sample runs *)

Example primary_with_peer_connection : Secondary_connection primary_with_peer = 4.
Proof. reflexivity. Qed.






(** C2 at a second REGISTER: the reject carries 15010, [PBSE_SYSTEM],
    where the specification has busy, [PBSE_OBJBUSY]. *)
Lemma req_failover_second_register_witness :
  @PBSE_OBJBUSY sample_headers <> 0 /\
  Secondary_connection primary_with_peer >= 0 /\
  req_failover (hdr := sample_headers) (glob := sample_primary) idle_wait
    sample_req_env (register_from 11) primary_with_peer =
    Ok tt (set_trace
             (trace primary_with_peer ++
                [E_log_event LOG_WARNING
                   "Failover: second secondary tried to register, host: %s"
                   [ArgS "gamma"];
                 E_req_reject 15010 0 (register_from 11)])
             primary_with_peer).
Proof.
  split; [cbn; lia|]. split; [vm_compute; discriminate|].
  pose proof
    (req_failover_second_register (hdr := sample_headers) (glob := sample_primary)
       idle_wait sample_req_env (register_from 11) primary_with_peer
       ltac:(cbn; lia) eq_refl ltac:(vm_compute; discriminate)) as X.
  cbv zeta in X. destruct X as [X _]. exact X.
Defined.

(** C4 on a sample. *)
Lemma read_reg_reply_eof_in_regsent_witness :
  Secondary_state
    (final_state (read_reg_reply (hdr := sample_headers) (glob := sample_secondary) (@reply_eod sample_headers) 5
                    (secondary_in SECONDARY_STATE_regsent 5))) =
  SECONDARY_STATE_takeov.
Proof.
  rewrite (read_reg_reply_eof_in_regsent (hdr := sample_headers) (glob := sample_secondary) (@reply_eod sample_headers) 5
             (secondary_in SECONDARY_STATE_regsent 5)).
  - reflexivity.
  - cbn; lia.
  - reflexivity.
  - reflexivity.
Defined.

(** C5 as the specification states it does not hold: the reply is ok
    and carries a text, license.fo cannot be opened, and the process
    ends with 1 without a write. *)
Lemma license_file_counterexample :
  exists st',
    read_reg_reply (hdr := sample_headers) (glob := sample_secondary)
      (reply_ok "-1" (-1) (-1)) 5 (secondary_in SECONDARY_STATE_regsent 5) =
    Exited 1 st' /\
    existsb is_write (trace st') = false.
Proof. eexists. split; vm_compute; reflexivity. Qed.

(** C5, amended, on a sample: the primary's host id is [2 ^ 64 - 1],
    which ["%ld"] prints as -1; the secondary's is 2130706433. *)
Lemma read_reg_reply_registered_witness :
  exists st',
    read_reg_reply (hdr := sample_headers) (glob := sample_secondary)
      (reply_ok "-1" 3 8) 5 (secondary_in SECONDARY_STATE_regsent 5) = Ok tt st' /\
    trace st' =
      [E_cn_func 5 cb_read_fo_request;
       E_store_Secondary_state SECONDARY_STATE_handsk;
       E_open license_fo [O_WRONLY; O_CREAT; O_TRUNC] 384;
       E_write_ulong 3 (Z.lxor (2 ^ 64 - 1) 2130706433) 8;
       E_close 3] /\
    hd_time st' = 1003 /\
    Secondary_state st' = SECONDARY_STATE_handsk.
Proof.
  pose proof
    (read_reg_reply_registered (hdr := sample_headers) (glob := sample_secondary)
       (reply_ok "-1" 3 8) 5 (secondary_in SECONDARY_STATE_regsent 5) "-1"
       eq_refl eq_refl eq_refl eq_refl eq_refl) as X.
  cbv zeta in X. destruct X as (Hsaved & _ & _).
  destruct Hsaved as (st' & Hrun & Htr & Hhd & Hst).
  { split; [reflexivity|]. split; [cbn; lia | reflexivity]. }
  exists st'. repeat split; assumption.
Defined.

Example be_secondary_takes_over (fopen_ok : bool) :
  be_secondary (hdr := sample_headers) (glob := sample_secondary)
    idle_wait (-1) 1000 1 (takeover_run fopen_ok) (initial_state (-1) 0 None) =
  Ok (Some 0) (active_secondary fopen_ok).
Proof. destruct fopen_ok; vm_compute; reflexivity. Qed.

(** C3 as the specification states it does not hold.  A secondary that
    has taken over and could not open the marker file is active without
    a marker; and the marker of an active secondary is still there after
    SECD_GO_INACTIVE has moved it to [inact]. *)
Lemma marker_file_counterexample :
  ~ (secondaryact (active_secondary false) <> None <->
     pbs_failover_active (active_secondary false) = 1) /\
  (let st' :=
     final_state (req_failover (hdr := sample_headers) (glob := sample_secondary)
                    idle_wait sample_req_env (request_on 5 FAILOVER_SecdGoInactive)
                    (active_secondary true)) in
   Secondary_state st' = SECONDARY_STATE_inact /\
   secondaryact st' <> None).
Proof.
  split.
  - intros [_ Hback]. apply Hback; vm_compute; reflexivity.
  - cbv zeta. split; [vm_compute; reflexivity | vm_compute; discriminate].
Qed.

(** C3, amended, on the sample run: PRIM_IS_BACK removes the marker of
    the active secondary. *)
Lemma marker_file_transitions_witness :
  secondaryact (active_secondary true) = Some ("beta" ++ String "010"%char "")%string /\
  secondaryact
    (final_state (req_failover (hdr := sample_headers) (glob := sample_secondary)
                    idle_wait sample_req_env (request_on 5 FAILOVER_PrimIsBack)
                    (active_secondary true))) = None.
Proof.
  split; [vm_compute; reflexivity|].
  pose proof
    (marker_file_transitions (hdr := sample_headers) (glob := sample_secondary)
       idle_wait (-1) (tick_unreachable 1012 0 stonith_absent true)
       (mkFrame 2 0 0 0 1300) sample_req_env (request_on 5 FAILOVER_PrimIsBack)
       (active_secondary true)
       (fun _ _ => eq_refl) (fun _ _ => eq_refl) eq_refl) as X.
  destruct X as [_ [X _]]. exact X.
Defined.

(** C6 as the specification states it does not hold: in the trace of a
    SECD_TAKEOVER the acknowledgement does not come before the sleep and
    the store of [takeov]; it comes after them. *)
Lemma takeover_order_counterexample :
  let st' :=
    final_state (req_failover (hdr := sample_headers) (glob := sample_secondary)
                   idle_wait sample_req_env (request_on 5 FAILOVER_SecdTakeOver)
                   (secondary_in SECONDARY_STATE_handsk 5)) in
  in_order [is_reply; is_sleep; is_store SECONDARY_STATE_takeov] (trace st') = false /\
  in_order [is_sleep; is_store SECONDARY_STATE_takeov; is_reply] (trace st') = true.
Proof. split; vm_compute; reflexivity. Qed.

(** C6, amended, on the same request. *)
Lemma req_failover_takeover_order_witness :
  trace
    (final_state (req_failover (hdr := sample_headers) (glob := sample_secondary)
                    idle_wait sample_req_env (request_on 5 FAILOVER_SecdTakeOver)
                    (secondary_in SECONDARY_STATE_handsk 5))) =
  [E_sleep 10;
   E_store_Secondary_state SECONDARY_STATE_takeov;
   E_reply_send (request_on 5 FAILOVER_SecdTakeOver);
   E_wait_request 600;
   E_close_conn 5].
Proof.
  pose proof
    (req_failover_takeover_order (hdr := sample_headers) (glob := sample_secondary)
       idle_wait sample_req_env (request_on 5 FAILOVER_SecdTakeOver)
       (secondary_in SECONDARY_STATE_handsk 5) eq_refl eq_refl) as X.
  cbv zeta in X. rewrite X. vm_compute; reflexivity.
Defined.

(** With such a poll, the state that SECD_TAKEOVER leaves is [nohsk]:
    the end of file is handled after [takeov] has been stored. *)
Example takeover_then_eof :
  let st' :=
    final_state (req_failover (hdr := sample_headers) (glob := sample_secondary)
                   (wait_sees_eof 5) sample_req_env (request_on 5 FAILOVER_SecdTakeOver)
                   (secondary_in SECONDARY_STATE_handsk 5)) in
  Secondary_state st' = SECONDARY_STATE_nohsk /\ sec_sock st' = -1.
Proof. split; vm_compute; reflexivity. Qed.

(** C7 at the boundary: the live file has not changed since 973 and the
    delay is 30; at 1003 the state is still [nohsk], at 1004 it is
    [takeov]. *)
Lemma nohsk_stagnant_live_file_witness :
  Secondary_state
    (final_state
       (be_secondary_switch (hdr := sample_headers) (glob := sample_secondary)
          idle_wait 30 (tick_unreachable 1003 500 stonith_absent true)
          (mkFrame 7 1 500 973 1330) (secondary_in SECONDARY_STATE_nohsk (-1)))) =
  SECONDARY_STATE_nohsk /\
  Secondary_state
    (final_state
       (be_secondary_switch (hdr := sample_headers) (glob := sample_secondary)
          idle_wait 30 (tick_unreachable 1004 500 stonith_absent true)
          (mkFrame 8 1 500 973 1330)
          (set_time_now 1004 (secondary_in SECONDARY_STATE_nohsk (-1))))) =
  SECONDARY_STATE_takeov.
Proof.
  split.
  - destruct (nohsk_stagnant_live_file (hdr := sample_headers) (glob := sample_secondary)
                idle_wait 30 (tick_unreachable 1003 500 stonith_absent true)
                (mkFrame 7 1 500 973 1330) (secondary_in SECONDARY_STATE_nohsk (-1))
                eq_refl eq_refl eq_refl ltac:(vm_compute; split; discriminate))
      as (st' & Hrun & _ & Hstay).
    rewrite Hrun. apply Hstay. cbn. lia.
  - destruct (nohsk_stagnant_live_file (hdr := sample_headers) (glob := sample_secondary)
                idle_wait 30 (tick_unreachable 1004 500 stonith_absent true)
                (mkFrame 8 1 500 973 1330)
                (set_time_now 1004 (secondary_in SECONDARY_STATE_nohsk (-1)))
                eq_refl eq_refl eq_refl ltac:(vm_compute; split; discriminate))
      as (st' & Hrun & Hgo & _).
    rewrite Hrun. apply Hgo. cbn. lia.
Defined.

(** Where the sum is not a value of [time_t]: with a delay of [LONG_MAX]
    the program compares [time_now] with a negative number, and the
    state becomes [takeov] at the first look at a live file that has not
    advanced. *)
Example nohsk_wrapped_sum :
  let st := mkState 0 (-1) (-1) SECONDARY_STATE_nohsk 1000 0 LONG_MAX 1003 0 None None [] in
  time_add 973 (secondary_delay st) = -9223372036854774836 /\
  Secondary_state
    (final_state
       (be_secondary_switch (hdr := sample_headers) (glob := sample_secondary)
          idle_wait 30 (tick_unreachable 1003 500 stonith_absent true)
          (mkFrame 7 1 500 973 1330) st)) = SECONDARY_STATE_takeov.
Proof. split; vm_compute; reflexivity. Qed.

(** The run with the primary of a clean shutdown ends in [idle], with
    the connection closed and the secondary still inactive. *)
Example registered_then_idle :
  be_secondary_loop (hdr := sample_headers) (glob := sample_secondary)
    primary_says_go_inactive 30
    [tick_reachable 1001; tick_reachable 1002; tick_reachable 1003; tick_reachable 1004]
    (mkFrame 0 0 0 0 1330) started_at_1000 =
  Ok (mkFrame 4 0 0 0 1330, None) after_go_inactive /\
  Secondary_state after_go_inactive = SECONDARY_STATE_idle /\
  sec_sock after_go_inactive = -1 /\
  pbs_failover_active after_go_inactive = 0.
Proof.
  split; [vm_compute; reflexivity|].
  split; [vm_compute; reflexivity|].
  split; vm_compute; reflexivity.
Qed.

(** C8 on sample runs.  The deadline is 1330: from [noconn] an
    iteration at 1330 sleeps and stays in [noconn], an iteration at 1331
    moves to [takeov].  From [idle], long after the deadline, a failed
    dial leaves the state [idle]. *)
Lemma noconn_takeover_deadline_witness :
  takeov_on_nocontact (mkFrame 1 0 0 0 1330) = 1000 + 5 * 60 + 30 /\
  Secondary_state
    (final_state
       (be_secondary_switch (hdr := sample_headers) (glob := sample_secondary) idle_wait 30
          (tick_unreachable 1330 0 stonith_absent true)
          (incr_loop (mkFrame 1 0 0 0 1330)) (set_time_now 1330 after_one_tick))) =
  SECONDARY_STATE_noconn /\
  Secondary_state
    (final_state
       (be_secondary_switch (hdr := sample_headers) (glob := sample_secondary) idle_wait 30
          (tick_unreachable 1331 0 stonith_absent true)
          (incr_loop (mkFrame 1 0 0 0 1330)) (set_time_now 1331 after_one_tick))) =
  SECONDARY_STATE_takeov /\
  Secondary_state
    (final_state
       (be_secondary_switch (hdr := sample_headers) (glob := sample_secondary)
          primary_says_go_inactive 30
          (tick_unreachable 9999 0 stonith_absent true)
          (incr_loop (mkFrame 4 0 0 0 1330)) (set_time_now 9999 after_go_inactive))) =
  SECONDARY_STATE_idle.
Proof.
  assert (Hinit : be_secondary_init (glob := sample_secondary) 1000 1 (initial_state 30 0 None) =
                  Ok (mkFrame 0 0 0 0 1330) started_at_1000)
    by (vm_compute; reflexivity).
  assert (Hloop : be_secondary_loop (hdr := sample_headers) (glob := sample_secondary)
                    idle_wait 30 [tick_unreachable 1001 0 stonith_absent true]
                    (mkFrame 0 0 0 0 1330) started_at_1000 =
                  Ok (mkFrame 1 0 0 0 1330, None) after_one_tick)
    by (vm_compute; reflexivity).
  assert (Hnoconn : Secondary_state after_one_tick = SECONDARY_STATE_noconn)
    by (vm_compute; reflexivity).
  assert (Hloop' : be_secondary_loop (hdr := sample_headers) (glob := sample_secondary)
                     primary_says_go_inactive 30
                     [tick_reachable 1001; tick_reachable 1002; tick_reachable 1003;
                      tick_reachable 1004]
                     (mkFrame 0 0 0 0 1330) started_at_1000 =
                   Ok (mkFrame 4 0 0 0 1330, None) after_go_inactive)
    by (vm_compute; reflexivity).
  assert (Hidle : Secondary_state after_go_inactive = SECONDARY_STATE_idle)
    by (vm_compute; reflexivity).
  split; [|split; [|split]].
  - pose proof (noconn_takeover_deadline (hdr := sample_headers) (glob := sample_secondary)
                  idle_wait 30 1000 1 _ _ _ _ _ _
                  (tick_unreachable 1330 0 stonith_absent true)
                  Hinit Hloop ltac:(cbn; lia)
                  ltac:(vm_compute; split; discriminate)) as X.
    cbv zeta in X. destruct X as (_ & Hdl & _). exact Hdl.
  - pose proof (noconn_takeover_deadline (hdr := sample_headers) (glob := sample_secondary)
                  idle_wait 30 1000 1 _ _ _ _ _ _
                  (tick_unreachable 1330 0 stonith_absent true)
                  Hinit Hloop ltac:(cbn; lia)
                  ltac:(vm_compute; split; discriminate)) as X.
    cbv zeta in X. destruct X as (_ & _ & Hcase & _).
    destruct (Hcase Hnoconn) as (fr' & s' & Hrun & _ & Hiff & Hstay).
    change (te_time (tick_unreachable 1330 0 stonith_absent true)) with 1330 in Hrun.
    rewrite Hrun. apply Hstay. intros Htk. apply Hiff in Htk.
    vm_compute in Htk. destruct Htk as [Htk|Htk]; discriminate.
  - pose proof (noconn_takeover_deadline (hdr := sample_headers) (glob := sample_secondary)
                  idle_wait 30 1000 1 _ _ _ _ _ _
                  (tick_unreachable 1331 0 stonith_absent true)
                  Hinit Hloop ltac:(cbn; lia)
                  ltac:(vm_compute; split; discriminate)) as X.
    cbv zeta in X. destruct X as (_ & _ & Hcase & _).
    destruct (Hcase Hnoconn) as (fr' & s' & Hrun & _ & Hiff & _).
    change (te_time (tick_unreachable 1331 0 stonith_absent true)) with 1331 in Hrun.
    rewrite Hrun. apply Hiff. right. vm_compute. reflexivity.
  - pose proof (noconn_takeover_deadline (hdr := sample_headers) (glob := sample_secondary)
                  primary_says_go_inactive 30 1000 1 _ _ _ _ _ _
                  (tick_unreachable 9999 0 stonith_absent true)
                  Hinit Hloop' ltac:(cbn; lia)
                  ltac:(vm_compute; split; discriminate)) as X.
    cbv zeta in X. destruct X as (_ & _ & _ & Hcase).
    destruct (Hcase Hidle) as (fr' & s' & Hrun & _ & Hst & _).
    change (te_time (tick_unreachable 9999 0 stonith_absent true)) with 9999 in Hrun.
    rewrite Hrun. exact Hst.
Defined.

(** The script is there ([stat] returns 0) and returns 0, the read of
    its output fails, and the hook returns -1, its code for failed. *)
Example fencing_hook_unread_output :
  so_stat stonith_unread = 0 /\
  so_system stonith_unread = 0 /\
  exists st',
    check_and_invoke_stonith (hdr := sample_headers) (glob := sample_secondary)
      stonith_unread (Some "alpha")
      (secondary_in SECONDARY_STATE_takeov (-1)) = Ok (-1) st'.
Proof.
  split; [reflexivity|]. split; [reflexivity|].
  eexists. vm_compute. reflexivity.
Qed.

(** C9 on samples: a script that ends with exit code 1 keeps the
    secondary in [takeov] and inactive; a missing script lets it take over; and a
    script that returned 0, but whose output could not be read, keeps
    the secondary in [takeov] like one that failed. *)
Lemma takeov_fencing_witness :
  (exists st',
      be_secondary_switch (hdr := sample_headers) (glob := sample_secondary) idle_wait 30
        (tick_unreachable 1012 0 stonith_refuses true)
        (mkFrame 2 0 0 0 1330) (secondary_in SECONDARY_STATE_takeov (-1)) =
      Ok (mkFrame 2 0 0 0 1330, None) st' /\
      Secondary_state st' = SECONDARY_STATE_takeov /\
      pbs_failover_active st' = 0) /\
  (exists st',
      be_secondary_switch (hdr := sample_headers) (glob := sample_secondary) idle_wait 30
        (tick_unreachable 1012 0 stonith_absent true)
        (mkFrame 2 0 0 0 1330) (secondary_in SECONDARY_STATE_takeov (-1)) =
      Ok (mkFrame 2 0 0 0 1330, Some 0) st' /\
      pbs_failover_active st' = 1) /\
  (so_system stonith_unread = 0 /\
   exists st',
      be_secondary_switch (hdr := sample_headers) (glob := sample_secondary) idle_wait 30
        (tick_unreachable 1012 0 stonith_unread true)
        (mkFrame 2 0 0 0 1330) (secondary_in SECONDARY_STATE_takeov (-1)) =
      Ok (mkFrame 2 0 0 0 1330, None) st' /\
      Secondary_state st' = SECONDARY_STATE_takeov /\
      pbs_failover_active st' = 0).
Proof.
  split; [|split].
  - destruct (takeov_fencing (hdr := sample_headers) (glob := sample_secondary) idle_wait 30
                (tick_unreachable 1012 0 stonith_refuses true)
                (mkFrame 2 0 0 0 1330) (secondary_in SECONDARY_STATE_takeov (-1)) "alpha"
                eq_refl eq_refl ltac:(cbn; lia)) as (_ & _ & _ & _ & st' & X).
    change (fencing_outcome
              (te_stonith (tick_unreachable 1012 0 stonith_refuses true)))
      with fence_failed in X.
    cbv iota in X. destruct X as (Hrun & Hst & Hact & _).
    exists st'. repeat split; assumption.
  - destruct (takeov_fencing (hdr := sample_headers) (glob := sample_secondary) idle_wait 30
                (tick_unreachable 1012 0 stonith_absent true)
                (mkFrame 2 0 0 0 1330) (secondary_in SECONDARY_STATE_takeov (-1)) "alpha"
                eq_refl eq_refl ltac:(cbn; lia)) as (_ & _ & _ & _ & st' & X).
    change (fencing_outcome (te_stonith (tick_unreachable 1012 0 stonith_absent true)))
      with fence_absent in X.
    cbv iota in X. exists st'. exact X.
  - split; [reflexivity|].
    destruct (takeov_fencing (hdr := sample_headers) (glob := sample_secondary) idle_wait 30
                (tick_unreachable 1012 0 stonith_unread true)
                (mkFrame 2 0 0 0 1330) (secondary_in SECONDARY_STATE_takeov (-1)) "alpha"
                eq_refl eq_refl ltac:(cbn; lia)) as (_ & _ & _ & _ & st' & X).
    change (fencing_outcome (te_stonith (tick_unreachable 1012 0 stonith_unread true)))
      with fence_failed in X.
    cbv iota in X. destruct X as (Hrun & Hst & Hact & _).
    exists st'. repeat split; assumption.
Defined.

(** C10 on samples: the end of file in [handsk], and a decode error. *)
Lemma read_fo_request_on_read_failure_witness :
  (exists st' evs,
      read_fo_request (hdr := sample_headers) (glob := sample_secondary) idle_wait
        (mkFoReadEnv true (-1) (FAILOVER_other 0) sample_req_env) 5
        (secondary_in SECONDARY_STATE_handsk 5) = Ok tt st' /\
      trace st' = evs /\
      Secondary_state st' = SECONDARY_STATE_nohsk /\
      sec_sock st' = -1 /\
      existsb is_reply evs = false) /\
  (exists st',
      read_fo_request (hdr := sample_headers) (glob := sample_secondary) idle_wait
        (mkFoReadEnv true 9 (FAILOVER_other 0) sample_req_env) 5
        (secondary_in SECONDARY_STATE_inact 5) = Ok tt st' /\
      Secondary_state st' = SECONDARY_STATE_noconn).
Proof.
  split.
  - destruct (read_fo_request_on_read_failure (hdr := sample_headers)
                (glob := sample_secondary) idle_wait
                (mkFoReadEnv true (-1) (FAILOVER_other 0) sample_req_env) 5
                (secondary_in SECONDARY_STATE_handsk 5) eq_refl ltac:(cbn; lia))
      as (st' & evs & Hrun & Htr & Hst & Hsock & _ & _ & Hno).
    exists st', evs. repeat split; assumption.
  - destruct (read_fo_request_on_read_failure (hdr := sample_headers)
                (glob := sample_secondary) idle_wait
                (mkFoReadEnv true 9 (FAILOVER_other 0) sample_req_env) 5
                (secondary_in SECONDARY_STATE_inact 5) eq_refl ltac:(cbn; lia))
      as (st' & evs & Hrun & _ & Hst & _).
    exists st'. split; assumption.
Defined.

(** * The further properties on sample runs *)

(** ** Polls that find nothing to do *)

Lemma idle_wait_calm : calm idle_wait.
Proof. intros sec s. exists 0. split; [reflexivity|discriminate]. Qed.

Lemma idle_wait_adds (p : event -> bool) : poll_adds p idle_wait.
Proof. intros sec s. exists []. split; [symmetry; apply app_nil_r|reflexivity]. Qed.

Lemma idle_wait_keeps (inv : state -> Prop) : keeps inv idle_wait.
Proof. intros sec s H. exact H. Qed.

Lemma idle_wait_returns_keeping (inv : state -> Prop) : returns_keeping inv idle_wait.
Proof. intros sec s H. exists 0, s. split; [reflexivity|exact H]. Qed.

Lemma idle_wait_preserves {A : Type} (f : state -> A) : preserves f idle_wait.
Proof. intros sec s. reflexivity. Qed.


(** The active secondary keeps the PRIM_IS_BACK request for later and
    sends no reply yet. *)
Lemma req_failover_answers_once_witness :
  exists evs,
    trace (final_state
             (req_failover (hdr := sample_headers) (glob := sample_secondary) idle_wait
                sample_req_env (request_on 5 FAILOVER_PrimIsBack)
                (secondary_in SECONDARY_STATE_handsk 5))) =
      trace (secondary_in SECONDARY_STATE_handsk 5) ++ evs /\
    length (filter is_reply evs) = 0%nat.
Proof.
  pose proof (req_failover_answers_once (hdr := sample_headers) (glob := sample_secondary)
                idle_wait sample_req_env (request_on 5 FAILOVER_PrimIsBack)
                (secondary_in SECONDARY_STATE_handsk 5) (idle_wait_adds _)) as X.
  cbv zeta in X. destruct X as (evs & Htr & Hlen & _).
  exists evs. split; [exact Htr|exact Hlen].
Defined.

(** A handshake at 1000: at 1009 the secondary still waits, at 1010 it
    misses the handshake. *)
Lemma handshake_then_timer_witness :
  (exists s',
     be_secondary_switch (hdr := sample_headers) (glob := sample_secondary) idle_wait 30
       (tick_unreachable 1009 0 stonith_absent true) (mkFrame 1 0 0 0 1330)
       (set_time_now 1009
          (final_state
             (req_failover (hdr := sample_headers) (glob := sample_secondary) idle_wait
                sample_req_env (request_on 5 FAILOVER_HandShake)
                (secondary_in SECONDARY_STATE_nohsk 5)))) =
       Ok (mkFrame 1 0 0 0 1330, None) s' /\
     Secondary_state s' = SECONDARY_STATE_handsk) /\
  (exists s',
     be_secondary_switch (hdr := sample_headers) (glob := sample_secondary) idle_wait 30
       (tick_unreachable 1010 0 stonith_absent true) (mkFrame 1 0 0 0 1330)
       (set_time_now 1010
          (final_state
             (req_failover (hdr := sample_headers) (glob := sample_secondary) idle_wait
                sample_req_env (request_on 5 FAILOVER_HandShake)
                (secondary_in SECONDARY_STATE_nohsk 5)))) =
       Ok (mkFrame 1 0 0 0 1330, None) s' /\
     Secondary_state s' = SECONDARY_STATE_nohsk).
Proof.
  split.
  - pose proof (handshake_then_timer (hdr := sample_headers) (glob := sample_secondary)
                  idle_wait sample_req_env (request_on 5 FAILOVER_HandShake)
                  (secondary_in SECONDARY_STATE_nohsk 5) 30 1009
                  (tick_unreachable 1009 0 stonith_absent true) (mkFrame 1 0 0 0 1330)
                  eq_refl eq_refl (or_intror eq_refl)) as X.
    cbv zeta in X. destruct X as (s' & Hrun & Hst & _).
    exists s'. split; [exact Hrun|exact Hst].
  - pose proof (handshake_then_timer (hdr := sample_headers) (glob := sample_secondary)
                  idle_wait sample_req_env (request_on 5 FAILOVER_HandShake)
                  (secondary_in SECONDARY_STATE_nohsk 5) 30 1010
                  (tick_unreachable 1010 0 stonith_absent true) (mkFrame 1 0 0 0 1330)
                  eq_refl eq_refl (or_intror eq_refl)) as X.
    cbv zeta in X. destruct X as (s' & Hrun & Hst & _).
    exists s'. split; [exact Hrun|exact Hst].
Defined.

(** The secondary [gamma] registers on handle 4, its connection closes,
    and [delta] is accepted on handle 8. *)
Lemma register_close_register_witness :
  Secondary_connection primary_with_peer = 4 /\
  Secondary_connection (final_state (close_secondary (Some 4) primary_with_peer)) = -1 /\
  Secondary_connection
    (final_state
       (req_failover (hdr := sample_headers) (glob := sample_primary) idle_wait
          (mkReqEnv true "delta" 8 1020) (register_from 11)
          (final_state (close_secondary (Some 4) primary_with_peer)))) = 8.
Proof.
  pose proof (register_close_register (hdr := sample_headers) (glob := sample_primary)
                idle_wait sample_req_env (mkReqEnv true "delta" 8 1020)
                (register_from 9) (register_from 11) (Some 4) primary_alone
                eq_refl eq_refl eq_refl eq_refl eq_refl ltac:(simpl; lia)) as X.
  cbv zeta in X. exact X.
Defined.

(** The handshake to [gamma] cannot be sent: the primary forgets the
    connection, and [delta] can register. *)
Lemma primary_handshake_after_lost_peer_witness :
  Secondary_connection
    (final_state (primary_handshake (hdr := sample_headers) handshake_unsent
                    primary_with_peer)) = -2 /\
  Secondary_connection
    (final_state
       (req_failover (hdr := sample_headers) (glob := sample_primary) idle_wait
          (mkReqEnv true "delta" 8 1020) (register_from 11)
          (final_state (primary_handshake (hdr := sample_headers) handshake_unsent
                          primary_with_peer)))) = 8.
Proof.
  pose proof (primary_handshake_after_lost_peer (hdr := sample_headers)
                (glob := sample_primary) idle_wait handshake_unsent handshake_sent
                (mkReqEnv true "delta" 8 1020) (register_from 11) primary_with_peer
                ltac:(vm_compute; discriminate) eq_refl ltac:(discriminate)
                eq_refl eq_refl) as X.
  cbv zeta in X. destruct X as (H1 & _ & _ & H4).
  split; [exact H1|exact H4].
Defined.

(** The primary comes back, the active secondary acknowledges. *)
Lemma takeover_reply_decides_witness :
  exists st' evs,
    takeover_from_secondary (hdr := sample_headers)
      (fun _ : Z =>
         read_reg_reply (hdr := sample_headers) (glob := sample_primary)
           (reply_ok "" (-1) (-1)) (tk_alt_conn takeover_reaches) ;; ret 0)
      takeover_reaches primary_alone = Ok 1 st' /\
    goidle_ack st' = 0 /\
    trace st' = trace primary_alone ++ evs.
Proof.
  pose proof (takeover_reply_decides (hdr := sample_headers) (glob := sample_primary)
                takeover_reaches (reply_ok "" (-1) (-1)) primary_alone
                ltac:(discriminate) ltac:(vm_compute; discriminate)
                eq_refl eq_refl eq_refl ltac:(discriminate)) as X.
  cbv zeta in X. destruct X as (st' & evs & (Hrun & Hack) & Htr & _).
  exists st', evs. split; [exact Hrun|]. split; [exact Hack|exact Htr].
Defined.

(** The primary comes back and nothing answers within the poll. *)
Lemma takeover_needs_acknowledgement_witness :
  exists st' evs,
    takeover_from_secondary (hdr := sample_headers) idle_wait takeover_reaches
      primary_alone = Exited 2 st' /\
    trace st' = trace primary_alone ++ evs /\
    goidle_ack st' = 1.
Proof.
  pose proof (takeover_needs_acknowledgement (hdr := sample_headers) idle_wait
                takeover_reaches primary_alone idle_wait_calm) as X.
  cbv zeta in X. destruct X as (st' & evs & Hrun & Htr & Hack & _).
  exists st', evs. split; [exact Hrun|]. split; [exact Htr|exact Hack].
Defined.


(** The stonith script returns 1 at 1400 and again at 1411: the
    secondary is still in [takeov] and not active. *)
Lemma fencing_failure_blocks_takeover_witness :
  exists fr' st' evs,
    be_secondary_loop (hdr := sample_headers) (glob := sample_secondary) idle_wait 30
      [tick_unreachable 1400 0 stonith_refuses true;
       tick_unreachable 1411 0 stonith_refuses true]
      (mkFrame 9 0 0 0 1330) (secondary_in SECONDARY_STATE_takeov (-1)) =
      Ok (fr', None) st' /\
    Secondary_state st' = SECONDARY_STATE_takeov /\
    pbs_failover_active st' = 0 /\
    secondaryact st' = None /\
    (2 <= length (filter is_sleep evs))%nat.
Proof.
  pose proof (fencing_failure_blocks_takeover (hdr := sample_headers)
                (glob := sample_secondary) idle_wait 30
                [tick_unreachable 1400 0 stonith_refuses true;
                 tick_unreachable 1411 0 stonith_refuses true]
                idle_wait_calm
                ltac:(repeat (constructor; try reflexivity); right; reflexivity)
                (mkFrame 9 0 0 0 1330) (secondary_in SECONDARY_STATE_takeov (-1))
                eq_refl) as X.
  destruct X as (fr' & st' & evs & Hrun & Hst & Hact & Hm & _ & Hsl).
  exists fr', st', evs. split; [exact Hrun|]. split; [exact Hst|].
  split; [exact Hact|]. split; [exact Hm|exact Hsl].
Defined.

(** The run that ends in a takeover returns: no exit on the way. *)
Lemma be_secondary_loop_never_exits_witness :
  exists r st',
    be_secondary_loop (hdr := sample_headers) (glob := sample_secondary) idle_wait (-1)
      (takeover_run true) (mkFrame 0 0 0 0 1300)
      (secondary_in SECONDARY_STATE_noconn (-1)) = Ok r st' /\
    off_shutd st'.
Proof.
  exact (be_secondary_loop_never_exits (hdr := sample_headers) (glob := sample_secondary)
           idle_wait (-1) (takeover_run true) (idle_wait_returns_keeping _)
           (mkFrame 0 0 0 0 1300) (secondary_in SECONDARY_STATE_noconn (-1))
           ltac:(intro H; vm_compute in H; discriminate H)).
Defined.

(** A request to shut down, which ends the process, and an accepted
    registration. *)
Lemma handlers_keep_off_shutd_witness :
  off_shutd
    (final_state
       (read_fo_request (hdr := sample_headers) (glob := sample_secondary) idle_wait
          (mkFoReadEnv true 0 FAILOVER_SecdShutdown sample_req_env) 5
          (secondary_in SECONDARY_STATE_handsk 5))) /\
  off_shutd
    (final_state
       (read_reg_reply (hdr := sample_headers) (glob := sample_secondary)
          (reply_ok "-1" 3 8) 5 (secondary_in SECONDARY_STATE_handsk 5))).
Proof.
  exact (handlers_keep_off_shutd (hdr := sample_headers) (glob := sample_secondary)
           idle_wait (mkFoReadEnv true 0 FAILOVER_SecdShutdown sample_req_env)
           (reply_ok "-1" 3 8) 5 5 (secondary_in SECONDARY_STATE_handsk 5)
           (idle_wait_keeps _) ltac:(intro H; vm_compute in H; discriminate H)).
Defined.

(** A primary that answers REGISTER with [PBSE_UNKREQ]. *)
Lemma regfailed_line_unreachable_witness :
  read_reg_reply (hdr := sample_headers) (glob := sample_secondary)
    (reply_rejected 15005) 5 (secondary_in SECONDARY_STATE_regsent 5) =
  Exited 1
    (set_trace
       (trace (secondary_in SECONDARY_STATE_regsent 5) ++
        [E_log_event LOG_CRIT "Active PBS Server at %s %s"
           [ArgS (c_str (pbs_primary (pbs_globals := sample_secondary)));
            ArgS "did not accept secondary registration"]])
       (secondary_in SECONDARY_STATE_regsent 5)).
Proof.
  exact (proj2 (regfailed_line_unreachable (hdr := sample_headers)
                  (glob := sample_secondary) (reply_rejected 15005) 5
                  (secondary_in SECONDARY_STATE_regsent 5) ltac:(discriminate))
           ltac:(discriminate) eq_refl eq_refl eq_refl).
Defined.

(** In [takeov], with the primary out of reach and a script installed,
    the script is run. *)
Lemma fencing_only_after_failed_dial_witness :
  exists evs,
    trace
      (final_state
         (be_secondary_switch (hdr := sample_headers) (glob := sample_secondary) idle_wait 30
            (tick_unreachable 1400 0 stonith_refuses true) (mkFrame 9 0 0 0 1330)
            (secondary_in SECONDARY_STATE_takeov (-1)))) =
      trace (secondary_in SECONDARY_STATE_takeov (-1)) ++ evs /\
    existsb is_system evs = true.
Proof.
  exact (fencing_only_after_failed_dial (hdr := sample_headers) (glob := sample_secondary)
           idle_wait 30 (tick_unreachable 1400 0 stonith_refuses true)
           (mkFrame 9 0 0 0 1330) (secondary_in SECONDARY_STATE_takeov (-1))
           (idle_wait_adds _)).
Defined.

(** The live file cannot be examined, 40 seconds after the last
    handshake: back to [noconn]. *)
Lemma nohsk_takeover_evidence_witness :
  exists fr' st',
    be_secondary_switch (hdr := sample_headers) (glob := sample_secondary) idle_wait 30
      (mkTickEnv 1040 (-1) false true (-1) (-1) 0 (-1) stonith_absent true)
      (mkFrame 7 1 500 973 1330)
      (set_time_now 1040 (secondary_in SECONDARY_STATE_nohsk (-1))) = Ok (fr', None) st' /\
    Secondary_state st' = SECONDARY_STATE_noconn.
Proof.
  destruct (nohsk_takeover_evidence (hdr := sample_headers) (glob := sample_secondary)
              idle_wait 30
              (mkTickEnv 1040 (-1) false true (-1) (-1) 0 (-1) stonith_absent true)
              (mkFrame 7 1 500 973 1330)
              (set_time_now 1040 (secondary_in SECONDARY_STATE_nohsk (-1))) eq_refl)
    as (fr' & st' & evs & Hrun & _ & _ & Hback & _).
  exists fr', st'. split; [exact Hrun|].
  apply Hback; [discriminate|reflexivity].
Defined.

(** Two iterations, one that reaches the primary and one that does
    not. *)
Lemma sec_sock_minus_one_or_descriptor_witness :
  sock_ok
    (final_state
       (be_secondary_loop (hdr := sample_headers) (glob := sample_secondary) idle_wait 30
          [tick_reachable 1001; tick_unreachable 1002 0 stonith_absent true]
          (mkFrame 0 0 0 0 1330) (secondary_in SECONDARY_STATE_noconn (-1)))).
Proof.
  exact (sec_sock_minus_one_or_descriptor (hdr := sample_headers)
           (glob := sample_secondary) idle_wait 30
           [tick_reachable 1001; tick_unreachable 1002 0 stonith_absent true]
           (idle_wait_keeps _) (mkFrame 0 0 0 0 1330)
           (secondary_in SECONDARY_STATE_noconn (-1))
           ltac:(unfold sock_ok; simpl; lia)).
Defined.

(** Without an address for the primary the process ends with code 1 and
    the flag is not touched. *)
Lemma be_secondary_returns_active_witness :
  match
    be_secondary (hdr := sample_headers) (glob := sample_secondary) idle_wait 30 1000 0
      (takeover_run true) (initial_state 30 0 None)
  with
  | Ok _ _ => False
  | Exited c st' => c = 1 /\ pbs_failover_active st' = 0
  end.
Proof.
  pose proof (be_secondary_returns_active (hdr := sample_headers)
                (glob := sample_secondary) idle_wait 30 1000 0 (takeover_run true)
                (initial_state 30 0 None) (idle_wait_preserves _)
                (idle_wait_preserves _)) as X.
  destruct (be_secondary (hdr := sample_headers) (glob := sample_secondary) idle_wait
              30 1000 0 (takeover_run true) (initial_state 30 0 None))
    as [[v|] st'|c st'].
  - destruct X as (_ & _ & Hp). apply Hp. reflexivity.
  - destruct X as (_ & Hp). apply Hp. reflexivity.
  - destruct X as (Hact & Hc). destruct (Hc eq_refl) as (Hc1 & _).
    split; [exact Hc1|exact Hact].
Defined.

(** In [conn], with a request allocated and sent: [regsent]. *)
Lemma conn_sends_registration_witness :
  exists st' evs,
    be_secondary_switch (hdr := sample_headers) (glob := sample_secondary) idle_wait 30
      (tick_reachable 1002) (mkFrame 2 0 0 0 1330)
      (secondary_in SECONDARY_STATE_conn 5) = Ok (mkFrame 2 0 0 0 1330, None) st' /\
    trace st' = trace (secondary_in SECONDARY_STATE_conn 5) ++ evs /\
    Secondary_state st' = SECONDARY_STATE_regsent /\
    sec_sock st' = 5 /\
    length (filter is_alloc evs) = length (filter is_free evs).
Proof.
  pose proof (conn_sends_registration (hdr := sample_headers) (glob := sample_secondary)
                idle_wait 30 (tick_reachable 1002) (mkFrame 2 0 0 0 1330)
                (secondary_in SECONDARY_STATE_conn 5) eq_refl) as X.
  cbv zeta in X. destruct X as (st' & evs & Hrun & Htr & Hst & Hsock & _ & _ & Hbal).
  exists st', evs. repeat (split; [assumption|]). exact Hbal.
Defined.

(** Socket 5 is closed at 1001 and written to at 1002. *)
Lemma register_on_closed_socket_witness :
  exists fr1 s1 fr2 s2 pre mid post,
    be_secondary_iter (hdr := sample_headers) (glob := sample_secondary) idle_wait 30
      (tick_no_room 1001) (mkFrame 0 0 0 0 1330)
      (secondary_in SECONDARY_STATE_noconn (-1)) = Ok (fr1, None) s1 /\
    be_secondary_iter (hdr := sample_headers) (glob := sample_secondary) idle_wait 30
      (tick_reachable 1002) fr1 s1 = Ok (fr2, None) s2 /\
    trace s2 = trace (secondary_in SECONDARY_STATE_noconn (-1)) ++
               pre ++ E_close 5 :: mid ++ E_put_failover 5 FAILOVER_Register :: post.
Proof.
  pose proof (register_on_closed_socket (hdr := sample_headers) (glob := sample_secondary)
                idle_wait 30 (tick_no_room 1001) (tick_reachable 1002)
                (mkFrame 0 0 0 0 1330) (secondary_in SECONDARY_STATE_noconn (-1))
                idle_wait_calm (or_introl eq_refl) ltac:(vm_compute; discriminate)
                eq_refl eq_refl) as X.
  cbv zeta in X.
  destruct X as (fr1 & s1 & fr2 & s2 & pre & mid & post & H1 & _ & _ & H2 & Htr).
  exists fr1, s1, fr2, s2, pre, mid, post.
  split; [exact H1|]. split; [exact H2|exact Htr].
Defined.

(** A request with a tag that [req_failover] does not know is rejected
    with [PBSE_SYSTEM]. *)
Lemma req_failover_error_code_witness :
  forallb (reply_code_ok (hdr := sample_headers))
    (events_since (trace (secondary_in SECONDARY_STATE_handsk 5))
       (trace
          (final_state
             (req_failover (hdr := sample_headers) (glob := sample_secondary) idle_wait
                sample_req_env (request_on 5 (FAILOVER_other 42))
                (secondary_in SECONDARY_STATE_handsk 5))))) = true.
Proof.
  exact (req_failover_error_code (hdr := sample_headers) (glob := sample_secondary)
           idle_wait sample_req_env (request_on 5 (FAILOVER_other 42))
           (secondary_in SECONDARY_STATE_handsk 5) (idle_wait_adds _)).
Defined.

(** The connection ends at 1003; the live file, last written at 500, is
    seen at 1010 and again at 1041; at 1052 the secondary is active. *)
Lemma primary_silence_leads_to_takeover_witness :
  exists fr' st',
    be_secondary_loop (hdr := sample_headers) (glob := sample_secondary) idle_wait 30
      [tick_unreachable 1010 500 stonith_absent true;
       tick_unreachable 1041 500 stonith_absent true;
       tick_unreachable 1052 500 stonith_absent true]
      (mkFrame 3 0 0 0 1330)
      (final_state
         (read_fo_request (hdr := sample_headers) (glob := sample_secondary) idle_wait
            (mkFoReadEnv true (-1) (FAILOVER_other 0) sample_req_env) 5
            (secondary_in SECONDARY_STATE_handsk 5))) = Ok (fr', Some 0) st' /\
    pbs_failover_active st' = 1 /\
    secondaryact st' = Some (String.append "beta" (String "010"%char "")).
Proof.
  pose proof (primary_silence_leads_to_takeover (hdr := sample_headers)
                (glob := sample_secondary) idle_wait 30
                (mkFoReadEnv true (-1) (FAILOVER_other 0) sample_req_env) 5
                (tick_unreachable 1010 500 stonith_absent true)
                (tick_unreachable 1041 500 stonith_absent true)
                (tick_unreachable 1052 500 stonith_absent true)
                (mkFrame 3 0 0 0 1330) (secondary_in SECONDARY_STATE_handsk 5) "alpha"
                idle_wait_calm eq_refl eq_refl eq_refl
                ltac:(simpl; lia) eq_refl ltac:(simpl; lia) eq_refl
                ltac:(simpl; lia) ltac:(vm_compute; reflexivity) ltac:(simpl; lia) eq_refl
                ltac:(vm_compute; discriminate)) as X.
  cbv zeta in X. destruct X as (fr' & st' & _ & Hrun & Hact & Hfile).
  exists fr', st'. split; [exact Hrun|]. split; [exact Hact|exact Hfile].
Defined.

(** The primary accepts the registration without sending its host id:
    socket 5 is closed by the next pass, which dials again. *)
Lemma textless_reply_redials_witness :
  exists s1 fr2 s2 evs,
    read_reg_reply (hdr := sample_headers) (glob := sample_secondary)
      (reply_rejected 0) 5 (secondary_in SECONDARY_STATE_regsent 5) = Ok tt s1 /\
    be_secondary_switch (hdr := sample_headers) (glob := sample_secondary) idle_wait 30
      (tick_reachable 1004) (mkFrame 3 0 0 0 1330) s1 = Ok (fr2, None) s2 /\
    trace s2 = trace s1 ++ E_close_conn 5 :: E_client_to_svr :: evs.
Proof.
  destruct (textless_reply_redials (hdr := sample_headers) (glob := sample_secondary)
              idle_wait (reply_rejected 0) 5 30 (tick_reachable 1004)
              (mkFrame 3 0 0 0 1330) (secondary_in SECONDARY_STATE_regsent 5)
              ltac:(discriminate) eq_refl eq_refl eq_refl eq_refl
              ltac:(simpl; lia))
    as (s1 & fr2 & s2 & evs & Hreply & _ & _ & Hswitch & Htr).
  exists s1, fr2, s2, evs. split; [exact Hreply|]. split; [exact Hswitch|exact Htr].
Defined.

(** ** A poll that fails in [idle]

    The secondary that was told to go inactive is in [idle]; it was
    started with a delay of -1.  The poll at the end of an iteration
    fails and the state becomes [noconn]: the next iteration moves to
    [takeov], and the one after it makes the secondary active. *)
Example idle_poll_failure :
  exists fr' st',
    be_secondary_loop (hdr := sample_headers) (glob := sample_secondary)
      wait_fails_in_idle (-1)
      [tick_unreachable 9000 0 stonith_absent true;
       tick_unreachable 9011 0 stonith_absent true;
       tick_unreachable 9012 0 stonith_absent true]
      (mkFrame 4 0 0 0 1330) after_go_inactive = Ok (fr', Some 0) st' /\
    Secondary_state after_go_inactive = SECONDARY_STATE_idle /\
    pbs_failover_active st' = 1.
Proof. eexists. eexists. split; [vm_compute; reflexivity|]. split; reflexivity. Qed.

(** ** The output line of the fencing script

    With a buffer of 4096 bytes, an output of 4095 characters is logged
    alone, without the value that [system()] returned; a short output is
    logged with it. *)
Lemma stonith_output_logged_witness :
  exists r evs,
    check_and_invoke_stonith (hdr := sample_headers) (glob := sample_secondary)
      (stonith_ran 256 long_output) (Some "alpha")
      (secondary_in SECONDARY_STATE_takeov (-1)) =
      Ok r (set_trace (trace (secondary_in SECONDARY_STATE_takeov (-1)) ++ evs)
              (secondary_in SECONDARY_STATE_takeov (-1))) /\
    filter is_log_event (after_open_out evs) = [E_log_event LOG_INFO long_output []] /\
    snprintf (LOG_BUF_SIZE (pbs_headers := sample_headers))
      (stonith_output_line "no route to host" 256) =
    "no route to host, exit_code: 256.".
Proof.
  pose proof (stonith_output_logged (hdr := sample_headers) (glob := sample_secondary)
                (stonith_ran 256 long_output) "alpha"
                (secondary_in SECONDARY_STATE_takeov (-1))) as X.
  cbv zeta in X. destruct X as (r & evs & Hrun & Hlog & _ & Hcut).
  exists r, evs. split; [exact Hrun|]. split.
  - rewrite Hlog. change (output_captured (stonith_ran 256 long_output)) with true.
    cbv iota. rewrite Hcut by (vm_compute; discriminate). vm_compute. reflexivity.
  - destruct (stonith_output_logged (hdr := sample_headers) (glob := sample_secondary)
                (stonith_ran 256 "no route to host") "alpha"
                (secondary_in SECONDARY_STATE_takeov (-1))) as (_ & _ & _ & _ & Hfit & _).
    apply Hfit. vm_compute. reflexivity.
Defined.

(** ** A submission

    With a script and a credential of five bytes, and every call going
    well: the job id of the server is returned, the attribute has been
    queued with SET, and the credential is gone from the thread
    context. *)
Example pbs_submit_with_cred_sample_run :
  Libifl.pbs_submit_with_cred (err := Libifl.sample_errors)
    (Libifl.mkCredEnv 0 0 true true Libifl.submit_ok 0) 3 (Some "job.sh") "workq" None
    2 5 (Some "token") Libifl.sample_client =
  (Some "17.alpha",
   Libifl.mkClient (Some (Libifl.mkCredInfo 0 0 None))
     [Libifl.mkAttropl "Resource_List" (Some "ncpus") "4" Libifl.SET]
     [Libifl.C_init_thread_context; Libifl.C_lock_connection 3;
      Libifl.C_get_context_data; Libifl.C_malloc;
      Libifl.C_init_thread_context; Libifl.C_get_context_data;
      Libifl.C_verify_attributes 3
        [Libifl.mkAttropl "Resource_List" (Some "ncpus") "4" Libifl.INCR];
      Libifl.C_lock_connection 3; Libifl.C_access "job.sh";
      Libifl.C_queuejob 3 "" "workq"
        [Libifl.mkAttropl "Resource_List" (Some "ncpus") "4" Libifl.SET] None;
      Libifl.C_jscript 3 "job.sh"; Libifl.C_jcred 3 2 (Some "token") 5;
      Libifl.C_commit 3 "17.alpha"; Libifl.C_unlock_connection 3;
      Libifl.C_unlock_connection 3]).
Proof. vm_compute; reflexivity. Qed.
